(** * CopilotRuntime: a shallow embedding of
      packages/runtime/src/lib/runtime/copilot-runtime.ts

    The TypeScript class coordinates one conversational turn: it assembles
    the server-side actions, merges them with the client-declared ones,
    runs the middleware hooks and dispatches the turn either to the service
    adapter or to a remote agent.  Asynchronous code is embedded in the
    order in which its awaits complete; a thrown exception is the [Threw]
    result; calls to collaborators are recorded in a trace. *)

From Stdlib Require Import String List ZArith Bool Lia Ascii DecimalString.
Import ListNotations.
Local Open Scope string_scope.
Local Open Scope list_scope.

Set Implicit Arguments.
Set Warnings "-register-all".

(** String concatenation, as [+] on JavaScript strings. *)
Infix "^^" := String.append (at level 60, right associativity).

(** ** Action inputs (graphql/inputs/action.input) *)

Inductive ActionInputAvailability := disabled | enabled | remote.

Definition ActionInputAvailability_eqb (a b : ActionInputAvailability) : bool :=
  match a, b with
  | disabled, disabled | enabled, enabled | remote, remote => true
  | _, _ => false
  end.

Module ActionInput.
Record t := mk {
  name : string;
  description : string;
  jsonSchema : string;
  available : option ActionInputAvailability
}.
End ActionInput.

(** ** [flattenToolCallsNoDuplicates]

    [Array.prototype.includes] on an array of strings is a linear search
    with string equality. *)

Definition includes (names : list string) (n : string) : bool :=
  existsb (String.eqb n) names.

(** The loop body: the state is the pair of local arrays
    [(allTools, allToolNames)]; [push] appends at the end. *)
Definition flatten_step (st : list ActionInput.t * list string) (tool : ActionInput.t)
  : list ActionInput.t * list string :=
  let '(allTools, allToolNames) := st in
  if negb (includes allToolNames (ActionInput.name tool))
  then (allTools ++ [tool], allToolNames ++ [ActionInput.name tool])
  else (allTools, allToolNames).

Definition flattenToolCallsNoDuplicates (toolsByPriority : list ActionInput.t)
  : list ActionInput.t :=
  fst (fold_left flatten_step toolsByPriority ([], [])).

(** A structurally recursive view of the same loop, used to reason about it:
    the tools of [l] whose name is neither in [seen] nor earlier in [l]. *)
Fixpoint keep_fresh (seen : list string) (l : list ActionInput.t) : list ActionInput.t :=
  match l with
  | [] => []
  | tool :: rest =>
      if includes seen (ActionInput.name tool)
      then keep_fresh seen rest
      else tool :: keep_fresh (seen ++ [ActionInput.name tool]) rest
  end.

(** [Subseq s l]: [s] is obtained from [l] by deleting elements, the others
    keeping their order. *)
Inductive Subseq {A : Type} : list A -> list A -> Prop :=
| Subseq_nil : Subseq [] []
| Subseq_skip x s l : Subseq s l -> Subseq s (x :: l)
| Subseq_keep x s l : Subseq s l -> Subseq (x :: s) (x :: l).

(** The first entry of [l] called [n], as [Array.prototype.find] returns it. *)
Definition first_named (n : string) (l : list ActionInput.t) : option ActionInput.t :=
  find (fun a => String.eqb (ActionInput.name a) n) l.

(** ** JSON values and [JSON.stringify]

    Payloads the runtime only passes along or serializes.  Numbers are
    restricted to integers. *)

Inductive JSON :=
| JNull
| JBool (b : bool)
| JNumber (z : Z)
| JString (s : string)
| JArray (items : list JSON)
| JObject (fields : list (string * JSON)).

(** A JavaScript object with string keys, in insertion order. *)
Definition JsObject := list (string * JSON).

Definition quote : string := String (ascii_of_nat 34) EmptyString.
Definition backslash : string := String (ascii_of_nat 92) EmptyString.

Definition hex_digit (n : nat) : string :=
  String (ascii_of_nat (if Nat.ltb n 10 then 48 + n else 87 + n)) EmptyString.

(** The escape of one character inside a JSON string. *)
Definition escape_char (c : ascii) : string :=
  let n := nat_of_ascii c in
  if Nat.eqb n 34 then backslash ^^ quote
  else if Nat.eqb n 92 then backslash ^^ backslash
  else if Nat.eqb n 8 then backslash ^^ "b"
  else if Nat.eqb n 9 then backslash ^^ "t"
  else if Nat.eqb n 10 then backslash ^^ "n"
  else if Nat.eqb n 12 then backslash ^^ "f"
  else if Nat.eqb n 13 then backslash ^^ "r"
  else if Nat.ltb n 32 then backslash ^^ "u00" ^^ hex_digit (n / 16) ^^ hex_digit (n mod 16)
  else String c EmptyString.

Fixpoint escape_string (s : string) : string :=
  match s with
  | EmptyString => EmptyString
  | String c rest => escape_char c ^^ escape_string rest
  end.

Definition quoted (s : string) : string := quote ^^ escape_string s ^^ quote.

Definition string_of_Z (z : Z) : string := NilZero.string_of_int (Z.to_int z).

Definition join (sep : string) (parts : list string) : string :=
  match parts with
  | [] => EmptyString
  | p :: ps => fold_left (fun acc q => acc ^^ sep ^^ q) ps p
  end.

Fixpoint stringify (v : JSON) : string :=
  match v with
  | JNull => "null"
  | JBool true => "true"
  | JBool false => "false"
  | JNumber z => string_of_Z z
  | JString s => quoted s
  | JArray items => "[" ^^ join "," (map stringify items) ^^ "]"
  | JObject fields =>
      "{" ^^ join "," (map (fun kv => quoted (fst kv) ^^ ":" ^^ stringify (snd kv)) fields) ^^ "}"
  end.

(** Property access [o[k]]: the first field called [k], [None] for
    [undefined]. *)
Fixpoint get (k : string) (o : JsObject) : option JSON :=
  match o with
  | [] => None
  | (k', v) :: rest => if String.eqb k' k then Some v else get k rest
  end.

(** The rest pattern [const { k, ...rest } = o]: [o] without its field [k]. *)
Definition without (k : string) (o : JsObject) : JsObject :=
  filter (fun kv => negb (String.eqb (fst kv) k)) o.

(** [Object.keys(o)]. *)
Definition keys (o : JsObject) : list string := map fst o.

(** JavaScript truthiness of a property that may be absent. *)
Definition truthy (v : option JSON) : bool :=
  match v with
  | None | Some JNull | Some (JBool false) => false
  | Some (JNumber z) => negb (Z.eqb z 0)
  | Some (JString s) => negb (String.eqb s EmptyString)
  | Some _ => true
  end.

(** String conversion inside a template literal. *)
Fixpoint template (v : JSON) : string :=
  match v with
  | JNull => "null"
  | JBool true => "true"
  | JBool false => "false"
  | JNumber z => string_of_Z z
  | JString s => s
  | JArray items =>
      join "," (map (fun i => match i with JNull => EmptyString | _ => template i end) items)
  | JObject _ => "[object Object]"
  end.

(** A template literal over a string that may be [undefined]. *)
Definition template_opt (s : option string) : string :=
  match s with Some s => s | None => "undefined" end.

(** ** Thrown values

    The error classes of [@copilotkit/shared]; [JsError] stands for every
    other thrown value ([new Error(...)], a [TypeError] of [fetch], ...). *)

Inductive Thrown :=
| CopilotKitMisuseError (message : string)
| CopilotKitApiDiscoveryError (url : string)
| ResolvedCopilotKitError (status : Z) (url : string) (isRemoteEndpoint : bool)
| CopilotKitLowLevelError (error : Thrown) (url : string)
| CopilotKitAgentDiscoveryError (agentName : string)
| JsError (message : string).

(** Modelled from the spec: the class declarations of [@copilotkit/shared]
    are not among the sources.  The five classes of the error taxonomy are
    the typed domain errors, subclasses of [CopilotKitError]; anything else
    is unclassified. *)
Definition instanceofCopilotKitError (e : Thrown) : bool :=
  match e with
  | JsError _ => false
  | _ => true
  end.

Inductive Outcome (A : Type) :=
| Returned (a : A)
| Threw (e : Thrown).
Arguments Returned {A} a.
Arguments Threw {A} e.

(** ** Plain data of the GraphQL layer *)

Definition Message := JSON.
Definition Headers := list (string * string).

Record GraphQLContext := { properties : JsObject }.

Record MessageInput := {
  agentStateMessage : option JSON;
  payload : JSON
}.

Module AgentSessionInput.
Record t := mk {
  agentName : string;
  nodeName : option string;
  threadId : option string
}.
End AgentSessionInput.

(** ** Endpoint definitions ([./remote-actions])

    [EndpointDefinition] is a union of two object types whose [type] tag is
    optional, so an endpoint is an object in which every field of either
    variant may be absent. *)

Inductive EndpointType := CopilotKit | LangGraphPlatform.

Definition EndpointType_eqb (a b : EndpointType) : bool :=
  match a, b with
  | CopilotKit, CopilotKit | LangGraphPlatform, LangGraphPlatform => true
  | _, _ => false
  end.

Definition HeaderHook := GraphQLContext -> Headers.

Module Endpoint.
Record t := mk {
  type : option EndpointType;
  url : option string;
  onBeforeRequest : option HeaderHook;
  deploymentUrl : option string;
  langsmithApiKey : option string;
  agents : option (list JSON)
}.
End Endpoint.
Definition EndpointDefinition := Endpoint.t.

Definition is_type (e : EndpointDefinition) (ty : EndpointType) : bool :=
  match Endpoint.type e with
  | Some ty' => EndpointType_eqb ty' ty
  | None => false
  end.

Definition present {A} (o : option A) : bool :=
  match o with Some _ => true | None => false end.

Definition resolveEndpointType (endpoint : EndpointDefinition) : EndpointType :=
  match Endpoint.type endpoint with
  | None =>
      if present (Endpoint.deploymentUrl endpoint) && present (Endpoint.agents endpoint)
      then LangGraphPlatform
      else CopilotKit
  | Some ty => ty
  end.

Definition copilotKitEndpoint (config : EndpointDefinition) : EndpointDefinition :=
  Endpoint.mk (Some CopilotKit) (Endpoint.url config) (Endpoint.onBeforeRequest config)
    (Endpoint.deploymentUrl config) (Endpoint.langsmithApiKey config) (Endpoint.agents config).

Definition langGraphPlatformEndpoint (config : EndpointDefinition) : EndpointDefinition :=
  Endpoint.mk (Some LangGraphPlatform) (Endpoint.url config) (Endpoint.onBeforeRequest config)
    (Endpoint.deploymentUrl config) (Endpoint.langsmithApiKey config) (Endpoint.agents config).

(** ** Agents and agent state *)

Module Agent.
Record t := mk {
  name : string;
  id : string;
  description : string;
  endpoint : EndpointDefinition
}.
End Agent.
Definition AgentWithEndpoint := Agent.t.

Module LoadAgentStateResponse.
Record t := mk {
  threadId : string;
  threadExists : bool;
  state : string;
  messages : string
}.
End LoadAgentStateResponse.

(** One entry of the assistant search of the LangGraph SDK. *)
Record Assistant := { assistant_id : string; graph_id : string }.

(** One entry of [InfoResponse.agents].  The interface declares [name] and
    [description]; [sent_id] is an [id] field the endpoint may put on the
    wire beside them. *)
Module InfoAgent.
Record t := mk {
  name : string;
  description : option string;
  sent_id : option string
}.
End InfoAgent.

Record InfoResponse := { info_agents : option (list InfoAgent.t) }.

(** The body of [POST /agents/state] before it is serialized again. *)
Record AgentStateBody := {
  body_threadId : string;
  body_threadExists : bool;
  body_state : JSON;
  body_messages : JSON
}.

(** A [fetch] response: [ok] holds for the statuses 200 to 299 (Fetch
    standard); [json] is what [response.json()] settles to. *)
Record FetchResponse (A : Type) := {
  status : Z;
  json : Outcome A
}.

Definition ok {A} (r : FetchResponse A) : bool :=
  (200 <=? status r)%Z && (status r <=? 299)%Z.

Record FetchInit := {
  method : string;
  headers : Headers;
  body : string
}.

Record LangGraphClient := {
  apiUrl : option string;
  apiKey : option string;
  defaultHeaders : Headers
}.

(** ** Middleware hooks, actions, the service adapter *)

Module OnBeforeRequestOptions.
Record t := mk {
  threadId : option string;
  runId : option string;
  inputMessages : list Message;
  properties : JsObject;
  url : option string
}.
End OnBeforeRequestOptions.

Module OnAfterRequestOptions.
Record t := mk {
  threadId : option string;
  runId : option string;
  inputMessages : list Message;
  outputMessages : list Message;
  properties : JsObject;
  url : option string
}.
End OnAfterRequestOptions.

(** What a call of the after-hook, of type [void | Promise<void>], does:
    it returns (a value or a promise that is fulfilled), it throws before
    returning, or it returns a promise that is rejected later. *)
Inductive HookOutcome :=
| HookReturns
| HookThrows (e : Thrown)
| HookRejects (e : Thrown).

(** The events of a remote agent run, and how the sequence ends. *)
Record Stream := {
  events : list JSON;
  failure : option Thrown
}.

Module RemoteAgentHandlerParams.
Record t := mk {
  name : string;
  threadId : option string;
  nodeName : option string;
  metaEvents : option (list JSON);
  actionInputsWithoutAgents : list ActionInput.t
}.
End RemoteAgentHandlerParams.

Module Action.
Record t := mk {
  name : string;
  description : string;
  parameters : JSON;
  remoteAgentHandler : option (RemoteAgentHandlerParams.t -> Outcome Stream)
}.
End Action.

Inductive ActionsConfiguration :=
| ActionsArray (actions : list Action.t)
| ActionsFunction (f : JsObject -> option string -> Outcome (list Action.t)).

Module AdapterRequest.
Record t := mk {
  messages : list Message;
  actions : list ActionInput.t;
  threadId : option string;
  runId : option string;
  forwardedParameters : option JSON;
  extensions : option JSON;
  agentSession : option AgentSessionInput.t;
  agentStates : option (list JSON)
}.
End AdapterRequest.

Module AdapterResponse.
Record t := mk {
  threadId : string;
  runId : option string;
  extensions : option JSON
}.
End AdapterResponse.

Record CopilotServiceAdapter := {
  isEmptyAdapter : bool;
  process : AdapterRequest.t -> Outcome AdapterResponse.t
}.

(** The event source of a response: the one handed to the service adapter,
    or one that forwards the stream of a remote agent. *)
Inductive RuntimeEventSource :=
| AdapterSource
| ForwardingSource (stream : Stream).

Module CopilotRuntimeRequest.
Record t := mk {
  serviceAdapter : CopilotServiceAdapter;
  messages : list MessageInput;
  actions : list ActionInput.t;
  agentSession : option AgentSessionInput.t;
  agentStates : option (list JSON);
  outputMessagesPromise : Outcome (list Message);
  threadId : option string;
  runId : option string;
  graphqlContext : GraphQLContext;
  forwardedParameters : option JSON;
  url : option string;
  extensions : option JSON;
  metaEvents : option (list JSON)
}.
End CopilotRuntimeRequest.

Module CopilotRuntimeResponse.
Record t := mk {
  threadId : option string;
  runId : option string;
  eventSource : RuntimeEventSource;
  serverSideActions : list Action.t;
  actionInputsWithoutAgents : list ActionInput.t;
  extensions : option JSON
}.
End CopilotRuntimeResponse.

Record SetupRemoteActionsParams := {
  setup_remoteEndpointDefinitions : list EndpointDefinition;
  setup_graphqlContext : GraphQLContext;
  setup_messages : list Message;
  setup_agentStates : option (list JSON);
  setup_frontendUrl : option string
}.

(** ** The world: calls made so far, random ids drawn, detached promises *)

Inductive Call :=
| ConsoleWarn (text : string)
| ConsoleError (text : string)
| SetupRemoteActions (params : SetupRemoteActionsParams)
| OnBeforeRequest (options : OnBeforeRequestOptions.t)
| ServiceAdapterProcess (request : AdapterRequest.t)
| RemoteAgentHandler (params : RemoteAgentHandlerParams.t)
| SendErrorMessageToChat
| Fetch (url : string) (init : FetchInit)
| AssistantsSearch (client : LangGraphClient)
| ThreadsGetState (client : LangGraphClient) (threadId : string)
| RandomId.

(** The chain [outputMessagesPromise.then(callback).catch(() => {})]: the
    promise, the hook the callback calls, and the options it builds from
    the output messages. *)
Record AfterRequestTask := {
  task_promise : Outcome (list Message);
  task_hook : option (OnAfterRequestOptions.t -> HookOutcome);
  task_options : list Message -> OnAfterRequestOptions.t
}.

Record World := {
  calls : list Call;
  drawn : nat;
  detached : list AfterRequestTask
}.

Definition M (A : Type) : Type := World -> World * Outcome A.

Definition ret {A} (a : A) : M A := fun w => (w, Returned a).

Definition throw {A} (e : Thrown) : M A := fun w => (w, Threw e).

Definition bind {A B} (m : M A) (k : A -> M B) : M B :=
  fun w =>
    match m w with
    | (w', Returned a) => k a w'
    | (w', Threw e) => (w', Threw e)
    end.

Notation "x <- m ;; k" := (bind m (fun x => k))
  (at level 61, m at next level, right associativity).
Notation "m ;;; k" := (bind m (fun _ => k))
  (at level 61, right associativity).

(** [try { m } catch (error) { handler error }]. *)
Definition try_catch {A} (m : M A) (handler : Thrown -> M A) : M A :=
  fun w =>
    match m w with
    | (w', Threw e) => handler e w'
    | r => r
    end.

Definition settled {A} (o : Outcome A) : M A := fun w => (w, o).

Definition call (c : Call) : M unit :=
  fun w => ({| calls := calls w ++ [c]; drawn := drawn w; detached := detached w |}, Returned tt).

(** A call to a collaborator, awaited. *)
Definition await {A} (c : Call) (o : Outcome A) : M A := call c ;;; settled o.

Definition detach (task : AfterRequestTask) : M unit :=
  fun w => ({| calls := calls w; drawn := drawn w; detached := detached w ++ [task] |}, Returned tt).

Fixpoint mapM {A B} (f : A -> M B) (l : list A) : M (list B) :=
  match l with
  | [] => ret []
  | x :: rest => y <- f x ;; ys <- mapM f rest ;; ret (y :: ys)
  end.

(** What a detached chain does once its promise is settled. *)
Record Settlement := {
  hookCalls : list OnAfterRequestOptions.t;
  swallowed : option Thrown;
  unhandledRejection : option Thrown
}.

Definition settle (task : AfterRequestTask) : Settlement :=
  match task_promise task with
  | Threw e =>
      (* the callback of [then] is skipped, the handler of [catch] drops [e] *)
      {| hookCalls := []; swallowed := Some e; unhandledRejection := None |}
  | Returned outputMessages =>
      match task_hook task with
      | None => {| hookCalls := []; swallowed := None; unhandledRejection := None |}
      | Some onAfterRequest =>
          let options := task_options task outputMessages in
          match onAfterRequest options with
          | HookReturns =>
              {| hookCalls := [options]; swallowed := None; unhandledRejection := None |}
          | HookThrows e =>
              (* the callback throws: the promise of [then] is rejected and
                 the handler of [catch] drops [e] *)
              {| hookCalls := [options]; swallowed := Some e; unhandledRejection := None |}
          | HookRejects e =>
              (* the callback does not return the promise of the hook: the
                 promise of [then] is fulfilled with [undefined], the handler
                 of [catch] does not run, the rejection has no handler *)
              {| hookCalls := [options]; swallowed := None; unhandledRejection := Some e |}
          end
      end
  end.

(** ** Collaborators outside this file

    Imported helpers and the network, taken as parameters.  [fetch] is given
    per route, its body typed as the source declares it.  A helper that can
    throw returns an [Outcome]: [langchainMessagesToCopilotKit] iterates
    over its argument and throws on one that is not iterable.
    [resolvedErrorConstructor status url isRemoteEndpoint] is the
    constructor call [new ResolvedCopilotKitError({ status, url,
    isRemoteEndpoint })]: [None] when the error object is built, [Some e]
    when the constructor throws [e] instead of building it. *)

Record ThreadState := { values : JsObject }.

Record Collaborators := {
  isRemoteAgentAction : Action.t -> bool;
  convertGqlInputToMessages : list MessageInput -> list Message;
  actionParametersToJsonSchema : JSON -> JSON;
  createHeaders : option HeaderHook -> GraphQLContext -> Headers;
  langchainMessagesToCopilotKit : option JSON -> Outcome JSON;
  resolvedErrorConstructor : Z -> string -> bool -> option Thrown;
  remoteChainToAction : JSON -> Outcome Action.t;
  setupRemoteActions : SetupRemoteActionsParams -> Outcome (list Action.t);
  fetchInfo : string -> FetchInit -> Outcome (FetchResponse (option InfoResponse));
  fetchAgentState : string -> FetchInit -> Outcome (FetchResponse AgentStateBody);
  assistantsSearch : LangGraphClient -> Outcome (option (list Assistant));
  threadsGetState : LangGraphClient -> string -> Outcome ThreadState;
  randomIds : nat -> string
}.

(** [randomId()]: the next id of the generator. *)
Definition randomId (env : Collaborators) : M string :=
  fun w =>
    ({| calls := calls w ++ [RandomId]; drawn := S (drawn w); detached := detached w |},
     Returned (randomIds env (drawn w))).

(** ** The runtime object and its constructor *)

Record Middleware := {
  mw_onBeforeRequest : option (OnBeforeRequestOptions.t -> Outcome unit);
  mw_onAfterRequest : option (OnAfterRequestOptions.t -> HookOutcome)
}.

Module CopilotRuntimeConstructorParams.
Record t := mk {
  middleware : option Middleware;
  actions : option ActionsConfiguration;
  remoteActions : option (list EndpointDefinition);
  remoteEndpoints : option (list EndpointDefinition);
  langserve : option (list JSON);
  delegateAgentProcessingToServiceAdapter : option bool
}.
End CopilotRuntimeConstructorParams.

Module CopilotRuntime.
Record t := mk {
  actions : ActionsConfiguration;
  remoteEndpointDefinitions : list EndpointDefinition;
  langserve : list (Outcome Action.t);
  onBeforeRequest : option (OnBeforeRequestOptions.t -> Outcome unit);
  onAfterRequest : option (OnAfterRequestOptions.t -> HookOutcome);
  delegateAgentProcessingToServiceAdapter : bool
}.
End CopilotRuntime.

(** [params?.field]. *)
Definition field {P A} (params : option P) (f : P -> option A) : option A :=
  match params with
  | Some p => f p
  | None => None
  end.

(** [a ?? b] and, for values that are truthy whenever present, [a || b]. *)
Definition orElse {A} (a : option A) (b : A) : A :=
  match a with
  | Some x => x
  | None => b
  end.

Definition constructor (env : Collaborators) (params : option CopilotRuntimeConstructorParams.t)
  : M CopilotRuntime.t :=
  let given_actions := field params CopilotRuntimeConstructorParams.actions in
  let given_endpoints := field params CopilotRuntimeConstructorParams.remoteEndpoints in
  (* Do not register actions if endpoints are set *)
  actions <-
    (if present given_actions && present given_endpoints
     then
       call (ConsoleWarn
               "Actions set in runtime instance will be ignored when remote endpoints are set") ;;;
       ret (ActionsArray [])
     else ret (orElse given_actions (ActionsArray []))) ;;
  let langserve :=
    map (remoteChainToAction env)
        (orElse (field params CopilotRuntimeConstructorParams.langserve) []) in
  let remoteEndpointDefinitions :=
    match given_endpoints with
    | Some endpoints => endpoints
    | None => orElse (field params CopilotRuntimeConstructorParams.remoteActions) []
    end in
  let middleware := field params CopilotRuntimeConstructorParams.middleware in
  ret {| CopilotRuntime.actions := actions;
         CopilotRuntime.remoteEndpointDefinitions := remoteEndpointDefinitions;
         CopilotRuntime.langserve := langserve;
         CopilotRuntime.onBeforeRequest := field middleware mw_onBeforeRequest;
         CopilotRuntime.onAfterRequest := field middleware mw_onAfterRequest;
         CopilotRuntime.delegateAgentProcessingToServiceAdapter :=
           match field params
                   CopilotRuntimeConstructorParams.delegateAgentProcessingToServiceAdapter with
           | Some true => true
           | _ => false
           end |}.

(** ** [getServerSideActions] *)

(** The loop over [this.langserve]: a chain that loaded is pushed, a chain
    that failed is logged and skipped. *)
Fixpoint loadChains (chains : list (Outcome Action.t)) : M (list Action.t) :=
  match chains with
  | [] => ret []
  | Returned chain :: rest => loaded <- loadChains rest ;; ret (chain :: loaded)
  | Threw _ :: rest => call (ConsoleError "Error loading langserve chain:") ;;; loadChains rest
  end.

Definition withResolvedType (endpoint : EndpointDefinition) : EndpointDefinition :=
  Endpoint.mk (Some (resolveEndpointType endpoint)) (Endpoint.url endpoint)
    (Endpoint.onBeforeRequest endpoint) (Endpoint.deploymentUrl endpoint)
    (Endpoint.langsmithApiKey endpoint) (Endpoint.agents endpoint).

Definition setupParams (env : Collaborators) (this : CopilotRuntime.t)
    (request : CopilotRuntimeRequest.t) : SetupRemoteActionsParams :=
  {| setup_remoteEndpointDefinitions :=
       map withResolvedType (CopilotRuntime.remoteEndpointDefinitions this);
     setup_graphqlContext := CopilotRuntimeRequest.graphqlContext request;
     setup_messages := convertGqlInputToMessages env (CopilotRuntimeRequest.messages request);
     setup_agentStates := CopilotRuntimeRequest.agentStates request;
     setup_frontendUrl := CopilotRuntimeRequest.url request |}.

Definition getServerSideActions (env : Collaborators) (this : CopilotRuntime.t)
    (request : CopilotRuntimeRequest.t) : M (list Action.t) :=
  langserveFunctions <- loadChains (CopilotRuntime.langserve this) ;;
  let params := setupParams env this request in
  remoteActions <- await (SetupRemoteActions params) (setupRemoteActions env params) ;;
  configuredActions <-
    match CopilotRuntime.actions this with
    | ActionsFunction f =>
        settled (f (properties (CopilotRuntimeRequest.graphqlContext request))
                   (CopilotRuntimeRequest.url request))
    | ActionsArray actions => ret actions
    end ;;
  ret (configuredActions ++ langserveFunctions ++ remoteActions).

(** ** [processAgentRequest] *)

(** The [ActionInput] built from a server-side action. *)
Definition toActionInput (env : Collaborators) (action : Action.t) : ActionInput.t :=
  {| ActionInput.name := Action.name action;
     ActionInput.description := Action.description action;
     ActionInput.jsonSchema :=
       stringify (actionParametersToJsonSchema env (Action.parameters action));
     ActionInput.available := None |}.

(** [??] on two values that may be [undefined]. *)
Definition nullish {A} (a b : option A) : option A :=
  match a with
  | Some x => Some x
  | None => b
  end.

Definition isCurrentAgent (env : Collaborators) (agentName : string) (action : Action.t)
  : bool :=
  String.eqb (Action.name action) agentName && isRemoteAgentAction env action.

(** The filter of [availableActionsForCurrentAgent]. *)
Definition keepForAgent (env : Collaborators) (agentName : string) (action : Action.t)
  : bool :=
  (* Case 1: Keep all regular (non-agent) actions *)
  negb (isRemoteAgentAction env action)
  (* Case 2: For agent actions, keep all except self (prevent infinite loops) *)
  || (isRemoteAgentAction env action && negb (String.eqb (Action.name action) agentName)).

Definition availableActionsForCurrentAgent (env : Collaborators) (agentName : string)
    (serverSideActions : list Action.t) : list ActionInput.t :=
  map (toActionInput env) (filter (keepForAgent env agentName) serverSideActions).

Definition afterRequestTask (this : CopilotRuntime.t) (request : CopilotRuntimeRequest.t)
    (threadId runId : option string) (inputMessages : list Message) (url : option string)
  : AfterRequestTask :=
  {| task_promise := CopilotRuntimeRequest.outputMessagesPromise request;
     task_hook := CopilotRuntime.onAfterRequest this;
     task_options := fun outputMessages =>
       {| OnAfterRequestOptions.threadId := threadId;
          OnAfterRequestOptions.runId := runId;
          OnAfterRequestOptions.inputMessages := inputMessages;
          OnAfterRequestOptions.outputMessages := outputMessages;
          OnAfterRequestOptions.properties :=
            properties (CopilotRuntimeRequest.graphqlContext request);
          OnAfterRequestOptions.url := url |} |}.

(** [await this.onBeforeRequest?.(options)]. *)
Definition beforeRequest (this : CopilotRuntime.t) (options : OnBeforeRequestOptions.t) : M unit :=
  match CopilotRuntime.onBeforeRequest this with
  | Some hook => await (OnBeforeRequest options) (hook options)
  | None => ret tt
  end.

Definition processAgentRequest (env : Collaborators) (this : CopilotRuntime.t)
    (request : CopilotRuntimeRequest.t) : M CopilotRuntimeResponse.t :=
  match CopilotRuntimeRequest.agentSession request with
  | None => throw (JsError "Cannot destructure property 'agentName' of 'agentSession'")
  | Some agentSession =>
      let agentName := AgentSessionInput.agentName agentSession in
      let nodeName := AgentSessionInput.nodeName agentSession in
      (* for backwards compatibility, deal with the case when no threadId is provided *)
      let threadId :=
        nullish (CopilotRuntimeRequest.threadId request) (AgentSessionInput.threadId agentSession) in
      serverSideActions <- getServerSideActions env this request ;;
      let messages := convertGqlInputToMessages env (CopilotRuntimeRequest.messages request) in
      match find (isCurrentAgent env agentName) serverSideActions with
      | None => throw (CopilotKitAgentDiscoveryError agentName)
      | Some currentAgent =>
          let allAvailableActions :=
            flattenToolCallsNoDuplicates
              (availableActionsForCurrentAgent env agentName serverSideActions
               ++ CopilotRuntimeRequest.actions request) in
          beforeRequest this
            {| OnBeforeRequestOptions.threadId := threadId;
               OnBeforeRequestOptions.runId := None;
               OnBeforeRequestOptions.inputMessages := messages;
               OnBeforeRequestOptions.properties :=
                 properties (CopilotRuntimeRequest.graphqlContext request);
               OnBeforeRequestOptions.url := None |} ;;;
          try_catch
            (let params :=
               {| RemoteAgentHandlerParams.name := agentName;
                  RemoteAgentHandlerParams.threadId := threadId;
                  RemoteAgentHandlerParams.nodeName := nodeName;
                  RemoteAgentHandlerParams.metaEvents := CopilotRuntimeRequest.metaEvents request;
                  RemoteAgentHandlerParams.actionInputsWithoutAgents := allAvailableActions |} in
             stream <-
               match Action.remoteAgentHandler currentAgent with
               | Some remoteAgentHandler =>
                   await (RemoteAgentHandler params) (remoteAgentHandler params)
               | None => throw (JsError "currentAgent.remoteAgentHandler is not a function")
               end ;;
             detach (afterRequestTask this request threadId None messages None) ;;;
             ret {| CopilotRuntimeResponse.threadId := threadId;
                    CopilotRuntimeResponse.runId := None;
                    CopilotRuntimeResponse.eventSource := ForwardingSource stream;
                    CopilotRuntimeResponse.serverSideActions := serverSideActions;
                    CopilotRuntimeResponse.actionInputsWithoutAgents := allAvailableActions;
                    CopilotRuntimeResponse.extensions := None |})
            (fun error => call (ConsoleError "Error getting response:") ;;; throw error)
      end
  end.

(** ** [processRuntimeRequest] *)

Definition newline : string := String (ascii_of_nat 10) EmptyString.

Definition misuseMessage : string :=
  "Invalid adapter configuration: EmptyAdapter is only meant to be used with agent lock mode. "
  ^^ newline
  ^^ "For non-agent components like useCopilotChatSuggestions, CopilotTextarea, or CopilotTask, "
  ^^ newline
  ^^ "please use an LLM adapter instead.".

(** The turn goes to [processAgentRequest]. *)
Definition agentDelegated (this : CopilotRuntime.t) (request : CopilotRuntimeRequest.t) : bool :=
  present (CopilotRuntimeRequest.agentSession request)
  && negb (CopilotRuntime.delegateAgentProcessingToServiceAdapter this).

Definition directInputMessages (env : Collaborators) (request : CopilotRuntimeRequest.t)
  : list Message :=
  convertGqlInputToMessages env
    (filter (fun message => negb (present (agentStateMessage message)))
            (CopilotRuntimeRequest.messages request)).

Definition actionInputs (env : Collaborators) (request : CopilotRuntimeRequest.t)
    (serverSideActions : list Action.t) : list ActionInput.t :=
  flattenToolCallsNoDuplicates
    (map (toActionInput env) serverSideActions
     ++ filter
          (* Filter remote actions from CopilotKit core loop *)
          (fun action =>
             negb (match ActionInput.available action with
                   | Some available => ActionInputAvailability_eqb available remote
                   | None => false
                   end))
          (CopilotRuntimeRequest.actions request)).

Definition adapterRequest (env : Collaborators) (request : CopilotRuntimeRequest.t)
    (serverSideActions : list Action.t) : AdapterRequest.t :=
  {| AdapterRequest.messages := directInputMessages env request;
     AdapterRequest.actions := actionInputs env request serverSideActions;
     AdapterRequest.threadId := CopilotRuntimeRequest.threadId request;
     AdapterRequest.runId := CopilotRuntimeRequest.runId request;
     AdapterRequest.forwardedParameters := CopilotRuntimeRequest.forwardedParameters request;
     AdapterRequest.extensions := CopilotRuntimeRequest.extensions request;
     AdapterRequest.agentSession := CopilotRuntimeRequest.agentSession request;
     AdapterRequest.agentStates := CopilotRuntimeRequest.agentStates request |}.

Definition directDispatch (env : Collaborators) (this : CopilotRuntime.t)
    (request : CopilotRuntimeRequest.t) : M CopilotRuntimeResponse.t :=
  let threadId := CopilotRuntimeRequest.threadId request in
  let inputMessages := directInputMessages env request in
  serverSideActions <- getServerSideActions env this request ;;
  let actionInputs := actionInputs env request serverSideActions in
  beforeRequest this
    {| OnBeforeRequestOptions.threadId := threadId;
       OnBeforeRequestOptions.runId := CopilotRuntimeRequest.runId request;
       OnBeforeRequestOptions.inputMessages := inputMessages;
       OnBeforeRequestOptions.properties :=
         properties (CopilotRuntimeRequest.graphqlContext request);
       OnBeforeRequestOptions.url := CopilotRuntimeRequest.url request |} ;;;
  let processRequest := adapterRequest env request serverSideActions in
  result <-
    await (ServiceAdapterProcess processRequest)
          (process (CopilotRuntimeRequest.serviceAdapter request) processRequest) ;;
  (* for backwards compatibility, we deal with the case that no threadId is provided
     by the frontend, by using the threadId from the response *)
  let nonEmptyThreadId := orElse threadId (AdapterResponse.threadId result) in
  detach (afterRequestTask this request (Some nonEmptyThreadId) (AdapterResponse.runId result)
            inputMessages (CopilotRuntimeRequest.url request)) ;;;
  ret {| CopilotRuntimeResponse.threadId := Some nonEmptyThreadId;
         CopilotRuntimeResponse.runId := AdapterResponse.runId result;
         CopilotRuntimeResponse.eventSource := AdapterSource;
         CopilotRuntimeResponse.serverSideActions := serverSideActions;
         CopilotRuntimeResponse.actionInputsWithoutAgents :=
           filter
             (fun action =>
                (* TODO-AGENTS: do not exclude ALL server side actions *)
                negb (present (find (fun serverSideAction =>
                                       String.eqb (Action.name serverSideAction)
                                                  (ActionInput.name action))
                                    serverSideActions)))
             actionInputs;
         CopilotRuntimeResponse.extensions := AdapterResponse.extensions result |}.

Definition processRuntimeRequest (env : Collaborators) (this : CopilotRuntime.t)
    (request : CopilotRuntimeRequest.t) : M CopilotRuntimeResponse.t :=
  try_catch
    (if agentDelegated this request
     then processAgentRequest env this request
     else if isEmptyAdapter (CopilotRuntimeRequest.serviceAdapter request)
     then throw (CopilotKitMisuseError misuseMessage)
     else directDispatch env this request)
    (fun error =>
       if instanceofCopilotKitError error then throw error
       else
         call (ConsoleError "Error getting response:") ;;;
         call SendErrorMessageToChat ;;;
         throw error).

(** ** [discoverAgentsFromEndpoints] *)

(** The headers derived from the [authorization] property; spreading
    [null] gives no header. *)
Definition propertyHeaders (graphqlContext : GraphQLContext) : Headers :=
  match get "authorization" (properties graphqlContext) with
  | Some authorization =>
      if truthy (Some authorization)
      then [("authorization", "Bearer " ^^ template authorization)]
      else []
  | None => []
  end.

Definition langGraphClient (endpoint : EndpointDefinition) (graphqlContext : GraphQLContext)
  : LangGraphClient :=
  {| apiUrl := Endpoint.deploymentUrl endpoint;
     apiKey := Endpoint.langsmithApiKey endpoint;
     defaultHeaders := propertyHeaders graphqlContext |}.

Definition infoUrl (endpoint : EndpointDefinition) : string :=
  template_opt (Endpoint.url endpoint) ^^ "/info".

Definition infoInit (env : Collaborators) (endpoint : EndpointDefinition)
    (graphqlContext : GraphQLContext) : FetchInit :=
  {| method := "POST";
     headers := createHeaders env (Endpoint.onBeforeRequest endpoint) graphqlContext;
     body := stringify (JObject [("properties", JObject (properties graphqlContext))]) |}.

(** The agents of a LangGraph Platform endpoint. *)
Definition platformAgents (endpoint : EndpointDefinition) (data : option (list Assistant))
  : list Agent.t :=
  map (fun entry =>
         {| Agent.name := graph_id entry;
            Agent.id := assistant_id entry;
            Agent.description := EmptyString;
            Agent.endpoint := endpoint |})
      (orElse data []).

(** The agent built from one entry of the [/info] response. *)
Definition infoAgent (env : Collaborators) (endpoint : EndpointDefinition) (agent : InfoAgent.t)
  : M Agent.t :=
  id <- randomId env ;; (* Required by Agent type *)
  ret {| Agent.name := InfoAgent.name agent;
         Agent.description := orElse (InfoAgent.description agent) EmptyString;
         Agent.id := id;
         Agent.endpoint := endpoint |}.

(** [throw new ResolvedCopilotKitError({ status, url, isRemoteEndpoint })]:
    the constructor runs first, and what it throws replaces the error that
    was to be built. *)
Definition throwResolvedCopilotKitError {A} (env : Collaborators) (status : Z) (url : string)
    (isRemoteEndpoint : bool) : M A :=
  match resolvedErrorConstructor env status url isRemoteEndpoint with
  | Some thrown => throw thrown
  | None => throw (ResolvedCopilotKitError status url isRemoteEndpoint)
  end.

(** The body of the reducer, after [await acc]. *)
Definition discoverEndpoint (env : Collaborators) (graphqlContext : GraphQLContext)
    (agents : list Agent.t) (endpoint : EndpointDefinition) : M (list Agent.t) :=
  if is_type endpoint LangGraphPlatform then
    let client := langGraphClient endpoint graphqlContext in
    data <- await (AssistantsSearch client) (assistantsSearch env client) ;;
    ret (agents ++ platformAgents endpoint data)
  else
    let fetchUrl := infoUrl endpoint in
    try_catch
      (let init := infoInit env endpoint graphqlContext in
       response <- await (Fetch fetchUrl init) (fetchInfo env fetchUrl init) ;;
       if negb (ok response) then
         if (status response =? 404)%Z
         then throw (CopilotKitApiDiscoveryError fetchUrl)
         else throwResolvedCopilotKitError env (status response) fetchUrl true
       else
         data <- settled (json response) ;;
         endpointAgents <- mapM (infoAgent env endpoint) (orElse (field data info_agents) []) ;;
         ret (agents ++ endpointAgents))
      (fun error =>
         if instanceofCopilotKitError error then throw error
         else throw (CopilotKitLowLevelError error fetchUrl)).

(** [remoteEndpointDefinitions.reduce(async (acc, endpoint) => ...,
    Promise.resolve([]))]: each step awaits the accumulated promise first. *)
Definition reducer (env : Collaborators) (graphqlContext : GraphQLContext)
    (acc : M (list Agent.t)) (endpoint : EndpointDefinition) : M (list Agent.t) :=
  agents <- acc ;; discoverEndpoint env graphqlContext agents endpoint.

Definition discoverAgentsFromEndpoints (env : Collaborators) (this : CopilotRuntime.t)
    (graphqlContext : GraphQLContext) : M (list AgentWithEndpoint) :=
  fold_left (reducer env graphqlContext) (CopilotRuntime.remoteEndpointDefinitions this) (ret []).

(** ** [loadAgentState] *)

(** [threadId || ""]. *)
Definition orEmpty (threadId : string) : string :=
  if String.eqb threadId EmptyString then EmptyString else threadId.

Definition stateUrl (endpoint : EndpointDefinition) : string :=
  template_opt (Endpoint.url endpoint) ^^ "/agents/state".

Definition stateInit (env : Collaborators) (endpoint : EndpointDefinition)
    (graphqlContext : GraphQLContext) (threadId agentName : string) : FetchInit :=
  {| method := "POST";
     headers := createHeaders env (Endpoint.onBeforeRequest endpoint) graphqlContext;
     body := stringify (JObject [("properties", JObject (properties graphqlContext));
                                 ("threadId", JString threadId);
                                 ("name", JString agentName)]) |}.

(** The LangGraph Platform branch. *)
Definition loadPlatformState (env : Collaborators) (endpoint : EndpointDefinition)
    (graphqlContext : GraphQLContext) (threadId : string) : M LoadAgentStateResponse.t :=
  let client := langGraphClient endpoint graphqlContext in
  state <-
    try_catch
      (threadState <- await (ThreadsGetState client threadId)
                            (threadsGetState env client threadId) ;;
       ret (values threadState))
      (fun _ => ret []) ;;
  if Nat.eqb (length (keys state)) 0 then
    ret {| LoadAgentStateResponse.threadId := orEmpty threadId;
           LoadAgentStateResponse.threadExists := false;
           LoadAgentStateResponse.state := stringify (JObject []);
           LoadAgentStateResponse.messages := stringify (JArray []) |}
  else
    let messages := get "messages" state in
    let stateWithoutMessages := without "messages" state in
    copilotkitMessages <- settled (langchainMessagesToCopilotKit env messages) ;;
    ret {| LoadAgentStateResponse.threadId := orEmpty threadId;
           LoadAgentStateResponse.threadExists := true;
           LoadAgentStateResponse.state := stringify (JObject stateWithoutMessages);
           LoadAgentStateResponse.messages := stringify copilotkitMessages |}.

(** The CopilotKit endpoint branch. *)
Definition loadEndpointState (env : Collaborators) (endpoint : EndpointDefinition)
    (graphqlContext : GraphQLContext) (threadId agentName : string) : M LoadAgentStateResponse.t :=
  let fetchUrl := stateUrl endpoint in
  try_catch
    (let init := stateInit env endpoint graphqlContext threadId agentName in
     response <- await (Fetch fetchUrl init) (fetchAgentState env fetchUrl init) ;;
     if negb (ok response) then
       if (status response =? 404)%Z
       then throw (CopilotKitApiDiscoveryError fetchUrl)
       else throwResolvedCopilotKitError env (status response) fetchUrl true
     else
       data <- settled (json response) ;;
       ret {| LoadAgentStateResponse.threadId := body_threadId data;
              LoadAgentStateResponse.threadExists := body_threadExists data;
              LoadAgentStateResponse.state := stringify (body_state data);
              LoadAgentStateResponse.messages := stringify (body_messages data) |})
    (fun error =>
       if instanceofCopilotKitError error then throw error
       else throw (CopilotKitLowLevelError error fetchUrl)).

Definition loadAgentState (env : Collaborators) (this : CopilotRuntime.t)
    (graphqlContext : GraphQLContext) (threadId agentName : string)
  : M LoadAgentStateResponse.t :=
  agentsWithEndpoints <- discoverAgentsFromEndpoints env this graphqlContext ;;
  match find (fun agent => String.eqb (Agent.name agent) agentName) agentsWithEndpoints with
  | None => throw (JsError "Agent not found")
  | Some agentWithEndpoint =>
      let endpoint := Agent.endpoint agentWithEndpoint in
      if is_type endpoint LangGraphPlatform then
        loadPlatformState env endpoint graphqlContext threadId
      else if is_type endpoint CopilotKit || negb (present (Endpoint.type endpoint)) then
        loadEndpointState env endpoint graphqlContext threadId agentName
      else throw (JsError "Unknown endpoint type")
  end.

(** ** Predicates on the trace *)

(** The calls of a computation are appended to those made before it. *)
Definition extends (w w' : World) (P : Call -> Prop) : Prop :=
  exists cs, calls w' = calls w ++ cs /\ Forall P cs.

Definition isRemoteAgentHandlerCall (c : Call) : bool :=
  match c with
  | RemoteAgentHandler _ => true
  | _ => false
  end.

Definition noHandler (c : Call) : Prop := isRemoteAgentHandlerCall c = false.

(** The agents built from the entries of an [/info] response when the
    generator of random ids has been drawn from [first] times before: the
    entry at position [k] gets the draw [first + k]. *)
Definition agentsWithFreshIds (env : Collaborators) (endpoint : EndpointDefinition)
    (first : nat) (entries : list InfoAgent.t) : list Agent.t :=
  map (fun numbered =>
         {| Agent.name := InfoAgent.name (snd numbered);
            Agent.description := orElse (InfoAgent.description (snd numbered)) EmptyString;
            Agent.id := randomIds env (fst numbered);
            Agent.endpoint := endpoint |})
      (combine (seq first (length entries)) entries).

(** The runtime with another after-hook, the request with another
    [outputMessagesPromise]: what the after-hook machinery depends on. *)
Definition withAfterHook (this : CopilotRuntime.t)
    (hook : option (OnAfterRequestOptions.t -> HookOutcome)) : CopilotRuntime.t :=
  {| CopilotRuntime.actions := CopilotRuntime.actions this;
     CopilotRuntime.remoteEndpointDefinitions := CopilotRuntime.remoteEndpointDefinitions this;
     CopilotRuntime.langserve := CopilotRuntime.langserve this;
     CopilotRuntime.onBeforeRequest := CopilotRuntime.onBeforeRequest this;
     CopilotRuntime.onAfterRequest := hook;
     CopilotRuntime.delegateAgentProcessingToServiceAdapter :=
       CopilotRuntime.delegateAgentProcessingToServiceAdapter this |}.

Definition withOutputMessages (request : CopilotRuntimeRequest.t)
    (promise : Outcome (list Message)) : CopilotRuntimeRequest.t :=
  {| CopilotRuntimeRequest.serviceAdapter := CopilotRuntimeRequest.serviceAdapter request;
     CopilotRuntimeRequest.messages := CopilotRuntimeRequest.messages request;
     CopilotRuntimeRequest.actions := CopilotRuntimeRequest.actions request;
     CopilotRuntimeRequest.agentSession := CopilotRuntimeRequest.agentSession request;
     CopilotRuntimeRequest.agentStates := CopilotRuntimeRequest.agentStates request;
     CopilotRuntimeRequest.outputMessagesPromise := promise;
     CopilotRuntimeRequest.threadId := CopilotRuntimeRequest.threadId request;
     CopilotRuntimeRequest.runId := CopilotRuntimeRequest.runId request;
     CopilotRuntimeRequest.graphqlContext := CopilotRuntimeRequest.graphqlContext request;
     CopilotRuntimeRequest.forwardedParameters := CopilotRuntimeRequest.forwardedParameters request;
     CopilotRuntimeRequest.url := CopilotRuntimeRequest.url request;
     CopilotRuntimeRequest.extensions := CopilotRuntimeRequest.extensions request;
     CopilotRuntimeRequest.metaEvents := CopilotRuntimeRequest.metaEvents request |}.

(** Two worlds that differ at most in their detached promise chains. *)
Definition sameCalls (w w' : World) : Prop :=
  calls w = calls w' /\ drawn w = drawn w'.

(** Two computations that, from such worlds, make the same calls and end
    with the same outcome. *)
Definition agree {A} (m m' : M A) : Prop :=
  forall w w', sameCalls w w' ->
    sameCalls (fst (m w)) (fst (m' w')) /\ snd (m w) = snd (m' w').

(** An agent that discovery built for a LangGraph Platform endpoint. *)
Definition fromPlatform (agent : Agent.t) : bool :=
  is_type (Agent.endpoint agent) LangGraphPlatform.

(** The id and the name of [agent] are those of an assistant that the
    search on its endpoint returned. *)
Definition namedByAssistant (env : Collaborators) (graphqlContext : GraphQLContext)
    (agent : Agent.t) : Prop :=
  exists data assistant,
    assistantsSearch env (langGraphClient (Agent.endpoint agent) graphqlContext) = Returned data
    /\ In assistant (orElse data [])
    /\ Agent.id agent = assistant_id assistant
    /\ Agent.name agent = graph_id assistant.

(** ** A sample deployment

    One agent [A] served by a remote endpoint, a service adapter that
    reports its own thread id, and endpoints that answer [/info] in the
    ways the discovery code distinguishes.  The constructor of the resolved
    error throws the API discovery error for status 400 and builds the
    error for every other status; the conversion of messages throws on
    anything but an array. *)

Module Sample.

Definition stream : Stream := {| events := [JString "done"]; failure := None |}.

Definition agentA : Action.t :=
  Action.mk "A" "the agent A" JNull (Some (fun _ => Returned stream)).

Definition search : Action.t := Action.mk "search" "a server action" JNull None.

Definition world : World := {| calls := []; drawn := 0; detached := [] |}.

Definition info (name : string) (sent_id : option string) : InfoResponse :=
  {| info_agents := Some [InfoAgent.mk name None sent_id] |}.

Definition env : Collaborators :=
  {| isRemoteAgentAction := fun action => present (Action.remoteAgentHandler action);
     convertGqlInputToMessages := map payload;
     actionParametersToJsonSchema := fun parameters => parameters;
     createHeaders := fun hook graphqlContext =>
       ("Content-Type", "application/json")
       :: match hook with Some h => h graphqlContext | None => [] end;
     langchainMessagesToCopilotKit := fun messages =>
       match messages with
       | Some (JArray items) => Returned (JArray items)
       | _ => Threw (JsError "messages is not iterable")
       end;
     resolvedErrorConstructor := fun status url _ =>
       if (status =? 400)%Z then Some (CopilotKitApiDiscoveryError url) else None;
     remoteChainToAction := fun _ => Threw (JsError "chain unavailable");
     setupRemoteActions := fun _ => Returned [agentA; search];
     fetchInfo := fun url _ =>
       if String.eqb url "http://direct/info"
       then Returned {| status := 200; json := Returned (Some (info "helper" (Some "server-7"))) |}
       else if String.eqb url "http://gone/info"
       then Returned {| status := 404; json := Threw (JsError "no body") |}
       else if String.eqb url "http://broken/info"
       then Returned {| status := 500; json := Threw (JsError "no body") |}
       else if String.eqb url "http://strict/info"
       then Returned {| status := 400; json := Threw (JsError "no body") |}
       else Threw (JsError "getaddrinfo ENOTFOUND");
     fetchAgentState := fun _ _ => Threw (JsError "getaddrinfo ENOTFOUND");
     assistantsSearch := fun _ =>
       Returned (Some [{| assistant_id := "asst-1"; graph_id := "planner" |}]);
     threadsGetState := fun _ threadId =>
       if String.eqb threadId "t-full"
       then Returned {| values := [("messages", JArray [JString "hi"]); ("step", JNumber 2)] |}
       else if String.eqb threadId "t-bare"
       then Returned {| values := [("step", JNumber 2)] |}
       else if String.eqb threadId "t-empty"
       then Returned {| values := [] |}
       else Threw (JsError "thread not found");
     randomIds := fun n => "ck-" ^^ string_of_Z (Z.of_nat n) |}.

Definition direct (url : string) : EndpointDefinition :=
  copilotKitEndpoint (Endpoint.mk None (Some url) None None None None).

Definition platform : EndpointDefinition :=
  langGraphPlatformEndpoint
    (Endpoint.mk None None None (Some "http://platform") (Some "key") (Some [])).

Definition runtime (endpoints : list EndpointDefinition) : CopilotRuntime.t :=
  CopilotRuntime.mk (ActionsArray []) endpoints [] None None false.

Definition context : GraphQLContext := {| properties := [] |}.

Definition adapter : CopilotServiceAdapter :=
  {| isEmptyAdapter := false;
     process := fun _ => Returned (AdapterResponse.mk "backend-thread" (Some "run-1") None) |}.

Definition emptyAdapter : CopilotServiceAdapter :=
  {| isEmptyAdapter := true;
     process := fun request =>
       Returned (AdapterResponse.mk (orElse (AdapterRequest.threadId request) "generated")
                   None None) |}.

Definition request (serviceAdapter : CopilotServiceAdapter)
    (actions : list ActionInput.t) (agentSession : option AgentSessionInput.t)
    (threadId : option string) : CopilotRuntimeRequest.t :=
  CopilotRuntimeRequest.mk serviceAdapter [] actions agentSession None (Returned [])
    threadId None context None None None None.

Definition session (agentName : string) : AgentSessionInput.t :=
  AgentSessionInput.mk agentName None None.

(** A client-declared action that carries the name of the agent. *)
Definition clientA : ActionInput.t := ActionInput.mk "A" "declared by the client" "{}" None.

(** An after-hook written as an [async] function that throws. *)
Definition rejectingHook : OnAfterRequestOptions.t -> HookOutcome :=
  fun _ => HookRejects (JsError "after-hook failed").

Definition runtimeWithAfterHook : CopilotRuntime.t :=
  CopilotRuntime.mk (ActionsArray []) [] [] None (Some rejectingHook) false.

Definition lookup : Action.t := Action.mk "lookup" "a configured action" JNull None.

(** Constructor parameters with both [actions] and [remoteEndpoints]. *)
Definition params : CopilotRuntimeConstructorParams.t :=
  CopilotRuntimeConstructorParams.mk None (Some (ActionsArray [lookup]))
    None (Some [direct "http://direct"]) None None.

End Sample.

(** ** Notions used to state further properties of the runtime *)

(** The names of a list of action inputs. *)
Definition names (l : list ActionInput.t) : list string := map ActionInput.name l.

(** The entries whose name is not among [taken]. *)
Definition notNamed (taken : list string) (l : list ActionInput.t) : list ActionInput.t :=
  filter (fun tool => negb (includes taken (ActionInput.name tool))) l.

(** The chains of [this.langserve] that loaded, in order, and the log
    entries of those that failed. *)
Fixpoint loadedChains (chains : list (Outcome Action.t)) : list Action.t :=
  match chains with
  | [] => []
  | Returned chain :: rest => chain :: loadedChains rest
  | Threw _ :: rest => loadedChains rest
  end.

Fixpoint chainErrors (chains : list (Outcome Action.t)) : list Call :=
  match chains with
  | [] => []
  | Returned _ :: rest => chainErrors rest
  | Threw _ :: rest => ConsoleError "Error loading langserve chain:" :: chainErrors rest
  end.

(** The value of [typeof this.actions === "function" ? this.actions({...})
    : this.actions]. *)
Definition configuredActions (this : CopilotRuntime.t) (request : CopilotRuntimeRequest.t)
  : Outcome (list Action.t) :=
  match CopilotRuntime.actions this with
  | ActionsFunction f =>
      f (properties (CopilotRuntimeRequest.graphqlContext request))
        (CopilotRuntimeRequest.url request)
  | ActionsArray actions => Returned actions
  end.

(** The calls [getServerSideActions] makes. *)
Definition assemblyCalls (env : Collaborators) (this : CopilotRuntime.t)
    (request : CopilotRuntimeRequest.t) : list Call :=
  chainErrors (CopilotRuntime.langserve this)
  ++ [SetupRemoteActions (setupParams env this request)].

(** The call of the before-hook, if the runtime has one. *)
Definition beforeCalls (this : CopilotRuntime.t) (options : OnBeforeRequestOptions.t)
  : list Call :=
  match CopilotRuntime.onBeforeRequest this with
  | Some _ => [OnBeforeRequest options]
  | None => []
  end.

(** The options the before-hook gets on the adapter path and on the agent
    path. *)
Definition directBeforeOptions (env : Collaborators) (request : CopilotRuntimeRequest.t)
  : OnBeforeRequestOptions.t :=
  {| OnBeforeRequestOptions.threadId := CopilotRuntimeRequest.threadId request;
     OnBeforeRequestOptions.runId := CopilotRuntimeRequest.runId request;
     OnBeforeRequestOptions.inputMessages := directInputMessages env request;
     OnBeforeRequestOptions.properties :=
       properties (CopilotRuntimeRequest.graphqlContext request);
     OnBeforeRequestOptions.url := CopilotRuntimeRequest.url request |}.

Definition agentThreadId (request : CopilotRuntimeRequest.t) (session : AgentSessionInput.t)
  : option string :=
  nullish (CopilotRuntimeRequest.threadId request) (AgentSessionInput.threadId session).

Definition agentBeforeOptions (env : Collaborators) (request : CopilotRuntimeRequest.t)
    (session : AgentSessionInput.t) : OnBeforeRequestOptions.t :=
  {| OnBeforeRequestOptions.threadId := agentThreadId request session;
     OnBeforeRequestOptions.runId := None;
     OnBeforeRequestOptions.inputMessages :=
       convertGqlInputToMessages env (CopilotRuntimeRequest.messages request);
     OnBeforeRequestOptions.properties :=
       properties (CopilotRuntimeRequest.graphqlContext request);
     OnBeforeRequestOptions.url := None |}.

(** The delegated action set of the agent path, and what the handler of the
    agent gets. *)
Definition delegatedActions (env : Collaborators) (request : CopilotRuntimeRequest.t)
    (session : AgentSessionInput.t) (serverSideActions : list Action.t) : list ActionInput.t :=
  flattenToolCallsNoDuplicates
    (availableActionsForCurrentAgent env (AgentSessionInput.agentName session) serverSideActions
     ++ CopilotRuntimeRequest.actions request).

Definition handlerParams (env : Collaborators) (request : CopilotRuntimeRequest.t)
    (session : AgentSessionInput.t) (serverSideActions : list Action.t)
  : RemoteAgentHandlerParams.t :=
  {| RemoteAgentHandlerParams.name := AgentSessionInput.agentName session;
     RemoteAgentHandlerParams.threadId := agentThreadId request session;
     RemoteAgentHandlerParams.nodeName := AgentSessionInput.nodeName session;
     RemoteAgentHandlerParams.metaEvents := CopilotRuntimeRequest.metaEvents request;
     RemoteAgentHandlerParams.actionInputsWithoutAgents :=
       delegatedActions env request session serverSideActions |}.

(** The client-declared actions that are not marked remote-only. *)
Definition clientActions (request : CopilotRuntimeRequest.t) : list ActionInput.t :=
  filter
    (fun action =>
       negb (match ActionInput.available action with
             | Some available => ActionInputAvailability_eqb available remote
             | None => false
             end))
    (CopilotRuntimeRequest.actions request).

(** The server-side action called [n] that [find] returns. *)
Definition serverAction (n : string) (serverSideActions : list Action.t) : option Action.t :=
  find (fun action => String.eqb (Action.name action) n) serverSideActions.

(** A call that is no [sendErrorMessageToChat]. *)
Definition notChat (c : Call) : Prop := c <> SendErrorMessageToChat.

(** Discovery over a list of endpoints, as [discoverAgentsFromEndpoints]
    runs it over [this.remoteEndpointDefinitions]. *)
Definition discoverFrom (env : Collaborators) (graphqlContext : GraphQLContext)
    (endpoints : list EndpointDefinition) : M (list Agent.t) :=
  fold_left (reducer env graphqlContext) endpoints (ret []).

(** A call that contacts an endpoint. *)
Definition isEndpointCall (c : Call) : bool :=
  match c with
  | Fetch _ _ | AssistantsSearch _ | ThreadsGetState _ _ => true
  | _ => false
  end.

(** What [getServerSideActions] ends with: the error of [setupRemoteActions]
    or of the actions function, or the configured actions followed by the
    loaded chains and the remote actions. *)
Definition assembled (env : Collaborators) (this : CopilotRuntime.t)
    (request : CopilotRuntimeRequest.t) : Outcome (list Action.t) :=
  match setupRemoteActions env (setupParams env this request) with
  | Threw e => Threw e
  | Returned remoteActions =>
      match configuredActions this request with
      | Threw e => Threw e
      | Returned configured =>
          Returned (configured ++ loadedChains (CopilotRuntime.langserve this) ++ remoteActions)
      end
  end.

(** Two worlds with the same random ids drawn and the same detached chains,
    the second with the calls [cs] more. *)
Definition after (w : World) (cs : list Call) (w' : World) : Prop :=
  calls w' = calls w ++ cs /\ drawn w' = drawn w /\ detached w' = detached w.

(** ** The stages of a turn

    What a turn does, by the outcomes of its collaborators: the calls it
    makes, the promise chains it attaches, and how it ends. *)

Record Run (A : Type) := {
  run_calls : list Call;
  run_tasks : list AfterRequestTask;
  run_outcome : Outcome A
}.

(** The outcome of [await this.onBeforeRequest?.(options)]. *)
Definition beforeOutcome (this : CopilotRuntime.t) (options : OnBeforeRequestOptions.t)
  : Outcome unit :=
  match CopilotRuntime.onBeforeRequest this with
  | Some hook => hook options
  | None => Returned tt
  end.

Definition directThreadId (request : CopilotRuntimeRequest.t) (result : AdapterResponse.t)
  : string :=
  orElse (CopilotRuntimeRequest.threadId request) (AdapterResponse.threadId result).

Definition directTask (env : Collaborators) (this : CopilotRuntime.t)
    (request : CopilotRuntimeRequest.t) (result : AdapterResponse.t) : AfterRequestTask :=
  afterRequestTask this request (Some (directThreadId request result))
    (AdapterResponse.runId result) (directInputMessages env request)
    (CopilotRuntimeRequest.url request).

Definition directResponse (env : Collaborators) (request : CopilotRuntimeRequest.t)
    (serverSideActions : list Action.t) (result : AdapterResponse.t) : CopilotRuntimeResponse.t :=
  {| CopilotRuntimeResponse.threadId := Some (directThreadId request result);
     CopilotRuntimeResponse.runId := AdapterResponse.runId result;
     CopilotRuntimeResponse.eventSource := AdapterSource;
     CopilotRuntimeResponse.serverSideActions := serverSideActions;
     CopilotRuntimeResponse.actionInputsWithoutAgents :=
       filter
         (fun action =>
            negb (present (find (fun serverSideAction =>
                                   String.eqb (Action.name serverSideAction)
                                              (ActionInput.name action))
                                serverSideActions)))
         (actionInputs env request serverSideActions);
     CopilotRuntimeResponse.extensions := AdapterResponse.extensions result |}.

Definition directRun (env : Collaborators) (this : CopilotRuntime.t)
    (request : CopilotRuntimeRequest.t) : Run CopilotRuntimeResponse.t :=
  let assembly := assemblyCalls env this request in
  match assembled env this request with
  | Threw e => {| run_calls := assembly; run_tasks := []; run_outcome := Threw e |}
  | Returned serverSideActions =>
      let options := directBeforeOptions env request in
      let hooked := assembly ++ beforeCalls this options in
      match beforeOutcome this options with
      | Threw e => {| run_calls := hooked; run_tasks := []; run_outcome := Threw e |}
      | Returned _ =>
          let processRequest := adapterRequest env request serverSideActions in
          let dispatched := hooked ++ [ServiceAdapterProcess processRequest] in
          match process (CopilotRuntimeRequest.serviceAdapter request) processRequest with
          | Threw e => {| run_calls := dispatched; run_tasks := []; run_outcome := Threw e |}
          | Returned result =>
              {| run_calls := dispatched;
                 run_tasks := [directTask env this request result];
                 run_outcome := Returned (directResponse env request serverSideActions result) |}
          end
      end
  end.

Definition agentTask (env : Collaborators) (this : CopilotRuntime.t)
    (request : CopilotRuntimeRequest.t) (session : AgentSessionInput.t) : AfterRequestTask :=
  afterRequestTask this request (agentThreadId request session) None
    (convertGqlInputToMessages env (CopilotRuntimeRequest.messages request)) None.

Definition agentResponse (env : Collaborators) (request : CopilotRuntimeRequest.t)
    (session : AgentSessionInput.t) (serverSideActions : list Action.t) (stream : Stream)
  : CopilotRuntimeResponse.t :=
  {| CopilotRuntimeResponse.threadId := agentThreadId request session;
     CopilotRuntimeResponse.runId := None;
     CopilotRuntimeResponse.eventSource := ForwardingSource stream;
     CopilotRuntimeResponse.serverSideActions := serverSideActions;
     CopilotRuntimeResponse.actionInputsWithoutAgents :=
       delegatedActions env request session serverSideActions;
     CopilotRuntimeResponse.extensions := None |}.

Definition responseError : Call := ConsoleError "Error getting response:".

Definition agentRun (env : Collaborators) (this : CopilotRuntime.t)
    (request : CopilotRuntimeRequest.t) : Run CopilotRuntimeResponse.t :=
  match CopilotRuntimeRequest.agentSession request with
  | None =>
      {| run_calls := []; run_tasks := [];
         run_outcome :=
           Threw (JsError "Cannot destructure property 'agentName' of 'agentSession'") |}
  | Some session =>
      let assembly := assemblyCalls env this request in
      match assembled env this request with
      | Threw e => {| run_calls := assembly; run_tasks := []; run_outcome := Threw e |}
      | Returned serverSideActions =>
          match find (isCurrentAgent env (AgentSessionInput.agentName session))
                     serverSideActions with
          | None =>
              {| run_calls := assembly; run_tasks := [];
                 run_outcome :=
                   Threw (CopilotKitAgentDiscoveryError (AgentSessionInput.agentName session)) |}
          | Some currentAgent =>
              let options := agentBeforeOptions env request session in
              let hooked := assembly ++ beforeCalls this options in
              match beforeOutcome this options with
              | Threw e => {| run_calls := hooked; run_tasks := []; run_outcome := Threw e |}
              | Returned _ =>
                  let params := handlerParams env request session serverSideActions in
                  match Action.remoteAgentHandler currentAgent with
                  | None =>
                      {| run_calls := hooked ++ [responseError]; run_tasks := [];
                         run_outcome :=
                           Threw (JsError "currentAgent.remoteAgentHandler is not a function") |}
                  | Some remoteAgentHandler =>
                      match remoteAgentHandler params with
                      | Threw e =>
                          {| run_calls := hooked ++ [RemoteAgentHandler params; responseError];
                             run_tasks := []; run_outcome := Threw e |}
                      | Returned stream =>
                          {| run_calls := hooked ++ [RemoteAgentHandler params];
                             run_tasks := [agentTask env this request session];
                             run_outcome :=
                               Returned (agentResponse env request session
                                           serverSideActions stream) |}
                      end
                  end
              end
          end
      end
  end.

(** The body of the [try] of [processRuntimeRequest], then its [catch]. *)
Definition bodyRun (env : Collaborators) (this : CopilotRuntime.t)
    (request : CopilotRuntimeRequest.t) : Run CopilotRuntimeResponse.t :=
  if agentDelegated this request then agentRun env this request
  else if isEmptyAdapter (CopilotRuntimeRequest.serviceAdapter request)
  then {| run_calls := []; run_tasks := [];
          run_outcome := Threw (CopilotKitMisuseError misuseMessage) |}
  else directRun env this request.

Definition turnRun (env : Collaborators) (this : CopilotRuntime.t)
    (request : CopilotRuntimeRequest.t) : Run CopilotRuntimeResponse.t :=
  let body := bodyRun env this request in
  match run_outcome body with
  | Returned _ => body
  | Threw e =>
      if instanceofCopilotKitError e then body
      else {| run_calls := run_calls body ++ [responseError; SendErrorMessageToChat];
              run_tasks := run_tasks body;
              run_outcome := Threw e |}
  end.

(** The computation [m] makes the calls, attaches the chains and has the
    outcome of [run], and draws no random id. *)
Definition runs {A} (m : M A) (run : Run A) : Prop :=
  forall w, exists w',
    m w = (w', run_outcome run)
    /\ calls w' = calls w ++ run_calls run
    /\ drawn w' = drawn w
    /\ detached w' = detached w ++ run_tasks run.

(** A call to a backend: the service adapter or a remote agent handler. *)
Definition isBackendCall (c : Call) : bool :=
  match c with
  | ServiceAdapterProcess _ | RemoteAgentHandler _ => true
  | _ => false
  end.

(** A deployment whose only remote action is an agent [B] with a handler
    that fails. *)
Module Failing.

Definition agentB : Action.t :=
  Action.mk "B" "an agent that fails" JNull
    (Some (fun _ => Threw (JsError "agent unreachable"))).

Definition env : Collaborators :=
  {| isRemoteAgentAction := isRemoteAgentAction Sample.env;
     convertGqlInputToMessages := convertGqlInputToMessages Sample.env;
     actionParametersToJsonSchema := actionParametersToJsonSchema Sample.env;
     createHeaders := createHeaders Sample.env;
     langchainMessagesToCopilotKit := langchainMessagesToCopilotKit Sample.env;
     resolvedErrorConstructor := resolvedErrorConstructor Sample.env;
     remoteChainToAction := remoteChainToAction Sample.env;
     setupRemoteActions := fun _ => Returned [agentB];
     fetchInfo := fun url init =>
       if String.eqb url "http://stateless/info"
       then Returned {| status := 200; json := Returned (Some (Sample.info "lost" None)) |}
       else if String.eqb url "http://refusing/info"
       then Returned {| status := 200; json := Returned (Some (Sample.info "shut" None)) |}
       else fetchInfo Sample.env url init;
     fetchAgentState := fun url _ =>
       if String.eqb url "http://direct/agents/state"
       then Returned {| status := 200;
                        json := Returned {| body_threadId := "t-remote";
                                            body_threadExists := true;
                                            body_state := JObject [("step", JNumber 3)];
                                            body_messages := JArray [] |} |}
       else if String.eqb url "http://stateless/agents/state"
       then Returned {| status := 404; json := Threw (JsError "no body") |}
       else if String.eqb url "http://refusing/agents/state"
       then Returned {| status := 400; json := Threw (JsError "no body") |}
       else Threw (JsError "getaddrinfo ENOTFOUND");
     assistantsSearch := fun _ => Threw (JsError "platform unreachable");
     threadsGetState := threadsGetState Sample.env;
     randomIds := randomIds Sample.env |}.

(** A runtime whose before-hook rejects every turn. *)
Definition guarded : CopilotRuntime.t :=
  CopilotRuntime.mk (ActionsArray []) [] [Threw (JsError "chain unavailable")]
    (Some (fun _ => Threw (JsError "not allowed"))) None false.

(** A runtime that hands agent sessions to the service adapter. *)
Definition delegating : CopilotRuntime.t :=
  CopilotRuntime.mk (ActionsArray []) [] [] None None true.

End Failing.

(** The agents [agents] put before those a discovery step returns. *)
Definition prepend (agents : list Agent.t) (r : World * Outcome (list Agent.t))
  : World * Outcome (list Agent.t) :=
  match r with
  | (w, Returned more) => (w, Returned (agents ++ more))
  | (w, Threw e) => (w, Threw e)
  end.

(** An endpoint definition without type tag that has the fields of a
    LangGraph Platform endpoint. *)
Definition untaggedPlatform : EndpointDefinition :=
  Endpoint.mk None None None (Some "http://platform") (Some "key") (Some []).

(** Constructor parameters with [actions] and the deprecated
    [remoteActions], without [remoteEndpoints]. *)
Definition deprecatedParams : CopilotRuntimeConstructorParams.t :=
  CopilotRuntimeConstructorParams.mk None (Some (ActionsArray [Sample.lookup]))
    (Some [Sample.direct "http://direct"]) None None None.

(** ** The deduplicator *)

Section Dedup.

Lemma includes_In names n : includes names n = true <-> In n names.
Proof.
  unfold includes. rewrite existsb_exists. split.
  - intros [x [Hin Heq]]. apply String.eqb_eq in Heq. now subst.
  - intros Hin. exists n. split; [assumption | apply String.eqb_refl].
Qed.

Lemma includes_false names n : includes names n = false <-> ~ In n names.
Proof.
  rewrite <- includes_In. destruct (includes names n); split; congruence.
Qed.

Lemma fold_flatten_step l : forall acc,
  fold_left flatten_step l (acc, map ActionInput.name acc)
  = (acc ++ keep_fresh (map ActionInput.name acc) l,
     map ActionInput.name (acc ++ keep_fresh (map ActionInput.name acc) l)).
Proof.
  induction l as [|tool rest IH]; intros acc; simpl.
  - now rewrite app_nil_r.
  - destruct (includes (map ActionInput.name acc) (ActionInput.name tool)) eqn:E; simpl.
    + apply IH.
    + replace (map ActionInput.name acc ++ [ActionInput.name tool])
        with (map ActionInput.name (acc ++ [tool])) by (now rewrite map_app).
      rewrite IH. now rewrite <- !app_assoc.
Qed.

Lemma flatten_keep_fresh l : flattenToolCallsNoDuplicates l = keep_fresh [] l.
Proof.
  unfold flattenToolCallsNoDuplicates.
  pose proof (fold_flatten_step l []) as H. simpl in H. now rewrite H.
Qed.

Lemma keep_fresh_names l : forall seen n,
  In n (map ActionInput.name (keep_fresh seen l))
  <-> In n (map ActionInput.name l) /\ ~ In n seen.
Proof.
  induction l as [|tool rest IH]; intros seen n; simpl.
  - tauto.
  - destruct (includes seen (ActionInput.name tool)) eqn:E.
    + apply includes_In in E. rewrite IH. split.
      * intros [H1 H2]. tauto.
      * intros [[H1|H1] H2]; [subst; contradiction | tauto].
    + apply includes_false in E. simpl. rewrite IH, in_app_iff. simpl. split.
      * intros [H|[H1 H2]]; [subst; tauto | tauto].
      * intros [[H1|H1] H2]; [now left|].
        destruct (string_dec (ActionInput.name tool) n); [now left | right; tauto].
Qed.

Lemma keep_fresh_NoDup l : forall seen,
  NoDup (map ActionInput.name (keep_fresh seen l)).
Proof.
  induction l as [|tool rest IH]; intros seen; simpl.
  - constructor.
  - destruct (includes seen (ActionInput.name tool)) eqn:E; [apply IH|].
    simpl. constructor; [|apply IH].
    rewrite keep_fresh_names, in_app_iff. simpl. tauto.
Qed.

Lemma keep_fresh_first l : forall seen t,
  In t (keep_fresh seen l) -> first_named (ActionInput.name t) l = Some t.
Proof.
  unfold first_named.
  induction l as [|tool rest IH]; intros seen t; simpl; [tauto|].
  destruct (includes seen (ActionInput.name tool)) eqn:E.
  - intros Hin. apply includes_In in E.
    destruct (String.eqb_spec (ActionInput.name tool) (ActionInput.name t)) as [Heq|Hne].
    + exfalso. assert (H : In (ActionInput.name t) (map ActionInput.name (keep_fresh seen rest)))
        by (now apply in_map).
      apply keep_fresh_names in H. rewrite <- Heq in H. tauto.
    + eapply IH; eassumption.
  - intros [Heq|Hin].
    + subst. now rewrite String.eqb_refl.
    + destruct (String.eqb_spec (ActionInput.name tool) (ActionInput.name t)) as [Heq|Hne].
      * exfalso. assert (H : In (ActionInput.name t)
            (map ActionInput.name (keep_fresh (seen ++ [ActionInput.name tool]) rest)))
          by (now apply in_map).
        apply keep_fresh_names in H. rewrite in_app_iff in H. simpl in H. tauto.
      * eapply IH; eassumption.
Qed.

Lemma keep_fresh_Subseq l : forall seen, Subseq (keep_fresh seen l) l.
Proof.
  induction l as [|tool rest IH]; intros seen; simpl.
  - constructor.
  - destruct (includes seen (ActionInput.name tool)); constructor; apply IH.
Qed.

Lemma NoDup_count_occ_1 (l : list string) n :
  NoDup l -> In n l -> count_occ string_dec l n = 1%nat.
Proof.
  intros Hnd Hin. rewrite (NoDup_count_occ string_dec) in Hnd.
  specialize (Hnd n). apply (count_occ_In string_dec) in Hin. lia.
Qed.

End Dedup.

(** C1. [flattenToolCallsNoDuplicates] keeps, for every name of the input,
    exactly one entry; the entry kept for a name is the first entry of the
    input with that name; the entries kept stand in the order of the input.
    The function reads its argument only: the two arrays it pushes to are
    its own locals. *)
Theorem flattenToolCallsNoDuplicates_first_wins (toolsByPriority : list ActionInput.t) :
  let result := flattenToolCallsNoDuplicates toolsByPriority in
  (forall n,
      count_occ string_dec (map ActionInput.name result) n
      = if in_dec string_dec n (map ActionInput.name toolsByPriority) then 1%nat else 0%nat)
  /\ (forall tool, In tool result ->
        first_named (ActionInput.name tool) toolsByPriority = Some tool)
  /\ Subseq result toolsByPriority.
Proof.
  intros result. unfold result. rewrite flatten_keep_fresh.
  split; [|split].
  - intros n. destruct (in_dec string_dec n (map ActionInput.name toolsByPriority)) as [Hin|Hout].
    + apply NoDup_count_occ_1; [apply keep_fresh_NoDup|].
      apply keep_fresh_names. split; [assumption | intros []].
    + apply count_occ_not_In. intros H. apply keep_fresh_names in H. tauto.
  - intros tool. apply keep_fresh_first.
  - apply keep_fresh_Subseq.
Qed.

(** ** Reasoning about the monad *)

Section MonadFacts.
Context {A B : Type}.

Lemma bind_Returned (m : M A) (k : A -> M B) w w1 a :
  m w = (w1, Returned a) -> bind m k w = k a w1.
Proof. unfold bind. now intros ->. Qed.

Lemma bind_Threw (m : M A) (k : A -> M B) w w1 e :
  m w = (w1, Threw e) -> bind m k w = (w1, Threw e).
Proof. unfold bind. now intros ->. Qed.

Lemma bind_inv (m : M A) (k : A -> M B) w w' r :
  bind m k w = (w', r) ->
  (exists w1 a, m w = (w1, Returned a) /\ k a w1 = (w', r))
  \/ (exists e, m w = (w', Threw e) /\ r = Threw e).
Proof.
  unfold bind. destruct (m w) as [w1 [a|e]]; intros H.
  - left. now exists w1, a.
  - right. exists e. now inversion H.
Qed.

Lemma bind_inv_Returned (m : M A) (k : A -> M B) w w' b :
  bind m k w = (w', Returned b) ->
  exists w1 a, m w = (w1, Returned a) /\ k a w1 = (w', Returned b).
Proof.
  intros H. apply bind_inv in H. destruct H as [H|[e [_ H]]]; [assumption | discriminate].
Qed.

Lemma try_catch_Returned (m : M A) handler w w1 a :
  m w = (w1, Returned a) -> try_catch m handler w = (w1, Returned a).
Proof. unfold try_catch. now intros ->. Qed.

Lemma try_catch_Threw (m : M A) handler w w1 e :
  m w = (w1, Threw e) -> try_catch m handler w = handler e w1.
Proof. unfold try_catch. now intros ->. Qed.

Lemma try_catch_inv (m : M A) handler w w' r :
  try_catch m handler w = (w', r) ->
  (exists a, m w = (w', Returned a) /\ r = Returned a)
  \/ (exists w1 e, m w = (w1, Threw e) /\ handler e w1 = (w', r)).
Proof.
  unfold try_catch. destruct (m w) as [w1 [a|e]]; intros H.
  - left. exists a. now inversion H.
  - right. now exists w1, e.
Qed.
End MonadFacts.

Lemma extends_refl w P : extends w w P.
Proof. exists []. split; [now rewrite app_nil_r | constructor]. Qed.

Lemma extends_trans w1 w2 w3 P : extends w1 w2 P -> extends w2 w3 P -> extends w1 w3 P.
Proof.
  intros [c1 [E1 F1]] [c2 [E2 F2]]. exists (c1 ++ c2). split.
  - now rewrite E2, E1, app_assoc.
  - apply Forall_app. now split.
Qed.

Lemma call_extends c w w' r (P : Call -> Prop) :
  P c -> call c w = (w', r) -> extends w w' P.
Proof.
  intros Hc H. inversion H; subst. exists [c]. split; [reflexivity | now constructor].
Qed.

Lemma extends_noHandler w w' :
  extends w w' noHandler ->
  filter isRemoteAgentHandlerCall (calls w') = filter isRemoteAgentHandlerCall (calls w).
Proof.
  intros [cs [E F]]. rewrite E, filter_app. clear E.
  assert (H : filter isRemoteAgentHandlerCall cs = []).
  { induction F as [|c cs Hc _ IH]; [reflexivity|].
    simpl. unfold noHandler in Hc. now rewrite Hc. }
  now rewrite H, app_nil_r.
Qed.

Lemma loadChains_extends chains : forall w w' r,
  loadChains chains w = (w', r) -> extends w w' noHandler.
Proof.
  induction chains as [|[chain|e] rest IH]; intros w w' r H; simpl in H.
  - inversion H; subst. apply extends_refl.
  - apply bind_inv in H. destruct H as [(w1 & a & H1 & H2)|(e & H1 & _)].
    + inversion H2; subst. eapply IH; eassumption.
    + eapply IH; eassumption.
  - apply bind_inv in H. destruct H as [(w1 & a & H1 & H2)|(e' & H1 & _)].
    + eapply extends_trans.
      * eapply call_extends; [|eassumption]. reflexivity.
      * eapply IH; eassumption.
    + discriminate.
Qed.

Lemma getServerSideActions_extends env this request w w' r :
  getServerSideActions env this request w = (w', r) -> extends w w' noHandler.
Proof.
  unfold getServerSideActions. intros H.
  apply bind_inv in H. destruct H as [(w1 & chains & H1 & H2)|(e & H1 & _)];
    [|eapply loadChains_extends; eassumption].
  apply loadChains_extends in H1. eapply extends_trans; [eassumption|]. clear H1.
  apply bind_inv in H2. destruct H2 as [(w2 & remoteActions & H2 & H3)|(e & H2 & _)].
  - assert (E : extends w1 w2 noHandler).
    { unfold await in H2. apply bind_inv in H2.
      destruct H2 as [(w3 & [] & H2 & H4)|(e & H2 & _)]; [|discriminate].
      unfold settled in H4. inversion H4; subst.
      eapply call_extends; [|eassumption]. reflexivity. }
    eapply extends_trans; [eassumption|]. clear E H2.
    apply bind_inv in H3. destruct H3 as [(w3 & configured & H3 & H4)|(e & H3 & _)].
    + inversion H4; subst.
      destruct (CopilotRuntime.actions this); inversion H3; subst; apply extends_refl.
    + destruct (CopilotRuntime.actions this); inversion H3; subst; apply extends_refl.
  - unfold await in H2. apply bind_inv in H2.
    destruct H2 as [(w3 & [] & H2 & H4)|(e' & H2 & _)]; [|discriminate].
    unfold settled in H4. inversion H4; subst.
    eapply call_extends; [|eassumption]. reflexivity.
Qed.

Lemma find_none_iff {X} (f : X -> bool) l :
  find f l = None <-> (forall x, In x l -> f x = false).
Proof.
  split.
  - apply find_none.
  - intros H. induction l as [|x l IH]; [reflexivity|]. simpl.
    rewrite (H x (or_introl eq_refl)). apply IH. intros y Hy. apply H. now right.
Qed.

(** C7. A turn whose service adapter is the [EmptyAdapter] and which is not
    delegated to an agent is rejected with the misuse error; the world is
    the one the turn started in, so neither the server-side actions were
    assembled, nor the before-hook run, nor a backend called. *)
Theorem empty_adapter_is_misuse env this request w :
  isEmptyAdapter (CopilotRuntimeRequest.serviceAdapter request) = true ->
  agentDelegated this request = false ->
  processRuntimeRequest env this request w
  = (w, Threw (CopilotKitMisuseError misuseMessage)).
Proof.
  intros Hempty Hdirect. unfold processRuntimeRequest.
  rewrite Hdirect, Hempty. reflexivity.
Qed.

(** C4. When the agent session names an agent that is no remote-agent action
    of the resolved server-side actions, [processAgentRequest] throws the
    agent discovery error, [processRuntimeRequest] passes it on unchanged
    for a delegated turn, and the turn calls no remote agent handler. *)
Theorem unknown_agent_is_discovery_error env this request session w w1 serverSideActions :
  CopilotRuntimeRequest.agentSession request = Some session ->
  getServerSideActions env this request w = (w1, Returned serverSideActions) ->
  (forall action, In action serverSideActions ->
     Action.name action = AgentSessionInput.agentName session ->
     isRemoteAgentAction env action = false) ->
  let error := CopilotKitAgentDiscoveryError (AgentSessionInput.agentName session) in
  processAgentRequest env this request w = (w1, Threw error)
  /\ (CopilotRuntime.delegateAgentProcessingToServiceAdapter this = false ->
      processRuntimeRequest env this request w = (w1, Threw error))
  /\ filter isRemoteAgentHandlerCall (calls w1) = filter isRemoteAgentHandlerCall (calls w).
Proof.
  intros Hsession Hactions Hnone error.
  assert (Hfind : find (isCurrentAgent env (AgentSessionInput.agentName session)) serverSideActions
                  = None).
  { apply find_none_iff. intros action Hin. unfold isCurrentAgent.
    destruct (String.eqb_spec (Action.name action) (AgentSessionInput.agentName session)) as [E|E];
      [|reflexivity].
    simpl. now apply Hnone. }
  assert (Hagent : processAgentRequest env this request w = (w1, Threw error)).
  { unfold processAgentRequest. rewrite Hsession.
    erewrite bind_Returned by eassumption. now rewrite Hfind. }
  split; [assumption|]. split.
  - intros Hflag. unfold processRuntimeRequest, agentDelegated.
    rewrite Hsession, Hflag. simpl.
    erewrite try_catch_Threw by eassumption. reflexivity.
  - apply extends_noHandler. eapply getServerSideActions_extends. eassumption.
Qed.

(** ** Inversion of the two dispatch paths *)

Ltac bind_returned H :=
  let w := fresh "w" in
  let a := fresh "a" in
  let H1 := fresh H in
  apply bind_inv_Returned in H; destruct H as (w & a & H1 & H).

Lemma await_inv {A} c (o : Outcome A) w w' r :
  await c o w = (w', r) ->
  calls w' = calls w ++ [c] /\ drawn w' = drawn w /\ detached w' = detached w /\ r = o.
Proof.
  unfold await, bind, call, settled. simpl. intros H. inversion H; subst. simpl. tauto.
Qed.

Lemma beforeRequest_inv this options w w' r :
  beforeRequest this options w = (w', r) ->
  extends w w' noHandler.
Proof.
  unfold beforeRequest. destruct (CopilotRuntime.onBeforeRequest this) as [hook|]; intros H.
  - apply await_inv in H. destruct H as (E & _). exists [OnBeforeRequest options].
    split; [assumption | now constructor].
  - inversion H; subst. apply extends_refl.
Qed.

Lemma detach_inv task w w' r :
  detach task w = (w', r) ->
  calls w' = calls w /\ detached w' = detached w ++ [task] /\ r = Returned tt.
Proof. unfold detach. intros H. inversion H; subst. simpl. tauto. Qed.

Lemma catch_handler_throws env this request w w' response :
  processRuntimeRequest env this request w = (w', Returned response) ->
  (if agentDelegated this request
   then processAgentRequest env this request
   else if isEmptyAdapter (CopilotRuntimeRequest.serviceAdapter request)
   then throw (CopilotKitMisuseError misuseMessage)
   else directDispatch env this request) w = (w', Returned response).
Proof.
  unfold processRuntimeRequest. intros H. apply try_catch_inv in H.
  destruct H as [(a & H & E)|(w1 & e & _ & H)].
  - inversion E; subst. assumption.
  - exfalso. destruct (instanceofCopilotKitError e); [discriminate|].
    unfold bind, call, throw in H. simpl in H. discriminate.
Qed.

Lemma directDispatch_inv env this request w w' response :
  directDispatch env this request w = (w', Returned response) ->
  exists w1 serverSideActions result,
    getServerSideActions env this request w = (w1, Returned serverSideActions)
    /\ process (CopilotRuntimeRequest.serviceAdapter request)
               (adapterRequest env request serverSideActions) = Returned result
    /\ In (ServiceAdapterProcess (adapterRequest env request serverSideActions)) (calls w')
    /\ CopilotRuntimeResponse.threadId response
       = Some (orElse (CopilotRuntimeRequest.threadId request) (AdapterResponse.threadId result))
    /\ CopilotRuntimeResponse.serverSideActions response = serverSideActions.
Proof.
  unfold directDispatch. intros H.
  bind_returned H. bind_returned H. bind_returned H. bind_returned H.
  inversion H; subst; clear H. simpl.
  apply await_inv in H2. destruct H2 as (Ecalls & _ & _ & Eresult).
  apply detach_inv in H3. destruct H3 as (Ecalls' & _).
  exists w0, a, a1. repeat split; try assumption; try (now symmetry).
  rewrite Ecalls', Ecalls. apply in_or_app. right. now left.
Qed.

(** C3. In a turn that is not delegated to an agent and yields a response,
    the service adapter was called and returned a result; without a
    [threadId] in the request the response carries the adapter's
    [threadId], with one it carries the request's, whatever the adapter
    reports. *)
Theorem direct_dispatch_threadId env this request w w' response :
  agentDelegated this request = false ->
  processRuntimeRequest env this request w = (w', Returned response) ->
  exists serverSideActions result,
    In (ServiceAdapterProcess (adapterRequest env request serverSideActions)) (calls w')
    /\ process (CopilotRuntimeRequest.serviceAdapter request)
               (adapterRequest env request serverSideActions) = Returned result
    /\ (CopilotRuntimeRequest.threadId request = None ->
        CopilotRuntimeResponse.threadId response = Some (AdapterResponse.threadId result))
    /\ (forall threadId, CopilotRuntimeRequest.threadId request = Some threadId ->
        CopilotRuntimeResponse.threadId response = Some threadId).
Proof.
  intros Hdirect H. apply catch_handler_throws in H. rewrite Hdirect in H.
  destruct (isEmptyAdapter (CopilotRuntimeRequest.serviceAdapter request)); [discriminate|].
  apply directDispatch_inv in H.
  destruct H as (w1 & serverSideActions & result & _ & Hprocess & Hcall & Hthread & _).
  exists serverSideActions, result. repeat split; try assumption.
  - intros Hnone. now rewrite Hthread, Hnone.
  - intros threadId Hsome. now rewrite Hthread, Hsome.
Qed.

(** ** The dispatch theorems on the sample deployment *)

Lemma empty_adapter_is_misuse_witness :
  processRuntimeRequest Sample.env (Sample.runtime [])
    (Sample.request Sample.emptyAdapter [] None (Some "t-1")) Sample.world
  = (Sample.world, Threw (CopilotKitMisuseError misuseMessage)).
Proof. apply empty_adapter_is_misuse; reflexivity. Defined.

Lemma unknown_agent_is_discovery_error_witness :
  exists w1,
    processAgentRequest Sample.env (Sample.runtime [])
      (Sample.request Sample.adapter [] (Some (Sample.session "ghost")) None) Sample.world
    = (w1, Threw (CopilotKitAgentDiscoveryError "ghost"))
    /\ filter isRemoteAgentHandlerCall (calls w1) = [].
Proof.
  eexists.
  pose proof (@unknown_agent_is_discovery_error Sample.env (Sample.runtime [])
                (Sample.request Sample.adapter [] (Some (Sample.session "ghost")) None)
                (Sample.session "ghost") Sample.world _ [Sample.agentA; Sample.search]
                eq_refl eq_refl) as H.
  simpl in H. destruct H as (H1 & _ & H3).
  - intros action [<-|[<-|[]]]; simpl; intros E; [discriminate | reflexivity].
  - split; [exact H1 | exact H3].
Defined.

Lemma direct_dispatch_threadId_witness :
  (exists w' response,
      processRuntimeRequest Sample.env (Sample.runtime [])
        (Sample.request Sample.adapter [] None None) Sample.world = (w', Returned response)
      /\ CopilotRuntimeResponse.threadId response = Some "backend-thread")
  /\ (exists w' response,
      processRuntimeRequest Sample.env (Sample.runtime [])
        (Sample.request Sample.adapter [] None (Some "t-1")) Sample.world = (w', Returned response)
      /\ CopilotRuntimeResponse.threadId response = Some "t-1").
Proof.
  split; do 2 eexists; (split; [reflexivity|]).
  - destruct (@direct_dispatch_threadId Sample.env (Sample.runtime [])
                (Sample.request Sample.adapter [] None None) Sample.world _ _
                eq_refl eq_refl) as (serverSideActions & result & _ & Hprocess & Hnone & _).
    rewrite (Hnone eq_refl). simpl in Hprocess. now inversion Hprocess.
  - destruct (@direct_dispatch_threadId Sample.env (Sample.runtime [])
                (Sample.request Sample.adapter [] None (Some "t-1")) Sample.world _ _
                eq_refl eq_refl) as (serverSideActions & result & _ & _ & _ & Hsome).
    now apply Hsome.
Defined.

(** ** The delegated action set *)

Lemma processAgentRequest_inv env this request session w w' response :
  CopilotRuntimeRequest.agentSession request = Some session ->
  processAgentRequest env this request w = (w', Returned response) ->
  let agentName := AgentSessionInput.agentName session in
  exists w1 serverSideActions currentAgent params,
    getServerSideActions env this request w = (w1, Returned serverSideActions)
    /\ find (isCurrentAgent env agentName) serverSideActions = Some currentAgent
    /\ In (RemoteAgentHandler params) (calls w')
    /\ RemoteAgentHandlerParams.name params = agentName
    /\ RemoteAgentHandlerParams.actionInputsWithoutAgents params
       = CopilotRuntimeResponse.actionInputsWithoutAgents response
    /\ CopilotRuntimeResponse.serverSideActions response = serverSideActions
    /\ CopilotRuntimeResponse.actionInputsWithoutAgents response
       = flattenToolCallsNoDuplicates
           (availableActionsForCurrentAgent env agentName serverSideActions
            ++ CopilotRuntimeRequest.actions request).
Proof.
  intros Hsession H agentName. unfold processAgentRequest in H. rewrite Hsession in H.
  bind_returned H. fold agentName in H.
  destruct (find (isCurrentAgent env agentName) a) as [currentAgent|] eqn:Hfind; [|discriminate].
  bind_returned H.
  apply try_catch_inv in H. destruct H as [(r & H & E)|(w2 & e & _ & H)].
  - inversion E; subst r; clear E.
    bind_returned H. bind_returned H. inversion H; subst; clear H. simpl.
    destruct (Action.remoteAgentHandler currentAgent) as [handler|]; [|discriminate].
    apply await_inv in H2. destruct H2 as (Ecalls & _).
    apply detach_inv in H3. destruct H3 as (Ecalls' & _).
    eexists w0, a, currentAgent, _.
    split; [eassumption|]. split; [eassumption|]. split.
    { rewrite Ecalls', Ecalls. apply in_or_app. right. left. reflexivity. }
    repeat split.
  - exfalso. unfold bind, call, throw in H. simpl in H. discriminate.
Qed.

Lemma flatten_names l n :
  In n (map ActionInput.name (flattenToolCallsNoDuplicates l)) <-> In n (map ActionInput.name l).
Proof. rewrite flatten_keep_fresh, keep_fresh_names. simpl. tauto. Qed.

Lemma keepForAgent_spec env agentName action :
  keepForAgent env agentName action = true
  <-> isRemoteAgentAction env action = false \/ Action.name action <> agentName.
Proof.
  unfold keepForAgent.
  destruct (isRemoteAgentAction env action); simpl;
    destruct (String.eqb_spec (Action.name action) agentName); simpl; split; intros H;
    try tauto; try discriminate; try (now left); try (now right).
  destruct H as [H|H]; [discriminate | contradiction].
Qed.

Lemma available_names env agentName serverSideActions n :
  In n (map ActionInput.name (availableActionsForCurrentAgent env agentName serverSideActions))
  <-> exists action, In action serverSideActions /\ Action.name action = n
                     /\ (isRemoteAgentAction env action = false \/ n <> agentName).
Proof.
  unfold availableActionsForCurrentAgent. rewrite map_map. simpl. rewrite in_map_iff. split.
  - intros (action & E & Hin). apply filter_In in Hin. destruct Hin as [Hin Hkeep].
    apply keepForAgent_spec in Hkeep. exists action. subst n. tauto.
  - intros (action & Hin & E & Hkeep). exists action. split; [assumption|].
    apply filter_In. split; [assumption|]. apply keepForAgent_spec. subst n. tauto.
Qed.

(** ** Agent discovery *)

Lemma reducer_fold_Threw env graphqlContext endpoints : forall (acc : M (list Agent.t)) w w' e,
  acc w = (w', Threw e) ->
  fold_left (reducer env graphqlContext) endpoints acc w = (w', Threw e).
Proof.
  induction endpoints as [|endpoint rest IH]; intros acc w w' e H; simpl; [assumption|].
  apply IH. unfold reducer. now apply bind_Threw.
Qed.

Lemma discovery_stops_at_first_error env this graphqlContext before endpoint after agents w w1 w2 e :
  CopilotRuntime.remoteEndpointDefinitions this = before ++ endpoint :: after ->
  fold_left (reducer env graphqlContext) before (ret []) w = (w1, Returned agents) ->
  discoverEndpoint env graphqlContext agents endpoint w1 = (w2, Threw e) ->
  discoverAgentsFromEndpoints env this graphqlContext w = (w2, Threw e).
Proof.
  intros Hsplit Hbefore Hstep. unfold discoverAgentsFromEndpoints.
  rewrite Hsplit, fold_left_app. simpl. apply reducer_fold_Threw.
  unfold reducer at 1. erewrite bind_Returned by eassumption. assumption.
Qed.

Lemma ok_404 {A} (response : FetchResponse A) : status response = 404%Z -> ok response = false.
Proof. unfold ok. now intros ->. Qed.

Lemma throwResolvedCopilotKitError_throws {A} env status url isRemoteEndpoint w :
  exists e, throwResolvedCopilotKitError (A := A) env status url isRemoteEndpoint w = (w, Threw e).
Proof.
  unfold throwResolvedCopilotKitError.
  destruct (resolvedErrorConstructor env status url isRemoteEndpoint) as [thrown|];
    eexists; reflexivity.
Qed.

Lemma discoverEndpoint_not_ok env graphqlContext agents endpoint w response :
  is_type endpoint LangGraphPlatform = false ->
  fetchInfo env (infoUrl endpoint) (infoInit env endpoint graphqlContext) = Returned response ->
  ok response = false ->
  snd (discoverEndpoint env graphqlContext agents endpoint w)
  = Threw (if (status response =? 404)%Z
           then CopilotKitApiDiscoveryError (infoUrl endpoint)
           else match resolvedErrorConstructor env (status response) (infoUrl endpoint) true with
                | None => ResolvedCopilotKitError (status response) (infoUrl endpoint) true
                | Some error =>
                    if instanceofCopilotKitError error then error
                    else CopilotKitLowLevelError error (infoUrl endpoint)
                end).
Proof.
  intros Htype Hfetch Hok. unfold discoverEndpoint. rewrite Htype.
  unfold try_catch, await, bind, call, settled, throwResolvedCopilotKitError.
  rewrite Hfetch, Hok. simpl.
  destruct (status response =? 404)%Z; [reflexivity|].
  destruct (resolvedErrorConstructor env (status response) (infoUrl endpoint) true)
    as [error|]; simpl; [|reflexivity].
  destruct (instanceofCopilotKitError error); reflexivity.
Qed.

Lemma discoverEndpoint_fetch_throws env graphqlContext agents endpoint w cause :
  is_type endpoint LangGraphPlatform = false ->
  fetchInfo env (infoUrl endpoint) (infoInit env endpoint graphqlContext) = Threw cause ->
  instanceofCopilotKitError cause = false ->
  snd (discoverEndpoint env graphqlContext agents endpoint w)
  = Threw (CopilotKitLowLevelError cause (infoUrl endpoint)).
Proof.
  intros Htype Hfetch Hplain. unfold discoverEndpoint. rewrite Htype.
  unfold try_catch, await, bind, call, settled. rewrite Hfetch. simpl.
  now rewrite Hplain.
Qed.

Lemma snd_Threw {A} (m : M A) w e : snd (m w) = Threw e -> exists w', m w = (w', Threw e).
Proof. destruct (m w) as [w' r]. simpl. intros ->. now exists w'. Qed.

(** C5, amended.  Discovery reaches the CopilotKit endpoint [endpoint]
    after the endpoints before it have answered.  A 404 on [/info] makes
    discovery throw the API discovery error with the URL fetched.  Any
    other status outside 200..299 makes it construct the resolved error
    with that status, the URL and the remote-endpoint flag set: discovery
    throws that error when the constructor builds it; when the constructor
    throws instead, discovery throws what the constructor threw if that is
    a CopilotKit error, and the low-level error that wraps it and the URL
    otherwise.  An exception of [fetch] itself makes discovery throw the
    low-level error that wraps the exception and the URL. *)
Theorem info_failures_are_classified env this graphqlContext before endpoint after agents w w1 :
  CopilotRuntime.remoteEndpointDefinitions this = before ++ endpoint :: after ->
  fold_left (reducer env graphqlContext) before (ret []) w = (w1, Returned agents) ->
  is_type endpoint LangGraphPlatform = false ->
  let fetchUrl := template_opt (Endpoint.url endpoint) ^^ "/info" in
  let fetched := fetchInfo env fetchUrl (infoInit env endpoint graphqlContext) in
  let thrown := snd (discoverAgentsFromEndpoints env this graphqlContext w) in
  (forall response, fetched = Returned response -> status response = 404%Z ->
     thrown = Threw (CopilotKitApiDiscoveryError fetchUrl))
  /\ (forall response, fetched = Returned response ->
        ((status response < 200)%Z \/ (299 < status response)%Z) -> status response <> 404%Z ->
        thrown
        = Threw match resolvedErrorConstructor env (status response) fetchUrl true with
                | None => ResolvedCopilotKitError (status response) fetchUrl true
                | Some error =>
                    if instanceofCopilotKitError error then error
                    else CopilotKitLowLevelError error fetchUrl
                end)
  /\ (forall cause, fetched = Threw cause -> instanceofCopilotKitError cause = false ->
        thrown = Threw (CopilotKitLowLevelError cause fetchUrl)).
Proof.
  intros Hsplit Hbefore Htype fetchUrl fetched thrown.
  assert (Hstop : forall e,
            snd (discoverEndpoint env graphqlContext agents endpoint w1) = Threw e ->
            thrown = Threw e).
  { intros e He. apply snd_Threw in He. destruct He as [w2 He]. unfold thrown.
    erewrite discovery_stops_at_first_error; [reflexivity | eassumption ..]. }
  split; [|split].
  - intros response Hfetch H404. apply Hstop.
    erewrite discoverEndpoint_not_ok; [|eassumption | eassumption | now apply ok_404].
    now rewrite H404.
  - intros response Hfetch Hrange Hnot. apply Hstop.
    assert (Hok : ok response = false).
    { unfold ok. apply andb_false_iff. destruct Hrange; [left|right]; lia. }
    erewrite discoverEndpoint_not_ok; [|eassumption ..].
    destruct (Z.eqb_spec (status response) 404); [contradiction | reflexivity].
  - intros cause Hfetch Hplain. apply Hstop.
    now apply discoverEndpoint_fetch_throws.
Qed.

Lemma info_failures_are_classified_witness :
  snd (discoverAgentsFromEndpoints Sample.env
         (Sample.runtime [Sample.platform; Sample.direct "http://gone"]) Sample.context
         Sample.world)
  = Threw (CopilotKitApiDiscoveryError "http://gone/info")
  /\ snd (discoverAgentsFromEndpoints Sample.env
            (Sample.runtime [Sample.platform; Sample.direct "http://broken"]) Sample.context
            Sample.world)
     = Threw (ResolvedCopilotKitError 500 "http://broken/info" true)
  /\ snd (discoverAgentsFromEndpoints Sample.env
            (Sample.runtime [Sample.platform; Sample.direct "http://strict"]) Sample.context
            Sample.world)
     = Threw (CopilotKitApiDiscoveryError "http://strict/info")
  /\ snd (discoverAgentsFromEndpoints Sample.env
            (Sample.runtime [Sample.platform; Sample.direct "http://nowhere"]) Sample.context
            Sample.world)
     = Threw (CopilotKitLowLevelError (JsError "getaddrinfo ENOTFOUND") "http://nowhere/info").
Proof.
  split; [|split; [|split]].
  - refine (proj1 (@info_failures_are_classified Sample.env
              (Sample.runtime [Sample.platform; Sample.direct "http://gone"]) Sample.context
              [Sample.platform] (Sample.direct "http://gone") [] _ Sample.world _
              eq_refl eq_refl eq_refl) _ eq_refl eq_refl).
  - refine (proj1 (proj2 (@info_failures_are_classified Sample.env
              (Sample.runtime [Sample.platform; Sample.direct "http://broken"]) Sample.context
              [Sample.platform] (Sample.direct "http://broken") [] _ Sample.world _
              eq_refl eq_refl eq_refl)) _ eq_refl _ _); simpl; [right; lia | lia].
  - refine (proj1 (proj2 (@info_failures_are_classified Sample.env
              (Sample.runtime [Sample.platform; Sample.direct "http://strict"]) Sample.context
              [Sample.platform] (Sample.direct "http://strict") [] _ Sample.world _
              eq_refl eq_refl eq_refl)) _ eq_refl _ _); simpl; [right; lia | lia].
  - refine (proj2 (proj2 (@info_failures_are_classified Sample.env
              (Sample.runtime [Sample.platform; Sample.direct "http://nowhere"]) Sample.context
              [Sample.platform] (Sample.direct "http://nowhere") [] _ Sample.world _
              eq_refl eq_refl eq_refl)) _ eq_refl eq_refl).
Defined.

(** C5, as the claim states it, fails: the endpoint [http://strict] of the
    sample deployment answers [/info] with status 400, for which the
    constructor of the resolved error throws the API discovery error;
    discovery throws that error, not the resolved error with status 400. *)
Lemma bad_request_is_a_discovery_error :
  ~ (forall env this graphqlContext before endpoint after agents w w1 response,
       CopilotRuntime.remoteEndpointDefinitions this = before ++ endpoint :: after ->
       fold_left (reducer env graphqlContext) before (ret []) w = (w1, Returned agents) ->
       is_type endpoint LangGraphPlatform = false ->
       fetchInfo env (infoUrl endpoint) (infoInit env endpoint graphqlContext)
       = Returned response ->
       ((status response < 200)%Z \/ (299 < status response)%Z) ->
       status response <> 404%Z ->
       snd (discoverAgentsFromEndpoints env this graphqlContext w)
       = Threw (ResolvedCopilotKitError (status response) (infoUrl endpoint) true)).
Proof.
  intros claim.
  specialize (claim Sample.env (Sample.runtime [Sample.direct "http://strict"]) Sample.context
                [] (Sample.direct "http://strict") [] [] Sample.world Sample.world
                {| status := 400; json := Threw (JsError "no body") |}
                eq_refl eq_refl eq_refl eq_refl).
  simpl in claim.
  assert (H : Threw (A := list AgentWithEndpoint) (CopilotKitApiDiscoveryError "http://strict/info")
              = Threw (ResolvedCopilotKitError 400 "http://strict/info" true)).
  { apply claim; [right; lia | lia]. }
  discriminate H.
Qed.

Lemma mapM_infoAgent env endpoint entries : forall w,
  exists w',
    mapM (infoAgent env endpoint) entries w
    = (w', Returned (agentsWithFreshIds env endpoint (drawn w) entries))
    /\ drawn w' = drawn w + length entries.
Proof.
  induction entries as [|entry rest IH]; intros w.
  - exists w. split; [reflexivity | simpl; lia].
  - simpl mapM. unfold infoAgent at 1. unfold randomId, bind at 1 2, ret at 1.
    match goal with
    | |- context [bind (mapM _ rest) _ ?world] => destruct (IH world) as (w' & Hrest & Hdrawn)
    end.
    exists w'. split.
    + erewrite bind_Returned by exact Hrest. reflexivity.
    + rewrite Hdrawn. simpl. lia.
Qed.

Lemma agentsWithFreshIds_ids env endpoint entries : forall first,
  map Agent.id (agentsWithFreshIds env endpoint first entries)
  = map (randomIds env) (seq first (length entries)).
Proof.
  unfold agentsWithFreshIds.
  induction entries as [|entry rest IH]; intros first; [reflexivity|].
  simpl. now rewrite IH.
Qed.

Lemma discoverEndpoint_direct_inv env graphqlContext agents endpoint w w' result :
  is_type endpoint LangGraphPlatform = false ->
  discoverEndpoint env graphqlContext agents endpoint w = (w', Returned result) ->
  exists response data,
    fetchInfo env (infoUrl endpoint) (infoInit env endpoint graphqlContext) = Returned response
    /\ json response = Returned data
    /\ result = agents ++ agentsWithFreshIds env endpoint (drawn w)
                            (orElse (field data info_agents) [])
    /\ drawn w' = drawn w + length (orElse (field data info_agents) []).
Proof.
  intros Htype H. unfold discoverEndpoint in H. rewrite Htype in H.
  apply try_catch_inv in H. destruct H as [(r & H & E)|(w1 & e & _ & H)].
  - inversion E; subst r; clear E.
    apply bind_inv_Returned in H. destruct H as (w1 & response & Hawait & H).
    apply await_inv in Hawait. destruct Hawait as (_ & Hdrawn & _ & Hfetch).
    destruct (ok response); simpl in H;
      [|destruct (status response =? 404)%Z; [discriminate|];
        destruct (@throwResolvedCopilotKitError_throws (list Agent.t) env (status response)
                    (infoUrl endpoint) true w1) as [e He];
        rewrite He in H; discriminate].
    apply bind_inv_Returned in H. destruct H as (w2 & data & Hjson & H).
    unfold settled in Hjson. inversion Hjson; subst w2; clear Hjson.
    apply bind_inv_Returned in H. destruct H as (w3 & endpointAgents & Hmap & H).
    inversion H; subst; clear H.
    destruct (mapM_infoAgent env endpoint (orElse (field data info_agents) []) w1)
      as (w2 & Hmap' & Hdrawn').
    rewrite Hmap' in Hmap. inversion Hmap; subst; clear Hmap.
    exists response, data. rewrite <- Hdrawn. now repeat split.
  - exfalso. destruct (instanceofCopilotKitError e); discriminate.
Qed.

Lemma discoverEndpoint_platform_inv env graphqlContext agents endpoint w w' result :
  is_type endpoint LangGraphPlatform = true ->
  discoverEndpoint env graphqlContext agents endpoint w = (w', Returned result) ->
  exists data,
    assistantsSearch env (langGraphClient endpoint graphqlContext) = Returned data
    /\ result = agents ++ platformAgents endpoint data
    /\ drawn w' = drawn w.
Proof.
  intros Htype H. unfold discoverEndpoint in H. rewrite Htype in H.
  apply bind_inv_Returned in H. destruct H as (w1 & data & Hawait & H).
  inversion H; subst; clear H.
  apply await_inv in Hawait. destruct Hawait as (_ & Hdrawn & _ & Hsearch).
  exists data. now repeat split.
Qed.

Lemma agentsWithFreshIds_endpoint env endpoint entries : forall first agent,
  In agent (agentsWithFreshIds env endpoint first entries) -> Agent.endpoint agent = endpoint.
Proof.
  unfold agentsWithFreshIds.
  induction entries as [|entry rest IH]; intros first agent; simpl; [intros []|].
  intros [<-|Hin]; [reflexivity | eapply IH; eassumption].
Qed.

Lemma filter_all {X} (f : X -> bool) l : (forall x, In x l -> f x = true) -> filter f l = l.
Proof.
  induction l as [|x l IH]; intros H; [reflexivity|]. simpl.
  rewrite (H x (or_introl eq_refl)). f_equal. apply IH. intros y Hy. apply H. now right.
Qed.

Lemma filter_none {X} (f : X -> bool) l : (forall x, In x l -> f x = false) -> filter f l = [].
Proof.
  induction l as [|x l IH]; intros H; [reflexivity|]. simpl.
  rewrite (H x (or_introl eq_refl)). apply IH. intros y Hy. apply H. now right.
Qed.

Lemma platformAgents_spec env graphqlContext endpoint data agent :
  assistantsSearch env (langGraphClient endpoint graphqlContext) = Returned data ->
  In agent (platformAgents endpoint data) ->
  Agent.endpoint agent = endpoint /\ namedByAssistant env graphqlContext agent.
Proof.
  intros Hsearch Hin. unfold platformAgents in Hin. apply in_map_iff in Hin.
  destruct Hin as (assistant & <- & Hin). split; [reflexivity|].
  exists data, assistant. simpl. now repeat split.
Qed.

(** What the reduce has appended to its accumulator. *)
Lemma fold_reducer_inv env graphqlContext endpoints : forall acc w w' result,
  fold_left (reducer env graphqlContext) endpoints acc w = (w', Returned result) ->
  exists w1 agents more,
    acc w = (w1, Returned agents)
    /\ result = agents ++ more
    /\ drawn w1 <= drawn w'
    /\ map Agent.id (filter (fun agent => negb (fromPlatform agent)) more)
       = map (randomIds env) (seq (drawn w1) (drawn w' - drawn w1))
    /\ Forall (fun agent => fromPlatform agent = true -> namedByAssistant env graphqlContext agent)
              more.
Proof.
  induction endpoints as [|endpoint rest IH]; intros acc w w' result H; simpl in H.
  - exists w', result, []. rewrite app_nil_r, Nat.sub_diag. now repeat split.
  - apply IH in H. destruct H as (w2 & agents2 & more2 & Hstep & -> & Hle & Hids & Hnamed).
    unfold reducer in Hstep. apply bind_inv_Returned in Hstep.
    destruct Hstep as (w1 & agents & Hacc & Hstep).
    destruct (is_type endpoint LangGraphPlatform) eqn:Htype.
    + destruct (@discoverEndpoint_platform_inv _ _ _ _ _ _ _ Htype Hstep)
        as (data & Hsearch & -> & Hdrawn).
      exists w1, agents, (platformAgents endpoint data ++ more2).
      rewrite <- Hdrawn. split; [assumption|]. split; [now rewrite app_assoc|].
      split; [assumption|]. split.
      * rewrite filter_app, filter_none, app_nil_l; [assumption|].
        intros agent Hin. unfold fromPlatform.
        destruct (@platformAgents_spec _ _ _ _ _ Hsearch Hin) as [-> _]. now rewrite Htype.
      * apply Forall_app. split; [|assumption]. apply Forall_forall. intros agent Hin _.
        now destruct (@platformAgents_spec _ _ _ _ _ Hsearch Hin).
    + destruct (@discoverEndpoint_direct_inv _ _ _ _ _ _ _ Htype Hstep)
        as (response & data & _ & _ & -> & Hdrawn).
      set (entries := orElse (field data info_agents) []) in *.
      exists w1, agents, (agentsWithFreshIds env endpoint (drawn w1) entries ++ more2).
      split; [assumption|]. split; [now rewrite app_assoc|].
      split; [lia|]. split.
      * rewrite filter_app, map_app, Hids, filter_all, agentsWithFreshIds_ids.
        -- rewrite <- map_app, Hdrawn, <- seq_app. do 2 f_equal. lia.
        -- intros agent Hin. unfold fromPlatform.
           rewrite (@agentsWithFreshIds_endpoint _ _ _ _ _ Hin). now rewrite Htype.
      * apply Forall_app. split; [|assumption]. apply Forall_forall. intros agent Hin Hplatform.
        unfold fromPlatform in Hplatform.
        rewrite (@agentsWithFreshIds_endpoint _ _ _ _ _ Hin) in Hplatform. congruence.
Qed.

(** C9, as the code has it.  Of the agents discovery returns, those of the
    CopilotKit endpoints carry, in order, the ids the generator of random
    ids produced during this discovery, one fresh draw for each of them and
    none taken from an [/info] response; those of a LangGraph Platform
    endpoint carry the [assistant_id] (and, as name, the [graph_id]) of an
    assistant the search on their endpoint returned. *)
Theorem discovered_agent_ids env this graphqlContext w w' result :
  discoverAgentsFromEndpoints env this graphqlContext w = (w', Returned result) ->
  map Agent.id (filter (fun agent => negb (fromPlatform agent)) result)
  = map (randomIds env) (seq (drawn w) (drawn w' - drawn w))
  /\ Forall (fun agent => fromPlatform agent = true -> namedByAssistant env graphqlContext agent)
            result.
Proof.
  unfold discoverAgentsFromEndpoints. intros H. apply fold_reducer_inv in H.
  destruct H as (w1 & agents & more & Hinit & -> & _ & Hids & Hnamed).
  inversion Hinit; subst. now split.
Qed.

Lemma discovered_agent_ids_witness :
  exists w' result,
    discoverAgentsFromEndpoints Sample.env
      (Sample.runtime [Sample.platform; Sample.direct "http://direct"]) Sample.context
      Sample.world
    = (w', Returned result)
    /\ map Agent.name result = ["planner"; "helper"]
    /\ map Agent.id result = ["asst-1"; "ck-0"]
    /\ map Agent.id (filter (fun agent => negb (fromPlatform agent)) result)
       = [randomIds Sample.env 0].
Proof.
  do 2 eexists. split; [cbv; reflexivity|]. split; [reflexivity|]. split; [reflexivity|].
  exact (proj1 (@discovered_agent_ids Sample.env
                  (Sample.runtime [Sample.platform; Sample.direct "http://direct"])
                  Sample.context Sample.world _ _ eq_refl)).
Defined.

(** C9, as the claim states it, fails: the endpoint [http://direct] of the
    sample deployment sends the id [server-7] with its agent [helper], and
    discovery gives that agent the id drawn from the generator. *)
Lemma sent_agent_id_is_ignored :
  ~ (forall env this graphqlContext w w' result endpoint response data entry sent,
       discoverAgentsFromEndpoints env this graphqlContext w = (w', Returned result) ->
       In endpoint (CopilotRuntime.remoteEndpointDefinitions this) ->
       is_type endpoint LangGraphPlatform = false ->
       fetchInfo env (infoUrl endpoint) (infoInit env endpoint graphqlContext)
       = Returned response ->
       json response = Returned data ->
       In entry (orElse (field data info_agents) []) ->
       InfoAgent.sent_id entry = Some sent ->
       exists agent, In agent result /\ Agent.name agent = InfoAgent.name entry
                     /\ Agent.id agent = sent).
Proof.
  intros claim.
  destruct (claim Sample.env (Sample.runtime [Sample.direct "http://direct"]) Sample.context
              Sample.world _ _ (Sample.direct "http://direct") _ _
              (InfoAgent.mk "helper" None (Some "server-7")) "server-7"
              eq_refl (or_introl eq_refl) eq_refl eq_refl eq_refl (or_introl eq_refl) eq_refl)
    as (agent & Hin & _ & Hid).
  simpl in Hin. destruct Hin as [<-|[]]. discriminate Hid.
Qed.

(** ** Agent state *)

Lemma get_without_same k state : get k (without k state) = None.
Proof.
  unfold without. induction state as [|[k' v] rest IH]; [reflexivity|]. simpl.
  destruct (String.eqb_spec k' k) as [E|E]; simpl; [assumption|].
  destruct (String.eqb_spec k' k); [contradiction | assumption].
Qed.

Lemma get_without_other k k' state : k' <> k -> get k' (without k state) = get k' state.
Proof.
  intros Hne. unfold without. induction state as [|[k0 v] rest IH]; [reflexivity|]. simpl.
  destruct (String.eqb_spec k0 k) as [E|E]; simpl.
  - subst k0. destruct (String.eqb_spec k k'); [congruence | assumption].
  - destruct (String.eqb_spec k0 k'); [reflexivity | assumption].
Qed.

Lemma loadAgentState_platform env this graphqlContext threadId agentName w w1 agents agent :
  discoverAgentsFromEndpoints env this graphqlContext w = (w1, Returned agents) ->
  find (fun candidate => String.eqb (Agent.name candidate) agentName) agents = Some agent ->
  is_type (Agent.endpoint agent) LangGraphPlatform = true ->
  loadAgentState env this graphqlContext threadId agentName w
  = loadPlatformState env (Agent.endpoint agent) graphqlContext threadId w1.
Proof.
  intros Hdiscover Hfind Htype. unfold loadAgentState.
  erewrite bind_Returned by eassumption. now rewrite Hfind, Htype.
Qed.

(** C6, amended.  [loadAgentState] for an agent of a LangGraph Platform
    endpoint.  When the query of the thread state throws, or returns a
    state without keys, the call returns (it does not throw) the snapshot
    with [threadExists = false], state [{}] and messages [[]].  When the
    state has keys, its [messages] field (absent or not) is converted: if
    the conversion returns, the call returns [threadExists = true], state
    the serialization of the state without its [messages] field (the other
    fields unchanged), and messages the serialization of the converted
    messages; if the conversion throws, the call throws what it threw. *)
Theorem platform_state_snapshot env this graphqlContext threadId agentName w w1 agents agent :
  discoverAgentsFromEndpoints env this graphqlContext w = (w1, Returned agents) ->
  find (fun candidate => String.eqb (Agent.name candidate) agentName) agents = Some agent ->
  is_type (Agent.endpoint agent) LangGraphPlatform = true ->
  let fetched :=
    threadsGetState env (langGraphClient (Agent.endpoint agent) graphqlContext) threadId in
  let returned := snd (loadAgentState env this graphqlContext threadId agentName w) in
  ((exists e, fetched = Threw e) \/ fetched = Returned {| values := [] |} ->
   returned = Returned (LoadAgentStateResponse.mk (orEmpty threadId) false "{}" "[]"))
  /\ (forall state, fetched = Returned {| values := state |} -> state <> [] ->
      let converted := langchainMessagesToCopilotKit env (get "messages" state) in
      (forall copilotkitMessages, converted = Returned copilotkitMessages ->
         returned
         = Returned (LoadAgentStateResponse.mk (orEmpty threadId) true
                       (stringify (JObject (without "messages" state)))
                       (stringify copilotkitMessages)))
      /\ (forall e, converted = Threw e -> returned = Threw e)
      /\ get "messages" (without "messages" state) = None
      /\ (forall k, k <> "messages" -> get k (without "messages" state) = get k state)).
Proof.
  intros Hdiscover Hfind Htype fetched returned. unfold returned.
  erewrite loadAgentState_platform; [|eassumption ..].
  unfold loadPlatformState, try_catch, await, bind, call, settled, ret. fold fetched.
  split.
  - intros [[e ->]| ->]; reflexivity.
  - intros state -> Hkeys.
    assert (Hlength : Nat.eqb (length (keys state)) 0 = false)
      by (destruct state; [contradiction | reflexivity]).
    split; [|split; [|split]].
    + intros copilotkitMessages Hconverted. simpl. now rewrite Hlength, Hconverted.
    + intros e Hconverted. simpl. now rewrite Hlength, Hconverted.
    + apply get_without_same.
    + intros k. apply get_without_other.
Qed.

Lemma platform_state_snapshot_witness :
  snd (loadAgentState Sample.env (Sample.runtime [Sample.platform]) Sample.context
         "t-missing" "planner" Sample.world)
  = Returned (LoadAgentStateResponse.mk "t-missing" false "{}" "[]")
  /\ snd (loadAgentState Sample.env (Sample.runtime [Sample.platform]) Sample.context
            "t-empty" "planner" Sample.world)
     = Returned (LoadAgentStateResponse.mk "t-empty" false "{}" "[]")
  /\ exists state,
       snd (loadAgentState Sample.env (Sample.runtime [Sample.platform]) Sample.context
              "t-full" "planner" Sample.world)
       = Returned (LoadAgentStateResponse.mk "t-full" true state
                     ("[" ^^ quote ^^ "hi" ^^ quote ^^ "]"))
       /\ state = "{" ^^ quote ^^ "step" ^^ quote ^^ ":2}"
       /\ snd (loadAgentState Sample.env (Sample.runtime [Sample.platform]) Sample.context
                 "t-bare" "planner" Sample.world)
          = Threw (JsError "messages is not iterable").
Proof.
  split; [|split].
  - apply (proj1 (@platform_state_snapshot Sample.env (Sample.runtime [Sample.platform])
                    Sample.context "t-missing" "planner" Sample.world _ _ _
                    eq_refl eq_refl eq_refl)).
    left. eexists. reflexivity.
  - apply (proj1 (@platform_state_snapshot Sample.env (Sample.runtime [Sample.platform])
                    Sample.context "t-empty" "planner" Sample.world _ _ _
                    eq_refl eq_refl eq_refl)).
    right. reflexivity.
  - eexists. split; [|split; [reflexivity|]].
    + refine (proj1 (proj2 (@platform_state_snapshot Sample.env (Sample.runtime [Sample.platform])
                      Sample.context "t-full" "planner" Sample.world _ _ _
                      eq_refl eq_refl eq_refl) _ eq_refl _) _ eq_refl).
      discriminate.
    + refine (proj1 (proj2 (proj2 (@platform_state_snapshot Sample.env
                      (Sample.runtime [Sample.platform])
                      Sample.context "t-bare" "planner" Sample.world _ _ _
                      eq_refl eq_refl eq_refl) _ eq_refl _)) _ eq_refl).
      discriminate.
Defined.

(** C6, as the claim states it, fails: the thread [t-bare] of the sample
    deployment has a state with one key and no [messages] field; the
    conversion of the absent field throws, and [loadAgentState] throws
    with it instead of returning a snapshot with [threadExists = true]. *)
Lemma state_without_messages_is_no_snapshot :
  ~ (forall env this graphqlContext threadId agentName w w1 agents agent state,
       discoverAgentsFromEndpoints env this graphqlContext w = (w1, Returned agents) ->
       find (fun candidate => String.eqb (Agent.name candidate) agentName) agents = Some agent ->
       is_type (Agent.endpoint agent) LangGraphPlatform = true ->
       threadsGetState env (langGraphClient (Agent.endpoint agent) graphqlContext) threadId
       = Returned {| values := state |} ->
       state <> [] ->
       exists snapshot,
         snd (loadAgentState env this graphqlContext threadId agentName w) = Returned snapshot
         /\ LoadAgentStateResponse.threadExists snapshot = true).
Proof.
  intros claim.
  destruct (claim Sample.env (Sample.runtime [Sample.platform]) Sample.context
              "t-bare" "planner" Sample.world _ _ _ [("step", JNumber 2)]
              eq_refl eq_refl eq_refl eq_refl) as (snapshot & Hreturned & _).
  - discriminate.
  - discriminate Hreturned.
Qed.

(** ** The constructor *)

(** C10. A runtime constructed with both [actions] and [remoteEndpoints]
    (empty or not) gets the empty list as its actions; the server-side
    actions of each of its turns are then the loaded langserve chains
    followed by the remote actions, with nothing from the configured
    actions. *)
Theorem actions_ignored_with_remote_endpoints env params configured endpoints w0 w1 this :
  CopilotRuntimeConstructorParams.actions params = Some configured ->
  CopilotRuntimeConstructorParams.remoteEndpoints params = Some endpoints ->
  constructor env (Some params) w0 = (w1, Returned this) ->
  CopilotRuntime.actions this = ActionsArray []
  /\ CopilotRuntime.remoteEndpointDefinitions this = endpoints
  /\ forall request w w' serverSideActions,
       getServerSideActions env this request w = (w', Returned serverSideActions) ->
       exists w2 langserveFunctions remoteActions,
         loadChains (CopilotRuntime.langserve this) w = (w2, Returned langserveFunctions)
         /\ setupRemoteActions env (setupParams env this request) = Returned remoteActions
         /\ serverSideActions = langserveFunctions ++ remoteActions.
Proof.
  intros Hactions Hendpoints Hnew.
  unfold constructor in Hnew. simpl in Hnew. rewrite Hactions, Hendpoints in Hnew.
  simpl in Hnew. unfold bind, call, ret in Hnew. simpl in Hnew.
  inversion Hnew; subst; clear Hnew. simpl.
  split; [reflexivity|]. split; [reflexivity|].
  intros request w w' serverSideActions H. unfold getServerSideActions in H. simpl in H.
  apply bind_inv_Returned in H. destruct H as (w2 & langserveFunctions & Hchains & H).
  apply bind_inv_Returned in H. destruct H as (w3 & remoteActions & Hsetup & H).
  apply await_inv in Hsetup. destruct Hsetup as (_ & _ & _ & Hsetup).
  unfold bind, ret in H. inversion H; subst; clear H.
  exists w2, langserveFunctions, remoteActions. simpl. repeat split; try assumption.
  now symmetry.
Qed.

Lemma actions_ignored_with_remote_endpoints_witness :
  exists w1 this,
    constructor Sample.env (Some Sample.params) Sample.world = (w1, Returned this)
    /\ CopilotRuntime.actions this = ActionsArray []
    /\ calls w1
       = [ConsoleWarn "Actions set in runtime instance will be ignored when remote endpoints are set"]
    /\ snd (getServerSideActions Sample.env this
              (Sample.request Sample.adapter [] None None) w1)
       = Returned [Sample.agentA; Sample.search].
Proof.
  do 2 eexists. split; [cbv; reflexivity|].
  destruct (@actions_ignored_with_remote_endpoints Sample.env Sample.params
              (ActionsArray [Sample.lookup]) [Sample.direct "http://direct"]
              Sample.world _ _ eq_refl eq_refl eq_refl) as (Hactions & _ & _).
  split; [exact Hactions|]. split; reflexivity.
Defined.

(** ** The after-hook *)

Lemma settle_promise_rejected task e :
  task_promise task = Threw e ->
  settle task = {| hookCalls := []; swallowed := Some e; unhandledRejection := None |}.
Proof. unfold settle. now intros ->. Qed.

Lemma settle_hook_needs_output task options :
  In options (hookCalls (settle task)) ->
  exists outputMessages,
    task_promise task = Returned outputMessages /\ options = task_options task outputMessages.
Proof.
  unfold settle. destruct (task_promise task) as [outputMessages|e]; [|intros []].
  destruct (task_hook task) as [hook|]; [|intros []].
  destruct (hook (task_options task outputMessages)); simpl; intros [<-|[]];
    now exists outputMessages.
Qed.

Lemma settle_hook_throws task outputMessages hook e :
  task_promise task = Returned outputMessages ->
  task_hook task = Some hook ->
  hook (task_options task outputMessages) = HookThrows e ->
  swallowed (settle task) = Some e /\ unhandledRejection (settle task) = None.
Proof. unfold settle. intros -> -> ->. now split. Qed.

Lemma settle_hook_rejects task outputMessages hook e :
  task_promise task = Returned outputMessages ->
  task_hook task = Some hook ->
  hook (task_options task outputMessages) = HookRejects e ->
  swallowed (settle task) = None /\ unhandledRejection (settle task) = Some e.
Proof. unfold settle. intros -> -> ->. now split. Qed.

Section Agreement.
Context {A B : Type}.

Lemma sameCalls_refl w : sameCalls w w.
Proof. now split. Qed.

Lemma agree_ret (a : A) : agree (ret a) (ret a).
Proof. intros w w' H. now split. Qed.

Lemma agree_throw e : agree (@throw A e) (throw e).
Proof. intros w w' H. now split. Qed.

Lemma agree_settled (o : Outcome A) : agree (settled o) (settled o).
Proof. intros w w' H. now split. Qed.

Lemma agree_bind (m m' : M A) (k k' : A -> M B) :
  agree m m' -> (forall a, agree (k a) (k' a)) -> agree (bind m k) (bind m' k').
Proof.
  intros Hm Hk w w' H. unfold bind. specialize (Hm w w' H).
  destruct (m w) as [w1 r], (m' w') as [w1' r']. simpl in Hm. destruct Hm as [Hw Hr].
  subst r'. destruct r as [a|e]; [now apply Hk | now split].
Qed.

Lemma agree_try_catch (m m' : M A) (handler handler' : Thrown -> M A) :
  agree m m' -> (forall e, agree (handler e) (handler' e)) ->
  agree (try_catch m handler) (try_catch m' handler').
Proof.
  intros Hm Hh w w' H. unfold try_catch. specialize (Hm w w' H).
  destruct (m w) as [w1 r], (m' w') as [w1' r']. simpl in Hm. destruct Hm as [Hw Hr].
  subst r'. destruct r as [a|e]; [now split | now apply Hh].
Qed.
End Agreement.

Lemma agree_call c : agree (call c) (call c).
Proof.
  intros w w' [Hc Hd]. unfold call, sameCalls. simpl. now rewrite Hc, Hd.
Qed.

Lemma agree_await {A} c (o : Outcome A) : agree (await c o) (await c o).
Proof.
  unfold await. apply agree_bind; [apply agree_call | intros _; apply agree_settled].
Qed.

Lemma agree_detach task task' : agree (detach task) (detach task').
Proof. intros w w' [Hc Hd]. unfold detach, sameCalls. simpl. now split. Qed.

Lemma agree_loadChains chains : agree (loadChains chains) (loadChains chains).
Proof.
  induction chains as [|[chain|e] rest IH]; simpl.
  - apply agree_ret.
  - apply agree_bind; [assumption | intros loaded; apply agree_ret].
  - apply agree_bind; [apply agree_call | intros _; assumption].
Qed.

Lemma agree_getServerSideActions env this request :
  agree (getServerSideActions env this request) (getServerSideActions env this request).
Proof.
  unfold getServerSideActions.
  apply agree_bind; [apply agree_loadChains | intros langserveFunctions].
  apply agree_bind; [apply agree_await | intros remoteActions].
  apply agree_bind; [|intros configuredActions; apply agree_ret].
  destruct (CopilotRuntime.actions this); [apply agree_ret | apply agree_settled].
Qed.

Lemma agree_beforeRequest this options :
  agree (beforeRequest this options) (beforeRequest this options).
Proof.
  unfold beforeRequest. destruct (CopilotRuntime.onBeforeRequest this);
    [apply agree_await | apply agree_ret].
Qed.

Lemma getServerSideActions_after env this request hook promise :
  getServerSideActions env (withAfterHook this hook) (withOutputMessages request promise)
  = getServerSideActions env this request.
Proof. reflexivity. Qed.

Lemma beforeRequest_after this hook options :
  beforeRequest (withAfterHook this hook) options = beforeRequest this options.
Proof. reflexivity. Qed.

(** The outcome of a turn and the calls it makes are the same whatever the
    after-hook is and however [outputMessagesPromise] settles: the chain on
    that promise is only attached, and nothing of it is awaited. *)
Lemma turn_ignores_after_hook env this request hook promise :
  agree (processRuntimeRequest env (withAfterHook this hook) (withOutputMessages request promise))
        (processRuntimeRequest env this request).
Proof.
  unfold processRuntimeRequest.
  apply agree_try_catch.
  2:{ intros e. destruct (instanceofCopilotKitError e); [apply agree_throw|].
      apply agree_bind; [apply agree_call | intros _].
      apply agree_bind; [apply agree_call | intros _; apply agree_throw]. }
  change (agentDelegated (withAfterHook this hook) (withOutputMessages request promise))
    with (agentDelegated this request).
  change (CopilotRuntimeRequest.serviceAdapter (withOutputMessages request promise))
    with (CopilotRuntimeRequest.serviceAdapter request).
  destruct (agentDelegated this request).
  - unfold processAgentRequest.
    change (CopilotRuntimeRequest.agentSession (withOutputMessages request promise))
      with (CopilotRuntimeRequest.agentSession request).
    destruct (CopilotRuntimeRequest.agentSession request) as [session|]; [|apply agree_throw].
    rewrite getServerSideActions_after.
    apply agree_bind; [apply agree_getServerSideActions | intros serverSideActions].
    destruct (find _ serverSideActions) as [currentAgent|]; [|apply agree_throw].
    rewrite beforeRequest_after.
    apply agree_bind; [exact (agree_beforeRequest _ _) | intros _].
    apply agree_try_catch.
    2:{ intros e. apply agree_bind; [apply agree_call | intros _; apply agree_throw]. }
    apply agree_bind.
    + destruct (Action.remoteAgentHandler currentAgent); [apply agree_await | apply agree_throw].
    + intros stream. apply agree_bind; [apply agree_detach | intros _; apply agree_ret].
  - destruct (isEmptyAdapter (CopilotRuntimeRequest.serviceAdapter request));
      [apply agree_throw|].
    unfold directDispatch. rewrite getServerSideActions_after.
    apply agree_bind; [apply agree_getServerSideActions | intros serverSideActions].
    rewrite beforeRequest_after.
    apply agree_bind; [exact (agree_beforeRequest _ _) | intros _].
    apply agree_bind; [exact (agree_await _ _) | intros result].
    apply agree_bind; [apply agree_detach | intros _; apply agree_ret].
Qed.

(** C8, at the input where the code departs from it.  The after-hook of
    the sample runtime returns a promise that is rejected.  The turn, on
    the adapter path and on the agent path, returns its response and leaves
    one detached chain; when that chain has run, the hook has been called
    once, the handler of [catch] has dropped nothing, and the rejection
    stands unhandled. *)
Theorem after_hook_rejection_is_not_caught :
  (exists w' response task,
      processRuntimeRequest Sample.env Sample.runtimeWithAfterHook
        (Sample.request Sample.adapter [] None (Some "t-1")) Sample.world
      = (w', Returned response)
      /\ detached w' = [task]
      /\ length (hookCalls (settle task)) = 1
      /\ swallowed (settle task) = None
      /\ unhandledRejection (settle task) = Some (JsError "after-hook failed"))
  /\ (exists w' response task,
      processRuntimeRequest Sample.env Sample.runtimeWithAfterHook
        (Sample.request Sample.emptyAdapter [] (Some (Sample.session "A")) (Some "t-1"))
        Sample.world
      = (w', Returned response)
      /\ detached w' = [task]
      /\ length (hookCalls (settle task)) = 1
      /\ swallowed (settle task) = None
      /\ unhandledRejection (settle task) = Some (JsError "after-hook failed")).
Proof.
  split; do 3 eexists; (split; [cbv; reflexivity|]); repeat split.
Qed.

(** ** Further properties of the deduplicator *)

Lemma keep_fresh_distinct l : forall seen,
  NoDup (map ActionInput.name l) ->
  (forall n, In n seen -> ~ In n (map ActionInput.name l)) ->
  keep_fresh seen l = l.
Proof.
  induction l as [|tool rest IH]; intros seen Hnd Hseen; [reflexivity|]. simpl.
  inversion Hnd as [|n ns Hfresh Hrest]; subst.
  destruct (includes seen (ActionInput.name tool)) eqn:E.
  - apply includes_In in E. exfalso. apply (Hseen _ E). now left.
  - f_equal. apply IH; [assumption|]. intros n Hn. apply in_app_or in Hn.
    destruct Hn as [Hn|[<-|[]]]; [|assumption].
    intros Hin. apply (Hseen _ Hn). now right.
Qed.

(** X1. A list whose names are already distinct is returned as it is. *)
Theorem flatten_distinct_is_identity (toolsByPriority : list ActionInput.t) :
  NoDup (names toolsByPriority) ->
  flattenToolCallsNoDuplicates toolsByPriority = toolsByPriority.
Proof.
  intros Hnd. rewrite flatten_keep_fresh. apply keep_fresh_distinct; [assumption|].
  intros n [].
Qed.

Lemma flatten_distinct_is_identity_witness :
  flattenToolCallsNoDuplicates [Sample.clientA; ActionInput.mk "B" "b" "{}" (Some remote)]
  = [Sample.clientA; ActionInput.mk "B" "b" "{}" (Some remote)].
Proof.
  apply flatten_distinct_is_identity. unfold names. simpl.
  constructor; [|constructor; [intros []|constructor]].
  intros [H|[]]. discriminate H.
Defined.

(** X2. Deduplicating twice is deduplicating once. *)
Theorem flatten_idempotent (toolsByPriority : list ActionInput.t) :
  flattenToolCallsNoDuplicates (flattenToolCallsNoDuplicates toolsByPriority)
  = flattenToolCallsNoDuplicates toolsByPriority.
Proof.
  rewrite (flatten_keep_fresh toolsByPriority), flatten_keep_fresh.
  apply keep_fresh_distinct; [apply keep_fresh_NoDup | intros n []].
Qed.

Lemma filter_filter {X} (f g : X -> bool) l :
  filter f (filter g l) = filter (fun x => g x && f x) l.
Proof.
  induction l as [|x l IH]; [reflexivity|]. simpl.
  destruct (g x); simpl; [destruct (f x)|]; now rewrite IH.
Qed.

Lemma includes_app a b n : includes (a ++ b) n = includes a n || includes b n.
Proof. unfold includes. apply existsb_app. Qed.

Lemma keep_fresh_notNamed l : forall seen,
  keep_fresh seen l = notNamed seen (keep_fresh [] l).
Proof.
  unfold notNamed.
  induction l as [|tool rest IH]; intros seen; [reflexivity|]. simpl.
  rewrite (IH [ActionInput.name tool]).
  destruct (includes seen (ActionInput.name tool)) eqn:E; simpl.
  - rewrite IH, filter_filter. apply filter_ext_in. intros x _.
    unfold includes at 1. simpl. rewrite orb_false_r.
    destruct (String.eqb_spec (ActionInput.name x) (ActionInput.name tool)) as [Heq|Hne];
      [|reflexivity].
    simpl. rewrite Heq. unfold includes in E. now rewrite E.
  - f_equal. rewrite IH, filter_filter. apply filter_ext_in. intros x _.
    rewrite includes_app, negb_orb. apply andb_comm.
Qed.

Lemma keep_fresh_app a : forall seen b,
  keep_fresh seen (a ++ b)
  = keep_fresh seen a ++ keep_fresh (seen ++ map ActionInput.name (keep_fresh seen a)) b.
Proof.
  induction a as [|tool rest IH]; intros seen b; simpl.
  - now rewrite app_nil_r.
  - destruct (includes seen (ActionInput.name tool)); [apply IH|].
    simpl. rewrite IH. now rewrite <- app_assoc.
Qed.

Lemma notNamed_same_names taken taken' l :
  (forall n, In n taken <-> In n taken') -> notNamed taken l = notNamed taken' l.
Proof.
  intros H. unfold notNamed. apply filter_ext. intros x. f_equal.
  destruct (includes taken (ActionInput.name x)) eqn:E, (includes taken' (ActionInput.name x)) eqn:E';
    try reflexivity.
  - apply includes_In, H, includes_In in E. congruence.
  - apply includes_In, H, includes_In in E'. congruence.
Qed.

Lemma keep_fresh_app_notNamed first second :
  keep_fresh [] (first ++ second)
  = keep_fresh [] first ++ notNamed (map ActionInput.name first) (keep_fresh [] second).
Proof.
  rewrite keep_fresh_app. f_equal. simpl.
  rewrite keep_fresh_notNamed. apply notNamed_same_names.
  intros n. rewrite keep_fresh_names. simpl. tauto.
Qed.

(** X3. Merging two sources: the deduplicated first source comes first,
    unchanged, followed by the deduplicated second source without the
    entries whose name the first source has. *)
Theorem flatten_app (first second : list ActionInput.t) :
  flattenToolCallsNoDuplicates (first ++ second)
  = flattenToolCallsNoDuplicates first
    ++ notNamed (names first) (flattenToolCallsNoDuplicates second).
Proof.
  rewrite !flatten_keep_fresh. unfold names. apply keep_fresh_app_notNamed.
Qed.

Lemma first_named_keep_fresh l : forall seen n,
  ~ In n seen -> first_named n (keep_fresh seen l) = first_named n l.
Proof.
  unfold first_named.
  induction l as [|tool rest IH]; intros seen n Hn; [reflexivity|]. simpl.
  destruct (includes seen (ActionInput.name tool)) eqn:E.
  - apply includes_In in E.
    destruct (String.eqb_spec (ActionInput.name tool) n) as [Heq|Hne]; [congruence|].
    now apply IH.
  - simpl. destruct (String.eqb_spec (ActionInput.name tool) n) as [Heq|Hne]; [reflexivity|].
    apply IH. intros Hin. apply in_app_or in Hin. destruct Hin as [Hin|[Hin|[]]]; congruence.
Qed.

(** X4. Looking a name up in the deduplicated list gives the entry that
    looking it up in the input gives. *)
Theorem flatten_preserves_lookup (toolsByPriority : list ActionInput.t) (n : string) :
  first_named n (flattenToolCallsNoDuplicates toolsByPriority) = first_named n toolsByPriority.
Proof.
  rewrite flatten_keep_fresh. apply first_named_keep_fresh. intros [].
Qed.

(** ** Action assembly *)

Lemma after_nil w : after w [] w.
Proof. unfold after. now rewrite app_nil_r. Qed.

Lemma after_trans w1 w2 w3 c1 c2 : after w1 c1 w2 -> after w2 c2 w3 -> after w1 (c1 ++ c2) w3.
Proof.
  intros (E1 & D1 & T1) (E2 & D2 & T2). unfold after.
  rewrite E2, E1, D2, D1, T2, T1, app_assoc. tauto.
Qed.

Lemma call_after c w : exists w', call c w = (w', Returned tt) /\ after w [c] w'.
Proof. eexists. split; [reflexivity|]. unfold after. simpl. tauto. Qed.

Lemma await_after {A} c (o : Outcome A) w : exists w', await c o w = (w', o) /\ after w [c] w'.
Proof. eexists. split; [reflexivity|]. unfold after. simpl. tauto. Qed.

Lemma loadChains_run chains : forall w,
  exists w', loadChains chains w = (w', Returned (loadedChains chains))
             /\ after w (chainErrors chains) w'.
Proof.
  induction chains as [|[chain|e] rest IH]; intros w; simpl.
  - exists w. split; [reflexivity | apply after_nil].
  - destruct (IH w) as (w' & Hrun & Hafter). exists w'. split; [|assumption].
    now erewrite bind_Returned by eassumption.
  - destruct (call_after (ConsoleError "Error loading langserve chain:") w) as (w1 & Hcall & H1).
    destruct (IH w1) as (w' & Hrun & Hafter). exists w'. split.
    + now erewrite bind_Returned by eassumption.
    + apply (after_trans H1 Hafter).
Qed.

Lemma getServerSideActions_steps env this request w :
  exists w',
    getServerSideActions env this request w = (w', assembled env this request)
    /\ calls w' = calls w ++ chainErrors (CopilotRuntime.langserve this)
                          ++ [SetupRemoteActions (setupParams env this request)]
    /\ drawn w' = drawn w
    /\ detached w' = detached w.
Proof.
  unfold getServerSideActions, assembled, configuredActions.
  destruct (loadChains_run (CopilotRuntime.langserve this) w) as (w1 & Hchains & H1).
  destruct (await_after (SetupRemoteActions (setupParams env this request))
              (setupRemoteActions env (setupParams env this request)) w1) as (w2 & Hsetup & H2).
  exists w2. split; [|exact (after_trans H1 H2)].
  erewrite bind_Returned by eassumption.
  destruct (setupRemoteActions env (setupParams env this request)) as [remoteActions|e].
  - erewrite bind_Returned by eassumption.
    destruct (CopilotRuntime.actions this) as [actions|f]; [reflexivity|].
    unfold bind, settled.
    destruct (f (properties (CopilotRuntimeRequest.graphqlContext request))
                (CopilotRuntimeRequest.url request)); reflexivity.
  - now erewrite bind_Threw by eassumption.
Qed.

(** X5. [getServerSideActions] logs and skips each langserve chain that
    failed to load, then calls [setupRemoteActions] once, and makes no other
    call; it draws no random id and attaches no promise chain.  It throws
    what [setupRemoteActions] or the actions function throws; otherwise it
    returns the configured actions, then the chains that loaded, then the
    remote actions. *)
Theorem getServerSideActions_run env this request w :
  let run := getServerSideActions env this request w in
  snd run
  = match setupRemoteActions env (setupParams env this request) with
    | Threw e => Threw e
    | Returned remoteActions =>
        match configuredActions this request with
        | Threw e => Threw e
        | Returned configured =>
            Returned (configured ++ loadedChains (CopilotRuntime.langserve this)
                      ++ remoteActions)
        end
    end
  /\ calls (fst run) = calls w ++ chainErrors (CopilotRuntime.langserve this)
                        ++ [SetupRemoteActions (setupParams env this request)]
  /\ drawn (fst run) = drawn w
  /\ detached (fst run) = detached w.
Proof.
  intros run. unfold run.
  destruct (getServerSideActions_steps env this request w) as (w' & Hrun & Hc & Hd & Ht).
  rewrite Hrun. simpl. now repeat split.
Qed.

Lemma getServerSideActions_after_run env this request w w' r :
  getServerSideActions env this request w = (w', r) ->
  r = assembled env this request /\ after w (assemblyCalls env this request) w'.
Proof.
  intros H. destruct (getServerSideActions_steps env this request w) as (w1 & Hrun & Hafter).
  rewrite Hrun in H. inversion H; subst. split; [reflexivity | exact Hafter].
Qed.

(** X6. [resolveEndpointType] keeps the tag of a tagged endpoint, so an
    endpoint built by [copilotKitEndpoint] or [langGraphPlatformEndpoint]
    resolves to the tag of its factory whatever fields the configuration
    has; an endpoint without tag resolves to LangGraphPlatform exactly when
    it has both [deploymentUrl] and [agents]; the endpoints handed to
    [setupRemoteActions] all carry a tag, the one their definition resolves
    to. *)
Theorem resolveEndpointType_tags env this request (config : EndpointDefinition) :
  resolveEndpointType (copilotKitEndpoint config) = CopilotKit
  /\ resolveEndpointType (langGraphPlatformEndpoint config) = LangGraphPlatform
  /\ (Endpoint.type config = None ->
      (resolveEndpointType config = LangGraphPlatform
       <-> Endpoint.deploymentUrl config <> None /\ Endpoint.agents config <> None))
  /\ map Endpoint.type (setup_remoteEndpointDefinitions (setupParams env this request))
     = map (fun endpoint => Some (resolveEndpointType endpoint))
           (CopilotRuntime.remoteEndpointDefinitions this)
  /\ map resolveEndpointType (setup_remoteEndpointDefinitions (setupParams env this request))
     = map resolveEndpointType (CopilotRuntime.remoteEndpointDefinitions this).
Proof.
  split; [reflexivity|]. split; [reflexivity|]. split; [|split].
  - intros Hnone. unfold resolveEndpointType. rewrite Hnone.
    destruct (Endpoint.deploymentUrl config), (Endpoint.agents config); simpl;
      split; try tauto; try discriminate; intros _; split; discriminate.
  - simpl. rewrite map_map. reflexivity.
  - simpl. rewrite map_map. reflexivity.
Qed.

(** ** The stages of a turn *)

Lemma beforeRequest_run this options w :
  exists w', beforeRequest this options w = (w', beforeOutcome this options)
             /\ after w (beforeCalls this options) w'.
Proof.
  unfold beforeRequest, beforeOutcome, beforeCalls.
  destruct (CopilotRuntime.onBeforeRequest this) as [hook|].
  - apply await_after.
  - exists w. split; [reflexivity | apply after_nil].
Qed.

Lemma directDispatch_runs env this request :
  runs (directDispatch env this request) (directRun env this request).
Proof.
  intros w. unfold directDispatch, directRun.
  destruct (getServerSideActions_steps env this request w) as (w1 & Hssa & Hc1 & Hd1 & Ht1).
  fold (assemblyCalls env this request) in Hc1.
  destruct (assembled env this request) as [serverSideActions|e].
  2:{ exists w1. erewrite bind_Threw by eassumption. simpl. rewrite app_nil_r. tauto. }
  erewrite bind_Returned by eassumption.
  fold (directBeforeOptions env request).
  destruct (beforeRequest_run this (directBeforeOptions env request) w1)
    as (w2 & Hbefore & Hc2 & Hd2 & Ht2).
  destruct (beforeOutcome this (directBeforeOptions env request)) as [[]|e].
  2:{ exists w2. erewrite bind_Threw by eassumption. simpl.
      rewrite Hc2, Hc1, Hd2, Hd1, Ht2, Ht1, app_nil_r, app_assoc. tauto. }
  erewrite bind_Returned by eassumption.
  unfold await, bind at 1 2, call, settled. simpl.
  destruct (process (CopilotRuntimeRequest.serviceAdapter request)
              (adapterRequest env request serverSideActions)) as [result|e].
  - eexists. split; [reflexivity|]. simpl.
    rewrite Hc2, Hc1, Hd2, Hd1, Ht2, Ht1, <- !app_assoc. tauto.
  - eexists. split; [reflexivity|]. simpl.
    rewrite Hc2, Hc1, Hd2, Hd1, Ht2, Ht1, app_nil_r, <- !app_assoc. tauto.
Qed.

Lemma processAgentRequest_runs env this request :
  runs (processAgentRequest env this request) (agentRun env this request).
Proof.
  intros w. unfold processAgentRequest, agentRun.
  destruct (CopilotRuntimeRequest.agentSession request) as [session|].
  2:{ exists w. simpl. rewrite !app_nil_r. tauto. }
  destruct (getServerSideActions_steps env this request w) as (w1 & Hssa & Hc1 & Hd1 & Ht1).
  fold (assemblyCalls env this request) in Hc1.
  destruct (assembled env this request) as [serverSideActions|e].
  2:{ exists w1. erewrite bind_Threw by eassumption. simpl. rewrite app_nil_r. tauto. }
  erewrite bind_Returned by eassumption.
  destruct (find (isCurrentAgent env (AgentSessionInput.agentName session)) serverSideActions)
    as [currentAgent|].
  2:{ exists w1. simpl. rewrite app_nil_r. tauto. }
  fold (agentThreadId request session). fold (agentBeforeOptions env request session).
  destruct (beforeRequest_run this (agentBeforeOptions env request session) w1)
    as (w2 & Hbefore & Hc2 & Hd2 & Ht2).
  destruct (beforeOutcome this (agentBeforeOptions env request session)) as [[]|e].
  2:{ exists w2. erewrite bind_Threw by eassumption. simpl.
      rewrite Hc2, Hc1, Hd2, Hd1, Ht2, Ht1, app_nil_r, app_assoc. tauto. }
  erewrite bind_Returned by eassumption.
  fold (delegatedActions env request session serverSideActions).
  fold (handlerParams env request session serverSideActions).
  unfold try_catch, await, bind, call, settled, throw, detach, ret. simpl.
  destruct (Action.remoteAgentHandler currentAgent) as [remoteAgentHandler|].
  - destruct (remoteAgentHandler (handlerParams env request session serverSideActions))
      as [stream|e]; eexists; (split; [reflexivity|]); simpl;
      rewrite Hc2, Hc1, Hd2, Hd1, Ht2, Ht1, ?app_nil_r, <- !app_assoc; tauto.
  - eexists. split; [reflexivity|]. simpl.
    rewrite Hc2, Hc1, Hd2, Hd1, Ht2, Ht1, ?app_nil_r, <- !app_assoc. tauto.
Qed.

Lemma processRuntimeRequest_runs env this request :
  runs (processRuntimeRequest env this request) (turnRun env this request).
Proof.
  intros w. unfold processRuntimeRequest, turnRun.
  assert (Hbody : runs (if agentDelegated this request
                        then processAgentRequest env this request
                        else if isEmptyAdapter (CopilotRuntimeRequest.serviceAdapter request)
                        then throw (CopilotKitMisuseError misuseMessage)
                        else directDispatch env this request)
                       (bodyRun env this request)).
  { unfold bodyRun. destruct (agentDelegated this request);
      [apply processAgentRequest_runs|].
    destruct (isEmptyAdapter (CopilotRuntimeRequest.serviceAdapter request));
      [|apply directDispatch_runs].
    intros w0. exists w0. simpl. rewrite !app_nil_r. tauto. }
  destruct (Hbody w) as (w1 & Hrun & Hc & Hd & Ht).
  destruct (run_outcome (bodyRun env this request)) as [response|e] eqn:Houtcome.
  - exists w1. erewrite try_catch_Returned by eassumption. rewrite Houtcome. tauto.
  - erewrite try_catch_Threw by eassumption.
    destruct (instanceofCopilotKitError e).
    + exists w1. rewrite Houtcome. tauto.
    + eexists. split; [reflexivity|]. simpl. unfold responseError.
      rewrite Hc, <- !app_assoc. simpl. tauto.
Qed.

Lemma turn_run env this request w w' r :
  processRuntimeRequest env this request w = (w', r) ->
  r = run_outcome (turnRun env this request)
  /\ calls w' = calls w ++ run_calls (turnRun env this request)
  /\ drawn w' = drawn w
  /\ detached w' = detached w ++ run_tasks (turnRun env this request).
Proof.
  intros H. destruct (processRuntimeRequest_runs env this request w) as (w1 & Hrun & Hrest).
  rewrite Hrun in H. inversion H; subst. tauto.
Qed.

Lemma turn_returns env this request w w' response :
  processRuntimeRequest env this request w = (w', Returned response) ->
  run_outcome (bodyRun env this request) = Returned response
  /\ calls w' = calls w ++ run_calls (bodyRun env this request)
  /\ drawn w' = drawn w
  /\ detached w' = detached w ++ run_tasks (bodyRun env this request).
Proof.
  intros H. apply turn_run in H. unfold turnRun in H.
  destruct (run_outcome (bodyRun env this request)) as [response'|e] eqn:Hbody.
  - destruct H as (H & Hrest). rewrite Hbody in H. inversion H; subst. tauto.
  - exfalso. destruct (instanceofCopilotKitError e); destruct H as (H & _);
      [rewrite Hbody in H|]; discriminate.
Qed.

Lemma turn_throws env this request w w' e :
  processRuntimeRequest env this request w = (w', Threw e) ->
  run_outcome (bodyRun env this request) = Threw e
  /\ calls w' = calls w ++ run_calls (bodyRun env this request)
                ++ (if instanceofCopilotKitError e then []
                    else [responseError; SendErrorMessageToChat])
  /\ drawn w' = drawn w
  /\ detached w' = detached w ++ run_tasks (bodyRun env this request).
Proof.
  intros H. apply turn_run in H. unfold turnRun in H.
  destruct (run_outcome (bodyRun env this request)) as [response'|e'] eqn:Hbody.
  - destruct H as (H & _). rewrite Hbody in H. discriminate.
  - destruct (instanceofCopilotKitError e') eqn:Hclass; destruct H as (H & Hc & Hd & Ht).
    + rewrite Hbody in H. inversion H; subst. rewrite Hclass, app_nil_r. tauto.
    + simpl in *. inversion H; subst. rewrite Hclass. tauto.
Qed.

Lemma directRun_returns env this request response :
  run_outcome (directRun env this request) = Returned response ->
  exists serverSideActions result,
    assembled env this request = Returned serverSideActions
    /\ beforeOutcome this (directBeforeOptions env request) = Returned tt
    /\ process (CopilotRuntimeRequest.serviceAdapter request)
               (adapterRequest env request serverSideActions) = Returned result
    /\ response = directResponse env request serverSideActions result
    /\ run_calls (directRun env this request)
       = assemblyCalls env this request
         ++ beforeCalls this (directBeforeOptions env request)
         ++ [ServiceAdapterProcess (adapterRequest env request serverSideActions)]
    /\ run_tasks (directRun env this request) = [directTask env this request result].
Proof.
  unfold directRun.
  destruct (assembled env this request) as [serverSideActions|e]; [|discriminate].
  destruct (beforeOutcome this (directBeforeOptions env request)) as [[]|e]; [|discriminate].
  destruct (process (CopilotRuntimeRequest.serviceAdapter request)
              (adapterRequest env request serverSideActions)) as [result|e] eqn:Hprocess;
    [|discriminate].
  simpl. intros H. inversion H; subst.
  exists serverSideActions, result. rewrite <- app_assoc. now repeat split.
Qed.

Lemma agentRun_returns env this request response :
  run_outcome (agentRun env this request) = Returned response ->
  exists session serverSideActions currentAgent remoteAgentHandler stream,
    CopilotRuntimeRequest.agentSession request = Some session
    /\ assembled env this request = Returned serverSideActions
    /\ find (isCurrentAgent env (AgentSessionInput.agentName session)) serverSideActions
       = Some currentAgent
    /\ beforeOutcome this (agentBeforeOptions env request session) = Returned tt
    /\ Action.remoteAgentHandler currentAgent = Some remoteAgentHandler
    /\ remoteAgentHandler (handlerParams env request session serverSideActions)
       = Returned stream
    /\ response = agentResponse env request session serverSideActions stream
    /\ run_calls (agentRun env this request)
       = assemblyCalls env this request
         ++ beforeCalls this (agentBeforeOptions env request session)
         ++ [RemoteAgentHandler (handlerParams env request session serverSideActions)]
    /\ run_tasks (agentRun env this request) = [agentTask env this request session].
Proof.
  unfold agentRun.
  destruct (CopilotRuntimeRequest.agentSession request) as [session|]; [|discriminate].
  destruct (assembled env this request) as [serverSideActions|e]; [|discriminate].
  destruct (find (isCurrentAgent env (AgentSessionInput.agentName session)) serverSideActions)
    as [currentAgent|] eqn:Hfind; [|discriminate].
  destruct (beforeOutcome this (agentBeforeOptions env request session)) as [[]|e] eqn:Hbefore;
    [|discriminate].
  destruct (Action.remoteAgentHandler currentAgent) as [remoteAgentHandler|] eqn:Hfield;
    [|discriminate].
  destruct (remoteAgentHandler (handlerParams env request session serverSideActions))
    as [stream|e] eqn:Hhandler; [|discriminate].
  simpl. intros H. inversion H; subst.
  exists session, serverSideActions, currentAgent, remoteAgentHandler, stream.
  rewrite <- app_assoc. now repeat split.
Qed.

(** X7. A turn on the adapter path that returns has made these calls, in
    this order and no other: the log entries of the langserve chains that
    failed, [setupRemoteActions], the before-hook if the runtime has one,
    and [serviceAdapter.process] with the request built from the assembled
    actions.  It has drawn no random id and attached exactly one after-hook
    chain; its response has the event source handed to the adapter and the
    adapter's [runId] and [extensions]. *)
Theorem adapter_turn_trace env this request w w' response :
  agentDelegated this request = false ->
  processRuntimeRequest env this request w = (w', Returned response) ->
  let serverSideActions := CopilotRuntimeResponse.serverSideActions response in
  let processRequest := adapterRequest env request serverSideActions in
  exists result,
    assembled env this request = Returned serverSideActions
    /\ process (CopilotRuntimeRequest.serviceAdapter request) processRequest = Returned result
    /\ calls w' = calls w ++ chainErrors (CopilotRuntime.langserve this)
                  ++ [SetupRemoteActions (setupParams env this request)]
                  ++ beforeCalls this (directBeforeOptions env request)
                  ++ [ServiceAdapterProcess processRequest]
    /\ drawn w' = drawn w
    /\ detached w' = detached w ++ [directTask env this request result]
    /\ CopilotRuntimeResponse.eventSource response = AdapterSource
    /\ CopilotRuntimeResponse.runId response = AdapterResponse.runId result
    /\ CopilotRuntimeResponse.extensions response = AdapterResponse.extensions result.
Proof.
  intros Hdirect H serverSideActions processRequest.
  apply turn_returns in H. destruct H as (Hout & Hc & Hd & Ht).
  unfold bodyRun in *. rewrite Hdirect in *.
  destruct (isEmptyAdapter (CopilotRuntimeRequest.serviceAdapter request)); [discriminate|].
  apply directRun_returns in Hout.
  destruct Hout as (actions & result & Hssa & _ & Hprocess & -> & Hcalls & Htasks).
  exists result. unfold processRequest, serverSideActions. simpl.
  rewrite Hc, Hd, Ht, Hcalls, Htasks. unfold assemblyCalls. rewrite <- !app_assoc.
  now repeat split.
Qed.

Lemma adapter_turn_trace_witness :
  exists w' response,
    processRuntimeRequest Sample.env (Sample.runtime [])
      (Sample.request Sample.adapter [] None (Some "t-1")) Sample.world
    = (w', Returned response)
    /\ length (calls w') = 2
    /\ length (detached w') = 1.
Proof.
  destruct (@adapter_turn_trace Sample.env (Sample.runtime [])
              (Sample.request Sample.adapter [] None (Some "t-1")) Sample.world _ _
              eq_refl eq_refl) as (result & _ & _ & Hc & _ & Ht & _).
  do 2 eexists. split; [cbv; reflexivity|].
  split; [exact (f_equal (@length _) Hc) | exact (f_equal (@length _) Ht)].
Defined.

(** X8. A turn on the agent path that returns has made these calls, in this
    order and no other: the log entries of the langserve chains that failed,
    [setupRemoteActions], the before-hook if the runtime has one (with no
    [runId] and no [url]), and the handler of the agent.  The handler and
    the response get the thread id of the request, or that of the session
    when the request has none; the handler gets the node name of the
    session and the meta events of the request; the response has no
    [runId], no [extensions], and forwards the stream the handler
    returned.  The turn attaches exactly one after-hook chain. *)
Theorem agent_turn_trace env this request w w' response :
  agentDelegated this request = true ->
  processRuntimeRequest env this request w = (w', Returned response) ->
  exists session currentAgent remoteAgentHandler stream,
    let serverSideActions := CopilotRuntimeResponse.serverSideActions response in
    let params := handlerParams env request session serverSideActions in
    CopilotRuntimeRequest.agentSession request = Some session
    /\ find (isCurrentAgent env (AgentSessionInput.agentName session)) serverSideActions
       = Some currentAgent
    /\ Action.remoteAgentHandler currentAgent = Some remoteAgentHandler
    /\ remoteAgentHandler params = Returned stream
    /\ calls w' = calls w ++ chainErrors (CopilotRuntime.langserve this)
                  ++ [SetupRemoteActions (setupParams env this request)]
                  ++ beforeCalls this (agentBeforeOptions env request session)
                  ++ [RemoteAgentHandler params]
    /\ drawn w' = drawn w
    /\ detached w' = detached w ++ [agentTask env this request session]
    /\ CopilotRuntimeResponse.threadId response
       = nullish (CopilotRuntimeRequest.threadId request) (AgentSessionInput.threadId session)
    /\ RemoteAgentHandlerParams.threadId params = CopilotRuntimeResponse.threadId response
    /\ CopilotRuntimeResponse.eventSource response = ForwardingSource stream
    /\ CopilotRuntimeResponse.runId response = None
    /\ CopilotRuntimeResponse.extensions response = None.
Proof.
  intros Hagent H.
  apply turn_returns in H. destruct H as (Hout & Hc & Hd & Ht).
  unfold bodyRun in *. rewrite Hagent in *.
  apply agentRun_returns in Hout.
  destruct Hout as (session & actions & currentAgent & remoteAgentHandler & stream
                    & Hsession & _ & Hfind & _ & Hhandler & Hstream & -> & Hcalls & Htasks).
  exists session, currentAgent, remoteAgentHandler, stream. simpl.
  rewrite Hc, Hd, Ht, Hcalls, Htasks. unfold assemblyCalls. rewrite <- !app_assoc.
  now repeat split.
Qed.

Lemma agent_turn_trace_witness :
  exists w' response,
    processRuntimeRequest Sample.env (Sample.runtime [])
      (Sample.request Sample.emptyAdapter [] (Some (Sample.session "A")) (Some "t-1"))
      Sample.world
    = (w', Returned response)
    /\ CopilotRuntimeResponse.threadId response = Some "t-1"
    /\ CopilotRuntimeResponse.eventSource response = ForwardingSource Sample.stream.
Proof.
  destruct (@agent_turn_trace Sample.env (Sample.runtime [])
              (Sample.request Sample.emptyAdapter [] (Some (Sample.session "A")) (Some "t-1"))
              Sample.world _ _ eq_refl eq_refl)
    as (session & currentAgent & handler & stream & Hsession & Hfind & Hhandler & Hstream
        & _ & _ & _ & Hthread & _ & Hsource & _).
  do 2 eexists. split; [cbv; reflexivity|].
  split; [|reflexivity].
  etransitivity; [exact Hthread|]. inversion Hsession; subst. reflexivity.
Defined.

(** ** The actions a backend is offered *)

Lemma first_named_app n a b :
  first_named n (a ++ b)
  = match first_named n a with
    | Some tool => Some tool
    | None => first_named n b
    end.
Proof.
  unfold first_named. induction a as [|tool rest IH]; [reflexivity|]. simpl.
  destruct (String.eqb (ActionInput.name tool) n); [reflexivity | apply IH].
Qed.

Lemma first_named_inputs env n actions :
  first_named n (map (toActionInput env) actions)
  = option_map (toActionInput env) (serverAction n actions).
Proof.
  unfold first_named, serverAction.
  induction actions as [|action rest IH]; [reflexivity|]. simpl.
  destruct (String.eqb (Action.name action) n); [reflexivity | apply IH].
Qed.

Lemma find_filter {X} (p q : X -> bool) l :
  find p (filter q l) = find (fun x => q x && p x) l.
Proof.
  induction l as [|x l IH]; [reflexivity|]. simpl.
  destruct (q x); simpl; [destruct (p x); [reflexivity | apply IH] | apply IH].
Qed.

(** X9. The actions handed to the service adapter have distinct names.
    The entry for a name is the one built from the first server-side action
    with that name when there is one; otherwise it is the first
    client-declared action with that name among those not marked
    remote-only. *)
Theorem adapter_actions_lookup env request (serverSideActions : list Action.t) :
  let offered := AdapterRequest.actions (adapterRequest env request serverSideActions) in
  NoDup (names offered)
  /\ forall n,
       first_named n offered
       = match serverAction n serverSideActions with
         | Some action => Some (toActionInput env action)
         | None => first_named n (clientActions request)
         end.
Proof.
  simpl. unfold actionInputs. fold (clientActions request). split.
  - unfold names. rewrite flatten_keep_fresh. apply keep_fresh_NoDup.
  - intros n. rewrite flatten_keep_fresh, first_named_keep_fresh by (intros []).
    rewrite first_named_app, first_named_inputs.
    now destruct (serverAction n serverSideActions).
Qed.

(** X10. The delegated action set of the agent path has distinct names.
    The entry for a name is the one built from the first server-side action
    with that name that is kept for the agent (a regular action, or another
    agent) when there is one; otherwise it is the first client-declared
    action with that name, remote-only or not.  So every client-declared
    action is represented in the set by its name. *)
Theorem delegated_actions_lookup env request session (serverSideActions : list Action.t) :
  let agentName := AgentSessionInput.agentName session in
  let delegated := delegatedActions env request session serverSideActions in
  NoDup (names delegated)
  /\ (forall n,
        first_named n delegated
        = match find (fun action => keepForAgent env agentName action
                                    && String.eqb (Action.name action) n)
                     serverSideActions with
          | Some action => Some (toActionInput env action)
          | None => first_named n (CopilotRuntimeRequest.actions request)
          end)
  /\ (forall action, In action (CopilotRuntimeRequest.actions request) ->
        In (ActionInput.name action) (names delegated)).
Proof.
  intros agentName delegated. unfold delegated, delegatedActions. fold agentName.
  split; [|split].
  - unfold names. rewrite flatten_keep_fresh. apply keep_fresh_NoDup.
  - intros n. rewrite flatten_keep_fresh, first_named_keep_fresh by (intros []).
    unfold availableActionsForCurrentAgent.
    rewrite first_named_app, first_named_inputs. unfold serverAction.
    rewrite find_filter.
    now destruct (find _ serverSideActions).
  - intros action Hin. unfold names. apply flatten_names. rewrite map_app.
    apply in_or_app. right. now apply in_map.
Qed.

(** ** The delegated action set of a turn *)

Lemma Subseq_In {A} (s l : list A) : Subseq s l -> forall x, In x s -> In x l.
Proof.
  induction 1 as [|y s l _ IH|y s l _ IH]; intros x Hin; simpl in *.
  - assumption.
  - right. now apply IH.
  - destruct Hin as [->|Hin]; [now left | right; now apply IH].
Qed.

Lemma find_pointwise {X} (p q : X -> bool) l :
  (forall x, p x = q x) -> find p l = find q l.
Proof.
  intros H. induction l as [|x l IH]; [reflexivity|]. simpl. now rewrite H, IH.
Qed.

Lemma keepForAgent_others env agentName action :
  keepForAgent env agentName action
  = negb (isRemoteAgentAction env action && String.eqb (Action.name action) agentName).
Proof.
  unfold keepForAgent.
  now destruct (isRemoteAgentAction env action), (String.eqb (Action.name action) agentName).
Qed.

(** C2, amended.  In a turn delegated to the agent [A], the set the handler
    of [A] receives is the one the response returns as
    [actionInputsWithoutAgents], the delegated action set.  It is the
    deduplication of the entries built from the server-side actions other
    than the remote-agent actions called [A], followed by the
    client-declared actions of the request.  So each of its entries is
    built from a server-side action that is no remote-agent action called
    [A], or is a client-declared action: no remote-agent action called [A]
    contributes an entry.  Its entry called [A], if any, is the one built
    from the first server-side action called [A] that is no remote-agent
    action, and without such an action it is the first client-declared
    action called [A]; it has an entry called [A] exactly when a
    server-side action that is no remote-agent action, or a client-declared
    action of the request, is called [A]. *)
Theorem delegated_set_excludes_agent_self env this request session w w' response :
  CopilotRuntimeRequest.agentSession request = Some session ->
  processAgentRequest env this request w = (w', Returned response) ->
  let agentName := AgentSessionInput.agentName session in
  let serverSideActions := CopilotRuntimeResponse.serverSideActions response in
  let delegated := CopilotRuntimeResponse.actionInputsWithoutAgents response in
  let others :=
    filter (fun action => negb (isRemoteAgentAction env action
                                && String.eqb (Action.name action) agentName))
           serverSideActions in
  (exists params, In (RemoteAgentHandler params) (calls w')
                  /\ RemoteAgentHandlerParams.name params = agentName
                  /\ RemoteAgentHandlerParams.actionInputsWithoutAgents params = delegated)
  /\ delegated
     = flattenToolCallsNoDuplicates
         (map (toActionInput env) others ++ CopilotRuntimeRequest.actions request)
  /\ (forall entry, In entry delegated ->
        (exists action, In action serverSideActions
                        /\ entry = toActionInput env action
                        /\ (isRemoteAgentAction env action = false
                            \/ Action.name action <> agentName))
        \/ In entry (CopilotRuntimeRequest.actions request))
  /\ first_named agentName delegated
     = match find (fun action => negb (isRemoteAgentAction env action)
                                 && String.eqb (Action.name action) agentName)
                  serverSideActions with
       | Some action => Some (toActionInput env action)
       | None => first_named agentName (CopilotRuntimeRequest.actions request)
       end
  /\ (In agentName (map ActionInput.name delegated)
      <-> (exists action, In action serverSideActions /\ Action.name action = agentName
                          /\ isRemoteAgentAction env action = false)
          \/ In agentName (map ActionInput.name (CopilotRuntimeRequest.actions request))).
Proof.
  intros Hsession H agentName serverSideActions delegated others.
  destruct (processAgentRequest_inv _ _ _ _ Hsession H)
    as (w1 & actions & currentAgent & params & _ & _ & Hcall & Hname & Hparams & Hserver & Hall).
  fold agentName in Hname, Hall. fold delegated in Hparams, Hall.
  fold serverSideActions in Hserver. subst actions.
  assert (Hothers : availableActionsForCurrentAgent env agentName serverSideActions
                    = map (toActionInput env) others).
  { unfold availableActionsForCurrentAgent, others. f_equal.
    apply filter_ext. intros action. apply keepForAgent_others. }
  split; [|split; [|split; [|split]]].
  - exists params. tauto.
  - now rewrite Hall, Hothers.
  - intros entry Hin. rewrite Hall, flatten_keep_fresh in Hin.
    apply (Subseq_In (keep_fresh_Subseq _ _)) in Hin.
    apply in_app_or in Hin. destruct Hin as [Hin|Hin]; [left | now right].
    unfold availableActionsForCurrentAgent in Hin. apply in_map_iff in Hin.
    destruct Hin as (action & <- & Hin). apply filter_In in Hin. destruct Hin as [Hin Hkeep].
    apply keepForAgent_spec in Hkeep. exists action. tauto.
  - rewrite Hall, Hothers, flatten_keep_fresh, first_named_keep_fresh by (intros []).
    rewrite first_named_app, first_named_inputs. unfold serverAction, others.
    rewrite find_filter.
    rewrite (find_pointwise
               (fun action =>
                  negb (isRemoteAgentAction env action
                        && String.eqb (Action.name action) agentName)
                  && String.eqb (Action.name action) agentName)
               (fun action =>
                  negb (isRemoteAgentAction env action)
                  && String.eqb (Action.name action) agentName)).
    + now destruct (find _ serverSideActions).
    + intros action.
      now destruct (isRemoteAgentAction env action),
                   (String.eqb (Action.name action) agentName).
  - rewrite Hall, flatten_names, map_app, in_app_iff, available_names. split.
    + intros [(action & Hin & E & [Hreg|Hne])|Hclient]; [left | contradiction | now right].
      now exists action.
    + intros [(action & Hin & E & Hreg)|Hclient]; [left | now right].
      exists action. tauto.
Qed.

Lemma delegated_set_excludes_agent_self_witness :
  exists w' response,
    processAgentRequest Sample.env (Sample.runtime [])
      (Sample.request Sample.emptyAdapter [Sample.clientA] (Some (Sample.session "A")) None)
      Sample.world
    = (w', Returned response)
    /\ CopilotRuntimeResponse.actionInputsWithoutAgents response
       = [toActionInput Sample.env Sample.search; Sample.clientA]
    /\ first_named "A" (CopilotRuntimeResponse.actionInputsWithoutAgents response)
       = Some Sample.clientA.
Proof.
  destruct (@delegated_set_excludes_agent_self Sample.env (Sample.runtime [])
              (Sample.request Sample.emptyAdapter [Sample.clientA] (Some (Sample.session "A"))
                 None)
              (Sample.session "A") Sample.world _ _ eq_refl eq_refl)
    as (_ & Hset & _ & Hentry & _).
  do 2 eexists. split; [cbv; reflexivity|]. split; [exact Hset | exact Hentry].
Defined.

(** C2, as the claim states it, fails: the client of the sample deployment
    declares an action called [A]; in the turn delegated to the agent [A]
    the handler of [A] receives that entry, and the response returns it. *)
Lemma delegated_set_may_carry_agent_name :
  ~ (forall env this request session w w' response,
       CopilotRuntimeRequest.agentSession request = Some session ->
       processAgentRequest env this request w = (w', Returned response) ->
       ~ In (AgentSessionInput.agentName session)
            (map ActionInput.name (CopilotRuntimeResponse.actionInputsWithoutAgents response))).
Proof.
  intros claim.
  refine (claim Sample.env (Sample.runtime [])
            (Sample.request Sample.emptyAdapter [Sample.clientA] (Some (Sample.session "A")) None)
            (Sample.session "A") Sample.world _ _ eq_refl eq_refl _).
  simpl. right. left. reflexivity.
Qed.

Lemma notNamed_app taken a b : notNamed taken (a ++ b) = notNamed taken a ++ notNamed taken b.
Proof. unfold notNamed. apply filter_app. Qed.

Lemma notNamed_all_taken taken l :
  (forall tool, In tool l -> In (ActionInput.name tool) taken) -> notNamed taken l = [].
Proof.
  intros H. unfold notNamed. apply filter_none. intros tool Hin.
  apply H, includes_In in Hin. now rewrite Hin.
Qed.

Lemma notNamed_twice taken l : notNamed taken (notNamed taken l) = notNamed taken l.
Proof.
  unfold notNamed. rewrite filter_filter. apply filter_ext. intros tool.
  now destruct (includes taken (ActionInput.name tool)).
Qed.

Lemma has_server_action n serverSideActions :
  present (serverAction n serverSideActions) = includes (map Action.name serverSideActions) n.
Proof.
  unfold serverAction, includes.
  induction serverSideActions as [|action rest IH]; [reflexivity|]. simpl.
  rewrite (String.eqb_sym (Action.name action) n).
  destruct (String.eqb n (Action.name action)); [reflexivity | apply IH].
Qed.

(** X11. On the adapter path the response's [actionInputsWithoutAgents] are
    the client-declared actions not marked remote-only, deduplicated,
    without those whose name a server-side action has, agent or not. *)
Theorem adapter_turn_client_actions env this request w w' response :
  agentDelegated this request = false ->
  processRuntimeRequest env this request w = (w', Returned response) ->
  CopilotRuntimeResponse.actionInputsWithoutAgents response
  = notNamed (map Action.name (CopilotRuntimeResponse.serverSideActions response))
             (flattenToolCallsNoDuplicates (clientActions request)).
Proof.
  intros Hdirect H.
  apply turn_returns in H. destruct H as (Hout & _).
  unfold bodyRun in Hout. rewrite Hdirect in Hout.
  destruct (isEmptyAdapter (CopilotRuntimeRequest.serviceAdapter request)); [discriminate|].
  apply directRun_returns in Hout.
  destruct Hout as (actions & result & _ & _ & _ & -> & _). simpl.
  transitivity (notNamed (map Action.name actions) (actionInputs env request actions)).
  { unfold notNamed. apply filter_ext. intros tool. f_equal. apply has_server_action. }
  unfold actionInputs. fold (clientActions request).
  rewrite !flatten_keep_fresh, keep_fresh_app_notNamed, notNamed_app.
  rewrite map_map. simpl. rewrite notNamed_twice, notNamed_all_taken; [reflexivity|].
  intros tool Hin.
  assert (Hname : In (ActionInput.name tool)
                     (map ActionInput.name (keep_fresh [] (map (toActionInput env) actions))))
    by (now apply in_map).
  apply keep_fresh_names in Hname. destruct Hname as [Hname _].
  now rewrite map_map in Hname.
Qed.

Lemma adapter_turn_client_actions_witness :
  exists w' response,
    processRuntimeRequest Sample.env (Sample.runtime [])
      (Sample.request Sample.adapter
         [Sample.clientA; ActionInput.mk "B" "b" "{}" None; ActionInput.mk "B" "again" "{}" None;
          ActionInput.mk "C" "c" "{}" (Some remote)]
         None None) Sample.world
    = (w', Returned response)
    /\ names (CopilotRuntimeResponse.actionInputsWithoutAgents response) = ["B"].
Proof.
  pose proof (@adapter_turn_client_actions Sample.env (Sample.runtime [])
                (Sample.request Sample.adapter
                   [Sample.clientA; ActionInput.mk "B" "b" "{}" None;
                    ActionInput.mk "B" "again" "{}" None;
                    ActionInput.mk "C" "c" "{}" (Some remote)]
                   None None) Sample.world _ _ eq_refl eq_refl) as H.
  do 2 eexists. split; [cbv; reflexivity|].
  exact (f_equal names H).
Defined.

(** ** Turns that fail *)

Lemma Forall_notChat_chainErrors chains : Forall notChat (chainErrors chains).
Proof.
  induction chains as [|[chain|e] rest IH]; simpl; [constructor | assumption|].
  constructor; [discriminate | assumption].
Qed.

Lemma Forall_notChat_assembly env this request :
  Forall notChat (assemblyCalls env this request).
Proof.
  unfold assemblyCalls. apply Forall_app. split; [apply Forall_notChat_chainErrors|].
  constructor; [discriminate | constructor].
Qed.

Lemma Forall_notChat_before this options : Forall notChat (beforeCalls this options).
Proof.
  unfold beforeCalls. destruct (CopilotRuntime.onBeforeRequest this); [|constructor].
  constructor; [discriminate | constructor].
Qed.

Ltac notChat_calls :=
  repeat first
    [ apply Forall_app; split
    | apply Forall_notChat_assembly
    | apply Forall_notChat_chainErrors
    | apply Forall_notChat_before
    | apply Forall_nil
    | apply Forall_cons; [discriminate|] ].

Lemma bodyRun_notChat env this request : Forall notChat (run_calls (bodyRun env this request)).
Proof.
  unfold bodyRun, agentRun, directRun.
  repeat match goal with
         | |- context [match ?x with _ => _ end] => destruct x; simpl
         end; notChat_calls.
Qed.

Lemma bodyRun_failure_tasks env this request e :
  run_outcome (bodyRun env this request) = Threw e ->
  run_tasks (bodyRun env this request) = [].
Proof.
  unfold bodyRun, agentRun, directRun.
  repeat match goal with
         | |- context [match ?x with _ => _ end] => destruct x; simpl
         end; try reflexivity; discriminate.
Qed.

(** X12. A turn that throws attaches no after-hook chain and draws no
    random id.  When the error is a [CopilotKitError] it is rethrown with no
    error message sent to the chat; any other error is logged and the error
    message is sent to the chat, as the last two calls of the turn and
    nowhere before. *)
Theorem failed_turn env this request w w' e :
  processRuntimeRequest env this request w = (w', Threw e) ->
  detached w' = detached w
  /\ drawn w' = drawn w
  /\ exists cs,
       Forall notChat cs
       /\ calls w' = calls w ++ cs
                     ++ (if instanceofCopilotKitError e then []
                         else [ConsoleError "Error getting response:"; SendErrorMessageToChat]).
Proof.
  intros H. apply turn_throws in H. destruct H as (Hout & Hc & Hd & Ht).
  rewrite (bodyRun_failure_tasks _ _ _ Hout), app_nil_r in Ht.
  split; [assumption|]. split; [assumption|].
  exists (run_calls (bodyRun env this request)). split; [apply bodyRun_notChat | exact Hc].
Qed.

Lemma failed_turn_witness :
  exists w',
    processRuntimeRequest Failing.env (Sample.runtime [])
      (Sample.request Sample.emptyAdapter [] (Some (Sample.session "B")) None) Sample.world
    = (w', Threw (JsError "agent unreachable"))
    /\ detached w' = []
    /\ In SendErrorMessageToChat (calls w').
Proof.
  destruct (@failed_turn Failing.env (Sample.runtime [])
              (Sample.request Sample.emptyAdapter [] (Some (Sample.session "B")) None)
              Sample.world _ (JsError "agent unreachable") eq_refl)
    as (Ht & _ & cs & _ & Hc).
  eexists. split; [cbv; reflexivity|]. split; [exact Ht|].
  refine (eq_ind_r (fun l => In SendErrorMessageToChat l) _ Hc). simpl.
  apply in_or_app. right. right. left. reflexivity.
Defined.

Lemma no_backend_assembly env this request :
  filter isBackendCall (assemblyCalls env this request) = [].
Proof.
  unfold assemblyCalls. rewrite filter_app. simpl. rewrite app_nil_r.
  induction (CopilotRuntime.langserve this) as [|[chain|e] rest IH]; simpl; assumption || reflexivity.
Qed.

Lemma no_backend_before this options : filter isBackendCall (beforeCalls this options) = [].
Proof. unfold beforeCalls. now destruct (CopilotRuntime.onBeforeRequest this). Qed.

Lemma before_not_in_assembly env this request options :
  ~ In (OnBeforeRequest options) (assemblyCalls env this request).
Proof.
  intros Hin. unfold assemblyCalls in Hin. apply in_app_or in Hin.
  destruct Hin as [Hin|[Hin|[]]]; [|discriminate].
  induction (CopilotRuntime.langserve this) as [|[chain|e0] rest IH]; simpl in Hin;
    [destruct Hin | now apply IH |].
  destruct Hin as [Hin|Hin]; [discriminate | now apply IH].
Qed.

Lemma bodyRun_before_hook_throws env this request hook e :
  CopilotRuntime.onBeforeRequest this = Some hook ->
  (forall options, hook options = Threw e) ->
  let body := bodyRun env this request in
  filter isBackendCall (run_calls body) = []
  /\ (exists e', run_outcome body = Threw e')
  /\ (forall options, In (OnBeforeRequest options) (run_calls body) ->
        run_outcome body = Threw e).
Proof.
  intros Hhook Hthrows.
  assert (Hbefore : forall options, beforeOutcome this options = Threw e)
    by (intros options; unfold beforeOutcome; rewrite Hhook; apply Hthrows).
  pose proof (@before_not_in_assembly env this request) as Hassembly.
  unfold bodyRun. destruct (agentDelegated this request).
  - unfold agentRun.
    destruct (CopilotRuntimeRequest.agentSession request) as [session|]; simpl.
    2:{ split; [reflexivity|]. split; [eexists; reflexivity | intros options []]. }
    destruct (assembled env this request) as [serverSideActions|e0]; simpl.
    2:{ split; [apply no_backend_assembly|]. split; [eexists; reflexivity|].
        intros options Hin. now apply Hassembly in Hin. }
    destruct (find _ serverSideActions) as [currentAgent|]; simpl.
    2:{ split; [apply no_backend_assembly|]. split; [eexists; reflexivity|].
        intros options Hin. now apply Hassembly in Hin. }
    rewrite Hbefore. simpl.
    rewrite filter_app, no_backend_assembly, no_backend_before.
    split; [reflexivity|]. split; [eexists; reflexivity | reflexivity].
  - destruct (isEmptyAdapter (CopilotRuntimeRequest.serviceAdapter request)); simpl.
    { split; [reflexivity|]. split; [eexists; reflexivity | intros options []]. }
    unfold directRun.
    destruct (assembled env this request) as [serverSideActions|e0]; simpl.
    2:{ split; [apply no_backend_assembly|]. split; [eexists; reflexivity|].
        intros options Hin. now apply Hassembly in Hin. }
    rewrite Hbefore. simpl.
    rewrite filter_app, no_backend_assembly, no_backend_before.
    split; [reflexivity|]. split; [eexists; reflexivity | reflexivity].
Qed.

(** X13. When the before-hook throws, the turn throws, with the error of the
    hook once the hook has been called, and it calls neither the service
    adapter nor a remote agent handler. *)
Theorem before_hook_failure_aborts env this request hook e w w' r :
  CopilotRuntime.onBeforeRequest this = Some hook ->
  (forall options, hook options = Threw e) ->
  processRuntimeRequest env this request w = (w', r) ->
  exists cs,
    calls w' = calls w ++ cs
    /\ filter isBackendCall cs = []
    /\ (exists e', r = Threw e')
    /\ (forall options, In (OnBeforeRequest options) cs -> r = Threw e).
Proof.
  intros Hhook Hthrows H. apply turn_run in H. destruct H as (-> & Hc & _).
  exists (run_calls (turnRun env this request)). split; [assumption|]. clear Hc.
  destruct (bodyRun_before_hook_throws env this request Hhook Hthrows)
    as (Hnone & (e' & Hout) & Hreached).
  unfold turnRun. rewrite Hout.
  destruct (instanceofCopilotKitError e'); simpl.
  - split; [assumption|]. split; [now exists e' | assumption].
  - rewrite filter_app, Hnone. split; [reflexivity|]. split; [now exists e'|].
    intros options Hin. apply in_app_or in Hin.
    destruct Hin as [Hin|[Hin|[Hin|[]]]]; try discriminate.
    rewrite <- Hout. now apply Hreached with options.
Qed.

Lemma before_hook_failure_aborts_witness :
  exists w',
    processRuntimeRequest Sample.env Failing.guarded
      (Sample.request Sample.adapter [] None None) Sample.world
    = (w', Threw (JsError "not allowed"))
    /\ filter isBackendCall (calls w') = [].
Proof.
  destruct (@before_hook_failure_aborts Sample.env Failing.guarded
              (Sample.request Sample.adapter [] None None)
              (fun _ => Threw (JsError "not allowed")) (JsError "not allowed")
              Sample.world _ _ eq_refl (fun _ => eq_refl) eq_refl)
    as (cs & Hc & Hnone & _ & _).
  eexists. split; [cbv; reflexivity|].
  refine (eq_ind_r (fun l => filter isBackendCall l = []) _ Hc). exact Hnone.
Defined.

(** X14. When the handler of the agent throws, the turn throws the same
    error.  [processAgentRequest] logs it; if it is no [CopilotKitError],
    [processRuntimeRequest] logs it again and sends the error message to the
    chat.  No after-hook chain is attached. *)
Theorem agent_handler_failure env this request session serverSideActions currentAgent
    remoteAgentHandler e w w' r :
  agentDelegated this request = true ->
  CopilotRuntimeRequest.agentSession request = Some session ->
  assembled env this request = Returned serverSideActions ->
  find (isCurrentAgent env (AgentSessionInput.agentName session)) serverSideActions
  = Some currentAgent ->
  beforeOutcome this (agentBeforeOptions env request session) = Returned tt ->
  Action.remoteAgentHandler currentAgent = Some remoteAgentHandler ->
  remoteAgentHandler (handlerParams env request session serverSideActions) = Threw e ->
  processRuntimeRequest env this request w = (w', r) ->
  r = Threw e
  /\ detached w' = detached w
  /\ calls w' = calls w ++ assemblyCalls env this request
                ++ beforeCalls this (agentBeforeOptions env request session)
                ++ [RemoteAgentHandler (handlerParams env request session serverSideActions);
                    ConsoleError "Error getting response:"]
                ++ (if instanceofCopilotKitError e then []
                    else [ConsoleError "Error getting response:"; SendErrorMessageToChat]).
Proof.
  intros Hagent Hsession Hssa Hfind Hbefore Hfield Hthrows H.
  apply turn_run in H. destruct H as (-> & Hc & _ & Ht).
  unfold turnRun, bodyRun, agentRun in *.
  rewrite Hagent, Hsession, Hssa, Hfind, Hbefore, Hfield, Hthrows in *. simpl in *.
  destruct (instanceofCopilotKitError e); simpl in *;
    rewrite Hc, Ht, ?app_nil_r, <- ?app_assoc; now repeat split.
Qed.

Lemma agent_handler_failure_witness :
  exists w',
    processRuntimeRequest Failing.env (Sample.runtime [])
      (Sample.request Sample.emptyAdapter [] (Some (Sample.session "B")) None) Sample.world
    = (w', Threw (JsError "agent unreachable"))
    /\ length (calls w') = 5.
Proof.
  destruct (@agent_handler_failure Failing.env (Sample.runtime [])
              (Sample.request Sample.emptyAdapter [] (Some (Sample.session "B")) None)
              (Sample.session "B") [Failing.agentB] Failing.agentB
              (fun _ => Threw (JsError "agent unreachable")) (JsError "agent unreachable")
              Sample.world _ _ eq_refl eq_refl eq_refl eq_refl eq_refl eq_refl eq_refl eq_refl)
    as (Hr & _ & Hc).
  eexists. split; [cbv; reflexivity|].
  exact (f_equal (@length _) Hc).
Defined.

Lemma no_handler_chainErrors chains :
  filter isRemoteAgentHandlerCall (chainErrors chains) = [].
Proof. induction chains as [|[chain|e] rest IH]; simpl; assumption || reflexivity. Qed.

Lemma no_handler_directRun env this request :
  filter isRemoteAgentHandlerCall (run_calls (directRun env this request)) = [].
Proof.
  assert (Hassembly : filter isRemoteAgentHandlerCall (assemblyCalls env this request) = []).
  { unfold assemblyCalls. rewrite filter_app, no_handler_chainErrors. reflexivity. }
  assert (Hbefore : forall options,
             filter isRemoteAgentHandlerCall (beforeCalls this options) = []).
  { intros options. unfold beforeCalls. now destruct (CopilotRuntime.onBeforeRequest this). }
  unfold directRun.
  destruct (assembled env this request) as [serverSideActions|e]; simpl; [|assumption].
  destruct (beforeOutcome this (directBeforeOptions env request)) as [[]|e]; simpl.
  - destruct (process _ _); simpl; rewrite !filter_app, Hassembly, Hbefore; reflexivity.
  - rewrite filter_app, Hassembly, Hbefore. reflexivity.
Qed.

(** X15. With [delegateAgentProcessingToServiceAdapter] set, a turn never
    calls a remote agent handler, agent session or not; when it returns, the
    service adapter has been called with the agent session and the agent
    states of the request. *)
Theorem delegating_runtime_uses_adapter env this request w w' r :
  CopilotRuntime.delegateAgentProcessingToServiceAdapter this = true ->
  processRuntimeRequest env this request w = (w', r) ->
  filter isRemoteAgentHandlerCall (calls w') = filter isRemoteAgentHandlerCall (calls w)
  /\ (forall response, r = Returned response ->
        exists processRequest,
          In (ServiceAdapterProcess processRequest) (calls w')
          /\ AdapterRequest.agentSession processRequest
             = CopilotRuntimeRequest.agentSession request
          /\ AdapterRequest.agentStates processRequest
             = CopilotRuntimeRequest.agentStates request).
Proof.
  intros Hflag H.
  assert (Hdirect : agentDelegated this request = false)
    by (unfold agentDelegated; rewrite Hflag; apply andb_false_r).
  split.
  - apply turn_run in H. destruct H as (_ & Hc & _). rewrite Hc, filter_app.
    unfold turnRun, bodyRun. rewrite Hdirect.
    destruct (isEmptyAdapter (CopilotRuntimeRequest.serviceAdapter request)); simpl.
    + now rewrite app_nil_r.
    + destruct (run_outcome (directRun env this request)) as [response|e];
        [now rewrite no_handler_directRun, app_nil_r|].
      destruct (instanceofCopilotKitError e); simpl;
        rewrite ?filter_app, no_handler_directRun; simpl; now rewrite app_nil_r.
  - intros response ->. apply turn_returns in H. destruct H as (Hout & Hc & _).
    unfold bodyRun in *. rewrite Hdirect in *.
    destruct (isEmptyAdapter (CopilotRuntimeRequest.serviceAdapter request)); [discriminate|].
    apply directRun_returns in Hout.
    destruct Hout as (actions & result & _ & _ & _ & _ & Hcalls & _).
    exists (adapterRequest env request actions). split; [|split; reflexivity].
    rewrite Hc, Hcalls. apply in_or_app. right. apply in_or_app. right.
    apply in_or_app. right. now left.
Qed.

Lemma delegating_runtime_uses_adapter_witness :
  exists w' response,
    processRuntimeRequest Sample.env Failing.delegating
      (Sample.request Sample.adapter [] (Some (Sample.session "A")) None) Sample.world
    = (w', Returned response)
    /\ filter isRemoteAgentHandlerCall (calls w') = [].
Proof.
  destruct (@delegating_runtime_uses_adapter Sample.env Failing.delegating
              (Sample.request Sample.adapter [] (Some (Sample.session "A")) None)
              Sample.world _ _ eq_refl eq_refl) as (Hnone & _).
  do 2 eexists. split; [cbv; reflexivity | exact Hnone].
Defined.

(** ** The after-hook of a turn that returns *)

Lemma returned_turn_task env this request w w' response :
  processRuntimeRequest env this request w = (w', Returned response) ->
  exists task,
    detached w' = detached w ++ [task]
    /\ task_promise task = CopilotRuntimeRequest.outputMessagesPromise request
    /\ task_hook task = CopilotRuntime.onAfterRequest this
    /\ forall outputMessages,
         let options := task_options task outputMessages in
         OnAfterRequestOptions.threadId options = CopilotRuntimeResponse.threadId response
         /\ OnAfterRequestOptions.runId options = CopilotRuntimeResponse.runId response
         /\ OnAfterRequestOptions.outputMessages options = outputMessages
         /\ OnAfterRequestOptions.properties options
            = properties (CopilotRuntimeRequest.graphqlContext request).
Proof.
  intros H. apply turn_returns in H. destruct H as (Hout & _ & _ & Ht).
  unfold bodyRun in *. destruct (agentDelegated this request).
  - apply agentRun_returns in Hout.
    destruct Hout as (session & actions & currentAgent & handler & stream
                      & _ & _ & _ & _ & _ & _ & -> & _ & Htasks).
    exists (agentTask env this request session). rewrite Ht, Htasks. now repeat split.
  - destruct (isEmptyAdapter (CopilotRuntimeRequest.serviceAdapter request)); [discriminate|].
    apply directRun_returns in Hout.
    destruct Hout as (actions & result & _ & _ & _ & -> & _ & Htasks).
    exists (directTask env this request result). rewrite Ht, Htasks. now repeat split.
Qed.

(** X16. A turn that returns has attached one chain to the output-messages
    promise.  When that chain runs, the after-hook is called at most once,
    and only if the promise is fulfilled and the runtime has an after-hook:
    with the output messages of the promise, the thread id and the run id of
    the response, and the properties of the request context. *)
Theorem after_hook_call env this request w w' response :
  processRuntimeRequest env this request w = (w', Returned response) ->
  exists task,
    detached w' = detached w ++ [task]
    /\ forall options, In options (hookCalls (settle task)) ->
         hookCalls (settle task) = [options]
         /\ CopilotRuntime.onAfterRequest this <> None
         /\ CopilotRuntimeRequest.outputMessagesPromise request
            = Returned (OnAfterRequestOptions.outputMessages options)
         /\ OnAfterRequestOptions.threadId options = CopilotRuntimeResponse.threadId response
         /\ OnAfterRequestOptions.runId options = CopilotRuntimeResponse.runId response
         /\ OnAfterRequestOptions.properties options
            = properties (CopilotRuntimeRequest.graphqlContext request).
Proof.
  intros H. destruct (returned_turn_task _ _ _ _ H) as (task & Ht & Hpromise & Hhook & Hoptions).
  exists task. split; [assumption|]. intros options Hin.
  unfold settle in *. rewrite Hpromise, Hhook in *.
  destruct (CopilotRuntimeRequest.outputMessagesPromise request) as [outputMessages|e];
    [|destruct Hin].
  destruct (CopilotRuntime.onAfterRequest this) as [hook|]; [|destruct Hin].
  destruct (Hoptions outputMessages) as (Hthread & Hrun & Houtput & Hproperties).
  assert (Heq : options = task_options task outputMessages).
  { destruct (hook (task_options task outputMessages)); simpl in Hin;
      destruct Hin as [Hin|[]]; now symmetry. }
  subst options. rewrite Houtput.
  split; [now destruct (hook (task_options task outputMessages))|].
  split; [discriminate|]. now repeat split.
Qed.

Lemma after_hook_call_witness :
  exists w' response task,
    processRuntimeRequest Sample.env Sample.runtimeWithAfterHook
      (Sample.request Sample.adapter [] None (Some "t-1")) Sample.world
    = (w', Returned response)
    /\ detached w' = [task]
    /\ map OnAfterRequestOptions.threadId (hookCalls (settle task)) = [Some "t-1"].
Proof.
  destruct (@after_hook_call Sample.env Sample.runtimeWithAfterHook
              (Sample.request Sample.adapter [] None (Some "t-1")) Sample.world _ _ eq_refl)
    as (task & Ht & Hcall).
  do 2 eexists. exists task. split; [cbv; reflexivity|]. split; [exact Ht|].
  simpl in Ht. inversion Ht; subst task. reflexivity.
Defined.

(** X17. A turn that returns has attached one chain to the output-messages
    promise.  When the promise is rejected, the chain does not call the
    after-hook and drops the error; when the after-hook throws before it
    returns, the chain drops that error.  In both cases no rejection is left
    unhandled. *)
Theorem after_hook_failures_dropped env this request w w' response :
  processRuntimeRequest env this request w = (w', Returned response) ->
  exists task,
    detached w' = detached w ++ [task]
    /\ (forall e, CopilotRuntimeRequest.outputMessagesPromise request = Threw e ->
          hookCalls (settle task) = []
          /\ swallowed (settle task) = Some e
          /\ unhandledRejection (settle task) = None)
    /\ (forall outputMessages hook e,
          CopilotRuntimeRequest.outputMessagesPromise request = Returned outputMessages ->
          CopilotRuntime.onAfterRequest this = Some hook ->
          hook (task_options task outputMessages) = HookThrows e ->
          swallowed (settle task) = Some e
          /\ unhandledRejection (settle task) = None).
Proof.
  intros H. destruct (returned_turn_task _ _ _ _ H) as (task & Ht & Hpromise & Hhook & _).
  exists task. split; [assumption|]. split.
  - intros e He. unfold settle. rewrite Hpromise, He. now repeat split.
  - intros outputMessages hook e Hout Hsome Hthrows.
    unfold settle. rewrite Hpromise, Hout, Hhook, Hsome, Hthrows. now split.
Qed.

Lemma after_hook_failures_dropped_witness :
  exists w' response task,
    processRuntimeRequest Sample.env Sample.runtimeWithAfterHook
      (withOutputMessages (Sample.request Sample.adapter [] None (Some "t-1"))
         (Threw (JsError "stream aborted")))
      Sample.world
    = (w', Returned response)
    /\ detached w' = [task]
    /\ swallowed (settle task) = Some (JsError "stream aborted")
    /\ unhandledRejection (settle task) = None.
Proof.
  destruct (@after_hook_failures_dropped Sample.env Sample.runtimeWithAfterHook
              (withOutputMessages (Sample.request Sample.adapter [] None (Some "t-1"))
                 (Threw (JsError "stream aborted")))
              Sample.world _ _ eq_refl)
    as (task & Ht & Hrejected & _).
  do 2 eexists. exists task. split; [cbv; reflexivity|]. split; [exact Ht|].
  destruct (Hrejected _ eq_refl) as (_ & Hswallowed & Hnone). now split.
Defined.

(** X18. The outcome of a turn and the calls it makes do not depend on the
    after-hook of the runtime nor on how the output-messages promise
    settles. *)
Theorem turn_independent_of_after_hook env this request hook promise w :
  let changed :=
    processRuntimeRequest env (withAfterHook this hook) (withOutputMessages request promise) w in
  let original := processRuntimeRequest env this request w in
  snd changed = snd original
  /\ calls (fst changed) = calls (fst original)
  /\ drawn (fst changed) = drawn (fst original).
Proof.
  intros changed original.
  destruct (@turn_ignores_after_hook env this request hook promise w w (sameCalls_refl w))
    as [[Hcalls Hdrawn] Houtcome].
  now repeat split.
Qed.

(** ** Further properties of agent discovery *)

Lemma prepend_prepend a b r : prepend a (prepend b r) = prepend (a ++ b) r.
Proof. destruct r as [w [more|e]]; simpl; [now rewrite app_assoc | reflexivity]. Qed.

Lemma discoverEndpoint_prepend env graphqlContext agents endpoint w :
  discoverEndpoint env graphqlContext agents endpoint w
  = prepend agents (discoverEndpoint env graphqlContext [] endpoint w).
Proof.
  unfold discoverEndpoint. destruct (is_type endpoint LangGraphPlatform).
  - unfold await, bind, call, settled, ret.
    destruct (assistantsSearch env (langGraphClient endpoint graphqlContext)); reflexivity.
  - unfold try_catch, await, bind at 1 2 5 6, call, settled.
    destruct (fetchInfo env (infoUrl endpoint) (infoInit env endpoint graphqlContext))
      as [response|e]; simpl.
    2:{ destruct (instanceofCopilotKitError e); reflexivity. }
    destruct (ok response); simpl.
    2:{ destruct (status response =? 404)%Z; [reflexivity|].
        unfold throwResolvedCopilotKitError.
        destruct (resolvedErrorConstructor env (status response) (infoUrl endpoint) true)
          as [thrown|]; simpl; [|reflexivity].
        destruct (instanceofCopilotKitError thrown); reflexivity. }
    unfold bind at 1 3.
    destruct (json response) as [data|e]; simpl.
    2:{ destruct (instanceofCopilotKitError e); reflexivity. }
    unfold bind.
    match goal with
    | |- context [mapM ?f ?l ?world] => destruct (mapM_infoAgent env endpoint l world)
                                          as (w' & Hmap & _)
    end.
    rewrite Hmap. reflexivity.
Qed.

Lemma fold_reducer_from env graphqlContext endpoints : forall (acc : M (list Agent.t)) w,
  fold_left (reducer env graphqlContext) endpoints acc w
  = match acc w with
    | (w1, Returned agents) => prepend agents (discoverFrom env graphqlContext endpoints w1)
    | (w1, Threw e) => (w1, Threw e)
    end.
Proof.
  unfold discoverFrom.
  induction endpoints as [|endpoint rest IH]; intros acc w; simpl.
  - destruct (acc w) as [w1 [agents|e]]; simpl; [now rewrite app_nil_r | reflexivity].
  - rewrite IH. unfold reducer at 1, bind at 1.
    destruct (acc w) as [w1 [agents|e]]; [|reflexivity].
    rewrite (IH (reducer env graphqlContext (ret []) endpoint) w1).
    unfold reducer, bind, ret.
    rewrite discoverEndpoint_prepend.
    destruct (discoverEndpoint env graphqlContext [] endpoint w1) as [w2 [more|e]]; simpl;
      [|reflexivity].
    now rewrite prepend_prepend.
Qed.

(** X19. Discovery over a list of endpoints is discovery over its first
    part followed by discovery over the rest: the agents come in the order
    of the endpoints, an endpoint's agents after those of the endpoints
    before it; when a part throws, discovery throws that error in the world
    that part left, and no later endpoint is contacted. *)
Theorem discovery_in_endpoint_order env this graphqlContext first second w :
  CopilotRuntime.remoteEndpointDefinitions this = first ++ second ->
  discoverAgentsFromEndpoints env this graphqlContext w
  = match discoverFrom env graphqlContext first w with
    | (w1, Returned agents) =>
        match discoverFrom env graphqlContext second w1 with
        | (w2, Returned more) => (w2, Returned (agents ++ more))
        | (w2, Threw e) => (w2, Threw e)
        end
    | (w1, Threw e) => (w1, Threw e)
    end.
Proof.
  intros Hsplit. unfold discoverAgentsFromEndpoints. rewrite Hsplit, fold_left_app.
  rewrite fold_reducer_from. fold (discoverFrom env graphqlContext first).
  destruct (discoverFrom env graphqlContext first w) as [w1 [agents|e]]; [|reflexivity].
  unfold prepend. now destruct (discoverFrom env graphqlContext second w1) as [w2 [more|e]].
Qed.

Lemma discovery_in_endpoint_order_witness :
  snd (discoverAgentsFromEndpoints Sample.env
         (Sample.runtime [Sample.platform; Sample.direct "http://direct";
                          Sample.direct "http://gone"; Sample.direct "http://direct"])
         Sample.context Sample.world)
  = Threw (CopilotKitApiDiscoveryError "http://gone/info").
Proof.
  rewrite (@discovery_in_endpoint_order Sample.env
             (Sample.runtime [Sample.platform; Sample.direct "http://direct";
                              Sample.direct "http://gone"; Sample.direct "http://direct"])
             Sample.context
             [Sample.platform; Sample.direct "http://direct"; Sample.direct "http://gone"]
             [Sample.direct "http://direct"] Sample.world eq_refl).
  reflexivity.
Defined.

Lemma discoverFrom_cons env graphqlContext endpoint rest w :
  discoverFrom env graphqlContext (endpoint :: rest) w
  = match discoverEndpoint env graphqlContext [] endpoint w with
    | (w1, Returned agents) => prepend agents (discoverFrom env graphqlContext rest w1)
    | (w1, Threw e) => (w1, Threw e)
    end.
Proof.
  unfold discoverFrom at 1. simpl. rewrite fold_reducer_from. reflexivity.
Qed.

Lemma step_agents env graphqlContext endpoint w w' agents :
  discoverEndpoint env graphqlContext [] endpoint w = (w', Returned agents) ->
  Forall (fun agent => Agent.endpoint agent = endpoint
                       /\ (fromPlatform agent = true -> Agent.description agent = EmptyString))
         agents.
Proof.
  intros H. apply Forall_forall. intros agent Hin.
  destruct (is_type endpoint LangGraphPlatform) eqn:Htype.
  - destruct (@discoverEndpoint_platform_inv _ _ _ _ _ _ _ Htype H) as (data & _ & -> & _).
    simpl in Hin. unfold platformAgents in Hin. apply in_map_iff in Hin.
    destruct Hin as (assistant & <- & _). simpl. now split.
  - destruct (@discoverEndpoint_direct_inv _ _ _ _ _ _ _ Htype H)
      as (response & data & _ & _ & -> & _).
    simpl in Hin. apply agentsWithFreshIds_endpoint in Hin. split; [assumption|].
    unfold fromPlatform. rewrite Hin, Htype. discriminate.
Qed.

Lemma discoverFrom_agents env graphqlContext endpoints : forall w w' result,
  discoverFrom env graphqlContext endpoints w = (w', Returned result) ->
  Forall (fun agent => In (Agent.endpoint agent) endpoints
                       /\ (fromPlatform agent = true -> Agent.description agent = EmptyString))
         result.
Proof.
  induction endpoints as [|endpoint rest IH]; intros w w' result H.
  - inversion H; subst. constructor.
  - rewrite discoverFrom_cons in H.
    destruct (discoverEndpoint env graphqlContext [] endpoint w) as [w1 [agents|e]] eqn:Hstep;
      [|discriminate].
    destruct (discoverFrom env graphqlContext rest w1) as [w2 [more|e]] eqn:Hrest;
      [|discriminate].
    simpl in H. inversion H; subst.
    apply Forall_app. split.
    + apply step_agents in Hstep. eapply Forall_impl; [|exact Hstep].
      intros agent [-> Hdescription]. split; [now left | assumption].
    + apply IH in Hrest. eapply Forall_impl; [|exact Hrest].
      intros agent [Hin Hdescription]. split; [now right | assumption].
Qed.

(** X20. Every agent discovery returns carries, as its endpoint, one of the
    endpoint definitions of the runtime, as configured; an agent of a
    LangGraph Platform endpoint has the empty description. *)
Theorem discovered_agents_keep_endpoints env this graphqlContext w w' result :
  discoverAgentsFromEndpoints env this graphqlContext w = (w', Returned result) ->
  Forall (fun agent =>
            In (Agent.endpoint agent) (CopilotRuntime.remoteEndpointDefinitions this)
            /\ (fromPlatform agent = true -> Agent.description agent = EmptyString))
         result.
Proof.
  unfold discoverAgentsFromEndpoints. intros H.
  eapply discoverFrom_agents. exact H.
Qed.

Lemma discovered_agents_keep_endpoints_witness :
  exists w' result,
    discoverAgentsFromEndpoints Sample.env
      (Sample.runtime [Sample.platform; Sample.direct "http://direct"]) Sample.context
      Sample.world
    = (w', Returned result)
    /\ Forall (fun agent => In (Agent.endpoint agent)
                               [Sample.platform; Sample.direct "http://direct"]) result.
Proof.
  pose proof (@discovered_agents_keep_endpoints Sample.env
                (Sample.runtime [Sample.platform; Sample.direct "http://direct"])
                Sample.context Sample.world _ _ eq_refl) as H.
  do 2 eexists. split; [cbv; reflexivity|].
  eapply Forall_impl; [|exact H]. intros agent [Hin _]. exact Hin.
Defined.

Lemma discoverEndpoint_search_throws env graphqlContext agents endpoint w e :
  is_type endpoint LangGraphPlatform = true ->
  assistantsSearch env (langGraphClient endpoint graphqlContext) = Threw e ->
  snd (discoverEndpoint env graphqlContext agents endpoint w) = Threw e.
Proof.
  intros Htype Hsearch. unfold discoverEndpoint. rewrite Htype.
  unfold await, bind, call, settled. now rewrite Hsearch.
Qed.

Lemma discoverEndpoint_body_throws env graphqlContext agents endpoint w response cause :
  is_type endpoint LangGraphPlatform = false ->
  fetchInfo env (infoUrl endpoint) (infoInit env endpoint graphqlContext) = Returned response ->
  ok response = true ->
  json response = Threw cause ->
  snd (discoverEndpoint env graphqlContext agents endpoint w)
  = Threw (if instanceofCopilotKitError cause then cause
           else CopilotKitLowLevelError cause (infoUrl endpoint)).
Proof.
  intros Htype Hfetch Hok Hjson. unfold discoverEndpoint. rewrite Htype.
  unfold try_catch, await, bind, call, settled. rewrite Hfetch, Hok. simpl. rewrite Hjson.
  now destruct (instanceofCopilotKitError cause).
Qed.

(** X21. Discovery reaches [endpoint] after the endpoints before it have
    answered.  If it is a LangGraph Platform endpoint whose assistant search
    throws, discovery throws that very error, not wrapped.  If it is a
    CopilotKit endpoint that answers [/info] with a status in 200..299 and a
    body that cannot be read, discovery throws the low-level error that
    wraps the error of reading the body and the URL. *)
Theorem discovery_other_failures env this graphqlContext before endpoint after agents w w1 :
  CopilotRuntime.remoteEndpointDefinitions this = before ++ endpoint :: after ->
  fold_left (reducer env graphqlContext) before (ret []) w = (w1, Returned agents) ->
  let thrown := snd (discoverAgentsFromEndpoints env this graphqlContext w) in
  (is_type endpoint LangGraphPlatform = true ->
   forall e, assistantsSearch env (langGraphClient endpoint graphqlContext) = Threw e ->
             thrown = Threw e)
  /\ (is_type endpoint LangGraphPlatform = false ->
      forall response cause,
        fetchInfo env (infoUrl endpoint) (infoInit env endpoint graphqlContext)
        = Returned response ->
        (200 <= status response <= 299)%Z ->
        json response = Threw cause ->
        instanceofCopilotKitError cause = false ->
        thrown = Threw (CopilotKitLowLevelError cause (infoUrl endpoint))).
Proof.
  intros Hsplit Hbefore thrown.
  assert (Hstop : forall e,
            snd (discoverEndpoint env graphqlContext agents endpoint w1) = Threw e ->
            thrown = Threw e).
  { intros e He. apply snd_Threw in He. destruct He as [w2 He]. unfold thrown.
    erewrite discovery_stops_at_first_error; [reflexivity | eassumption ..]. }
  split.
  - intros Htype e Hsearch. apply Hstop. now apply discoverEndpoint_search_throws.
  - intros Htype response cause Hfetch Hrange Hjson Hplain. apply Hstop.
    erewrite discoverEndpoint_body_throws; [|eassumption | eassumption | | eassumption].
    + now rewrite Hplain.
    + unfold ok. apply andb_true_iff. split; lia.
Qed.

Lemma discovery_other_failures_witness :
  snd (discoverAgentsFromEndpoints Failing.env
         (Sample.runtime [Sample.direct "http://direct"; Sample.platform]) Sample.context
         Sample.world)
  = Threw (JsError "platform unreachable").
Proof.
  refine (proj1 (@discovery_other_failures Failing.env
                   (Sample.runtime [Sample.direct "http://direct"; Sample.platform])
                   Sample.context [Sample.direct "http://direct"] Sample.platform [] _
                   Sample.world _ eq_refl eq_refl) eq_refl _ eq_refl).
Defined.

Lemma mapM_infoAgent_calls env endpoint entries : forall w,
  exists w' agents,
    mapM (infoAgent env endpoint) entries w = (w', Returned agents)
    /\ calls w' = calls w ++ repeat RandomId (length entries).
Proof.
  induction entries as [|entry rest IH]; intros w.
  - exists w, []. split; [reflexivity | simpl; now rewrite app_nil_r].
  - simpl mapM. unfold infoAgent at 1. unfold randomId, bind at 1 2, ret at 1.
    match goal with
    | |- context [bind (mapM _ rest) _ ?world] => destruct (IH world) as (w' & agents & Hrest & Hc)
    end.
    eexists w', _. split.
    + erewrite bind_Returned by exact Hrest. reflexivity.
    + rewrite Hc. simpl. now rewrite <- app_assoc.
Qed.

Lemma untagged_is_not_platform endpoint :
  Endpoint.type endpoint = None -> is_type endpoint LangGraphPlatform = false.
Proof. unfold is_type. now intros ->. Qed.

(** X22. Discovery decides how to query an endpoint by the endpoint's own
    type tag, not by [resolveEndpointType]: an endpoint definition without
    tag is queried with a POST to its [url] followed by [/info], also when
    it has the fields of a LangGraph Platform endpoint; the only calls after
    that request are draws of random ids. *)
Theorem discovery_follows_type_tag env this graphqlContext before endpoint agents w w1 :
  CopilotRuntime.remoteEndpointDefinitions this = before ++ [endpoint] ->
  fold_left (reducer env graphqlContext) before (ret []) w = (w1, Returned agents) ->
  Endpoint.type endpoint = None ->
  exists cs,
    calls (fst (discoverAgentsFromEndpoints env this graphqlContext w))
    = calls w1 ++ Fetch (template_opt (Endpoint.url endpoint) ^^ "/info")
                        (infoInit env endpoint graphqlContext) :: cs
    /\ Forall (fun c => c = RandomId) cs.
Proof.
  intros Hsplit Hbefore Htag. apply untagged_is_not_platform in Htag.
  unfold discoverAgentsFromEndpoints. rewrite Hsplit, fold_left_app. simpl.
  unfold reducer at 1. erewrite bind_Returned by eassumption.
  unfold discoverEndpoint. rewrite Htag. fold (infoUrl endpoint).
  unfold try_catch, await, bind at 1 2 3, call, settled. simpl.
  destruct (fetchInfo env (infoUrl endpoint) (infoInit env endpoint graphqlContext))
    as [response|e]; simpl.
  2:{ exists []. destruct (instanceofCopilotKitError e); simpl; split; constructor || reflexivity. }
  destruct (ok response); simpl.
  2:{ exists []. destruct (status response =? 404)%Z; simpl;
        [split; constructor || reflexivity|].
      unfold throwResolvedCopilotKitError.
      destruct (resolvedErrorConstructor env (status response) (infoUrl endpoint) true)
        as [thrown|]; simpl; [|split; constructor || reflexivity].
      destruct (instanceofCopilotKitError thrown); simpl; split; constructor || reflexivity. }
  unfold bind at 1.
  destruct (json response) as [data|e]; simpl.
  2:{ exists []. destruct (instanceofCopilotKitError e); simpl; split; constructor || reflexivity. }
  unfold bind.
  match goal with
  | |- context [mapM ?f ?l ?world] =>
      destruct (mapM_infoAgent_calls env endpoint l world) as (w' & found & Hmap & Hc)
  end.
  rewrite Hmap. simpl. rewrite Hc. simpl. rewrite <- app_assoc. simpl.
  eexists. split; [reflexivity|]. apply Forall_forall. intros c Hin.
  now apply repeat_spec in Hin.
Qed.

Lemma discovery_follows_type_tag_witness :
  resolveEndpointType untaggedPlatform = LangGraphPlatform
  /\ exists cs,
       calls (fst (discoverAgentsFromEndpoints Sample.env (Sample.runtime [untaggedPlatform])
                     Sample.context Sample.world))
       = Fetch "undefined/info" (infoInit Sample.env untaggedPlatform Sample.context) :: cs.
Proof.
  split; [reflexivity|].
  destruct (@discovery_follows_type_tag Sample.env (Sample.runtime [untaggedPlatform])
              Sample.context [] untaggedPlatform [] Sample.world Sample.world
              eq_refl eq_refl eq_refl) as (cs & Hc & _).
  exists cs. exact Hc.
Defined.

(** ** Further properties of [loadAgentState] *)

(** X23. [loadAgentState] requests no state unless discovery has returned an
    agent with the given name: when discovery throws, it throws that error;
    when no discovered agent has the name, it throws the error [Agent not
    found]; in both cases the world is the one discovery left. *)
Theorem loadAgentState_needs_agent env this graphqlContext threadId agentName w w1 r :
  discoverAgentsFromEndpoints env this graphqlContext w = (w1, r) ->
  match r with
  | Threw e => loadAgentState env this graphqlContext threadId agentName w = (w1, Threw e)
  | Returned agents =>
      (forall agent, In agent agents -> Agent.name agent <> agentName) ->
      loadAgentState env this graphqlContext threadId agentName w
      = (w1, Threw (JsError "Agent not found"))
  end.
Proof.
  intros Hdiscover. unfold loadAgentState. destruct r as [agents|e].
  - intros Hnone. erewrite bind_Returned by eassumption.
    assert (Hfind : find (fun agent => String.eqb (Agent.name agent) agentName) agents = None).
    { apply find_none_iff. intros agent Hin. apply String.eqb_neq. now apply Hnone. }
    now rewrite Hfind.
  - now apply bind_Threw.
Qed.

Lemma loadAgentState_needs_agent_witness :
  snd (loadAgentState Sample.env (Sample.runtime [Sample.platform]) Sample.context
         "t-1" "ghost" Sample.world)
  = Threw (JsError "Agent not found").
Proof.
  pose proof (@loadAgentState_needs_agent Sample.env (Sample.runtime [Sample.platform])
                Sample.context "t-1" "ghost" Sample.world _ _ eq_refl) as H.
  simpl in H. rewrite H; [reflexivity|].
  intros agent [<-|[]]. discriminate.
Defined.

Lemma loadAgentState_endpoint env this graphqlContext threadId agentName w w1 agents agent :
  discoverAgentsFromEndpoints env this graphqlContext w = (w1, Returned agents) ->
  find (fun candidate => String.eqb (Agent.name candidate) agentName) agents = Some agent ->
  is_type (Agent.endpoint agent) LangGraphPlatform = false ->
  loadAgentState env this graphqlContext threadId agentName w
  = loadEndpointState env (Agent.endpoint agent) graphqlContext threadId agentName w1.
Proof.
  intros Hdiscover Hfind Htype. unfold loadAgentState.
  erewrite bind_Returned by eassumption. rewrite Hfind, Htype.
  unfold is_type in *. destruct (Endpoint.type (Agent.endpoint agent)) as [[]|];
    simpl in *; reflexivity || discriminate.
Qed.

(** X24. [loadAgentState] for an agent of a CopilotKit endpoint (tagged so,
    or without tag) sends one POST to the endpoint's [url] followed by
    [/agents/state].  A 404 makes it throw the API discovery error with that
    URL.  Any other status outside 200..299 makes it construct the resolved
    error with the status, the URL and the remote-endpoint flag set: it
    throws that error when the constructor builds it; when the constructor
    throws instead, it throws what the constructor threw if that is a
    CopilotKit error, and the low-level error that wraps it and the URL
    otherwise.  An exception of [fetch], or of reading the body, makes it
    throw the low-level error that wraps it and the URL. *)
Theorem endpoint_state_failures env this graphqlContext threadId agentName w w1 agents agent :
  discoverAgentsFromEndpoints env this graphqlContext w = (w1, Returned agents) ->
  find (fun candidate => String.eqb (Agent.name candidate) agentName) agents = Some agent ->
  is_type (Agent.endpoint agent) LangGraphPlatform = false ->
  let endpoint := Agent.endpoint agent in
  let fetchUrl := template_opt (Endpoint.url endpoint) ^^ "/agents/state" in
  let init := stateInit env endpoint graphqlContext threadId agentName in
  let fetched := fetchAgentState env fetchUrl init in
  let run := loadAgentState env this graphqlContext threadId agentName w in
  calls (fst run) = calls w1 ++ [Fetch fetchUrl init]
  /\ (forall response, fetched = Returned response -> status response = 404%Z ->
        snd run = Threw (CopilotKitApiDiscoveryError fetchUrl))
  /\ (forall response, fetched = Returned response ->
        ((status response < 200)%Z \/ (299 < status response)%Z) ->
        status response <> 404%Z ->
        snd run
        = Threw match resolvedErrorConstructor env (status response) fetchUrl true with
                | None => ResolvedCopilotKitError (status response) fetchUrl true
                | Some error =>
                    if instanceofCopilotKitError error then error
                    else CopilotKitLowLevelError error fetchUrl
                end)
  /\ (forall cause, fetched = Threw cause -> instanceofCopilotKitError cause = false ->
        snd run = Threw (CopilotKitLowLevelError cause fetchUrl))
  /\ (forall response cause, fetched = Returned response ->
        (200 <= status response <= 299)%Z -> json response = Threw cause ->
        instanceofCopilotKitError cause = false ->
        snd run = Threw (CopilotKitLowLevelError cause fetchUrl)).
Proof.
  intros Hdiscover Hfind Htype endpoint fetchUrl init fetched run. unfold run.
  erewrite loadAgentState_endpoint by eassumption.
  unfold loadEndpointState. fold endpoint. fold (stateUrl endpoint).
  change (stateUrl endpoint) with fetchUrl. fold init. fold fetched.
  unfold try_catch, await, bind, call, settled, throwResolvedCopilotKitError, throw, ret. simpl.
  split.
  { destruct fetched as [response|e]; simpl.
    - destruct (ok response); simpl.
      + destruct (json response) as [data|e]; simpl; [reflexivity|].
        now destruct (instanceofCopilotKitError e).
      + destruct (status response =? 404)%Z; [reflexivity|].
        destruct (resolvedErrorConstructor env (status response) fetchUrl true)
          as [thrown|]; simpl; [|reflexivity].
        now destruct (instanceofCopilotKitError thrown).
    - now destruct (instanceofCopilotKitError e). }
  split; [|split; [|split]].
  - intros response -> H404. simpl. rewrite (ok_404 _ H404). simpl. now rewrite H404.
  - intros response -> Hrange Hnot. simpl.
    assert (Hok : ok response = false).
    { unfold ok. apply andb_false_iff. destruct Hrange; [left|right]; lia. }
    rewrite Hok. simpl. destruct (Z.eqb_spec (status response) 404); [contradiction|].
    destruct (resolvedErrorConstructor env (status response) fetchUrl true)
      as [thrown|]; simpl; [|reflexivity].
    now destruct (instanceofCopilotKitError thrown).
  - intros cause -> Hplain. simpl. now rewrite Hplain.
  - intros response cause -> Hrange Hjson Hplain. simpl.
    assert (Hok : ok response = true) by (unfold ok; apply andb_true_iff; split; lia).
    rewrite Hok. simpl. rewrite Hjson. simpl. now rewrite Hplain.
Qed.

Lemma endpoint_state_failures_witness :
  snd (loadAgentState Failing.env (Sample.runtime [Sample.direct "http://stateless"])
         Sample.context "t-1" "lost" Sample.world)
  = Threw (CopilotKitApiDiscoveryError "http://stateless/agents/state")
  /\ snd (loadAgentState Failing.env (Sample.runtime [Sample.direct "http://refusing"])
            Sample.context "t-1" "shut" Sample.world)
     = Threw (CopilotKitApiDiscoveryError "http://refusing/agents/state").
Proof.
  split.
  - destruct (@endpoint_state_failures Failing.env
                (Sample.runtime [Sample.direct "http://stateless"])
                Sample.context "t-1" "lost" Sample.world _ _ _ eq_refl eq_refl eq_refl)
      as (_ & H404 & _).
    exact (H404 _ eq_refl eq_refl).
  - destruct (@endpoint_state_failures Failing.env
                (Sample.runtime [Sample.direct "http://refusing"])
                Sample.context "t-1" "shut" Sample.world _ _ _ eq_refl eq_refl eq_refl)
      as (_ & _ & Hother & _).
    refine (Hother _ eq_refl _ _); simpl; [right; lia | lia].
Defined.

(** X25. [loadAgentState] for an agent of a CopilotKit endpoint that answers
    [/agents/state] with a status in 200..299 returns the [threadId] and
    [threadExists] the endpoint sent, whatever thread id was asked for, and
    the endpoint's [state] and [messages] serialized again. *)
Theorem endpoint_state_snapshot env this graphqlContext threadId agentName w w1 agents agent
    response data :
  discoverAgentsFromEndpoints env this graphqlContext w = (w1, Returned agents) ->
  find (fun candidate => String.eqb (Agent.name candidate) agentName) agents = Some agent ->
  is_type (Agent.endpoint agent) LangGraphPlatform = false ->
  fetchAgentState env (template_opt (Endpoint.url (Agent.endpoint agent)) ^^ "/agents/state")
    (stateInit env (Agent.endpoint agent) graphqlContext threadId agentName)
  = Returned response ->
  (200 <= status response <= 299)%Z ->
  json response = Returned data ->
  snd (loadAgentState env this graphqlContext threadId agentName w)
  = Returned {| LoadAgentStateResponse.threadId := body_threadId data;
                LoadAgentStateResponse.threadExists := body_threadExists data;
                LoadAgentStateResponse.state := stringify (body_state data);
                LoadAgentStateResponse.messages := stringify (body_messages data) |}.
Proof.
  intros Hdiscover Hfind Htype Hfetch Hrange Hjson.
  erewrite loadAgentState_endpoint by eassumption.
  unfold loadEndpointState, stateUrl.
  unfold try_catch, await, bind, call, settled, throw, ret. simpl.
  rewrite Hfetch. simpl.
  assert (Hok : ok response = true) by (unfold ok; apply andb_true_iff; split; lia).
  rewrite Hok. simpl. now rewrite Hjson.
Qed.

Lemma endpoint_state_snapshot_witness :
  snd (loadAgentState Failing.env (Sample.runtime [Sample.direct "http://direct"])
         Sample.context "t-1" "helper" Sample.world)
  = Returned (LoadAgentStateResponse.mk "t-remote" true
                ("{" ^^ quote ^^ "step" ^^ quote ^^ ":3}") "[]").
Proof.
  refine (@endpoint_state_snapshot Failing.env (Sample.runtime [Sample.direct "http://direct"])
            Sample.context "t-1" "helper" Sample.world _ _ _ _ _
            eq_refl eq_refl eq_refl eq_refl _ eq_refl).
  simpl. lia.
Defined.

(** ** Further properties of the constructor *)

(** X26. A runtime constructed with [actions] as a list and without
    [remoteEndpoints] keeps these actions, with no warning, also when the
    deprecated [remoteActions] are given, which then are its endpoints; the
    server-side actions of each of its turns start with the configured
    actions, followed by the loaded langserve chains and the remote
    actions. *)
Theorem actions_kept_without_remote_endpoints env params configured w0 w1 this :
  CopilotRuntimeConstructorParams.actions params = Some (ActionsArray configured) ->
  CopilotRuntimeConstructorParams.remoteEndpoints params = None ->
  constructor env (Some params) w0 = (w1, Returned this) ->
  w1 = w0
  /\ CopilotRuntime.remoteEndpointDefinitions this
     = orElse (CopilotRuntimeConstructorParams.remoteActions params) []
  /\ forall request w remoteActions,
       setupRemoteActions env (setupParams env this request) = Returned remoteActions ->
       snd (getServerSideActions env this request w)
       = Returned (configured ++ loadedChains (CopilotRuntime.langserve this) ++ remoteActions).
Proof.
  intros Hactions Hendpoints Hnew.
  unfold constructor in Hnew. simpl in Hnew. rewrite Hactions, Hendpoints in Hnew.
  simpl in Hnew. unfold bind, ret in Hnew. simpl in Hnew.
  inversion Hnew; subst; clear Hnew. simpl.
  split; [reflexivity|]. split; [reflexivity|].
  intros request w remoteActions Hsetup.
  match goal with
  | |- snd (getServerSideActions env ?rt request w) = _ =>
      destruct (getServerSideActions_steps env rt request w) as (w' & Hrun & _);
      rewrite Hrun; simpl; unfold assembled, configuredActions; simpl in *
  end.
  now rewrite Hsetup.
Qed.

Lemma actions_kept_without_remote_endpoints_witness :
  exists this,
    constructor Sample.env (Some deprecatedParams) Sample.world = (Sample.world, Returned this)
    /\ snd (getServerSideActions Sample.env this
              (Sample.request Sample.adapter [] None None) Sample.world)
       = Returned [Sample.lookup; Sample.agentA; Sample.search].
Proof.
  eexists. split; [cbv; reflexivity|].
  destruct (@actions_kept_without_remote_endpoints Sample.env deprecatedParams
              [Sample.lookup] Sample.world _ _ eq_refl eq_refl eq_refl) as (_ & _ & H).
  exact (H (Sample.request Sample.adapter [] None None) Sample.world
           [Sample.agentA; Sample.search] eq_refl).
Defined.
